(** * Movie catalog API: routes/movies.py and schemas/movies.py

    A shallow embedding of the five request handlers (list, detail, create,
    update, delete) and of the validation schemas they use, followed by the
    properties of the handlers.

    Conventions.
    - A Python object with dynamic attributes (an ORM instance, a [dict]) is a
      finite map from attribute names to values.
    - A [datetime.date] is its proleptic ordinal ([date.toordinal()]).
    - A [float] is an IEEE 754 binary64 value ([spec_float] at precision 53).
    - An [await]ed session call is a step of a state-and-exception monad that
      also records which session calls were made. *)

From Stdlib Require Import ZArith Lia Floats.SpecFloat.
From stdpp Require Import gmap strings list fin_maps sorting.

Open Scope Z_scope.

(** ** Python numbers *)

Module Py.

(** binary64 *)
Definition prec : Z := 53.
Definition emax : Z := 1024.

Definition float_of_int (n : Z) : spec_float := binary_normalize prec emax n 0 false.

Definition float_le (x y : spec_float) : bool := SFleb x y.
Definition float_lt (x y : spec_float) : bool := SFltb x y.

(** [b * 2^k <= a], for [k] of either sign. *)
Definition scaled_le (b k a : Z) : bool :=
  if 0 <=? k then b * 2 ^ k <=? a else b <=? a * 2 ^ (- k).

(** floor (log2 (a / b)) for positive [a] and [b], from the bit lengths. *)
Definition floor_log2_quot (a b : Z) : Z :=
  let d := Z.log2 a - Z.log2 b in
  if scaled_le b d a then d else d - 1.

(** The integer nearest to [num / den], ties to even. *)
Definition round_half_even (num den : Z) : Z :=
  let q := num / den in
  let r := num mod den in
  if 2 * r <? den then q
  else if den <? 2 * r then q + 1
  else if Z.even q then q else q + 1.

(** Mantissa and exponent of the binary64 nearest to [a / b] (both positive);
    [None] when the quotient is too large for a float. *)
Definition round_quot (a b : Z) : option (Z * Z) :=
  let e := Z.max (floor_log2_quot a b - 52) (-1074) in
  let m := if 0 <=? e then round_half_even a (b * 2 ^ e)
           else round_half_even (a * 2 ^ (- e)) b in
  let '(m, e) := if m =? 2 ^ 53 then (2 ^ 52, e + 1) else (m, e) in
  if 1024 <? e + 53 then None else Some (m, e).

(** [a / b] on two [int]s: the correctly rounded quotient. [None] stands for
    ZeroDivisionError and OverflowError. *)
Definition int_truediv (a b : Z) : option spec_float :=
  if b =? 0 then None
  else
    let sign := xorb (a <? 0) (b <? 0) in
    if a =? 0 then Some (S754_zero false)
    else
      match round_quot (Z.abs a) (Z.abs b) with
      | None => None
      | Some (m, e) =>
          match m with
          | Zpos p => Some (S754_finite sign p e)
          | _ => Some (S754_zero sign)
          end
      end.

(** The least integer not below [m * 2^e]. *)
Definition ceil_scaled (m e : Z) : Z :=
  if 0 <=? e then m * 2 ^ e else - ((- m) / 2 ^ (- e)).

(** [math.ceil] on a float; [None] for an infinity or a NaN. *)
Definition math_ceil (x : spec_float) : option Z :=
  match x with
  | S754_zero _ => Some 0
  | S754_finite s m e => Some (ceil_scaled (if s then Z.neg m else Z.pos m) e)
  | _ => None
  end.

(** The least integer [c] with [a <= c * b], in exact arithmetic. *)
Definition ceil_div (a b : Z) : Z := (a + b - 1) / b.

(** [decimal.Decimal]: [coefficient * 10 ^ exponent]. *)
Record Decimal := mkDecimal { coefficient : Z; exponent : Z }.

Definition decimal_lt_zero (d : Decimal) : bool := coefficient d <? 0.

(** Number of decimal digits of the coefficient (one for zero). *)
Definition coefficient_digits (d : Decimal) : Z :=
  Z.of_nat (Decimal.nb_digits (N.to_uint (Z.abs_N (coefficient d)))).

Fixpoint strip_zeros (fuel : nat) (c e : Z) : Z * Z :=
  match fuel with
  | O => (c, e)
  | S fuel => if c mod 10 =? 0 then strip_zeros fuel (c / 10) (e + 1) else (c, e)
  end.

(** [Decimal.normalize]: the trailing zeros of the coefficient move into the
    exponent; zero becomes [0E0]. *)
Definition normalize (d : Decimal) : Decimal :=
  if coefficient d =? 0 then mkDecimal 0 0
  else
    let '(c, e) := strip_zeros (Z.to_nat (coefficient_digits d))
                               (coefficient d) (exponent d) in
    mkDecimal c e.

End Py.

(** ** schemas/movies.py *)

Inductive MovieStatusEnum := RELEASED | POST_PRODUCTION | IN_PRODUCTION.

Definition MovieStatusEnum_value (e : MovieStatusEnum) : string :=
  match e with
  | RELEASED => "Released"
  | POST_PRODUCTION => "Post Production"
  | IN_PRODUCTION => "In Production"
  end.

(** [MovieStatusEnum(s)]: lookup of a member by its value. *)
Definition MovieStatusEnum_of_value (s : string) : option MovieStatusEnum :=
  if decide (s = "Released") then Some RELEASED
  else if decide (s = "Post Production") then Some POST_PRODUCTION
  else if decide (s = "In Production") then Some IN_PRODUCTION
  else None.

(** Values held by request bodies, schema instances and ORM attributes. *)
Inductive value :=
| VNone
| VStr (s : string)
| VInt (n : Z)
| VFloat (x : spec_float)
| VDecimal (d : Py.Decimal)
| VDate (ordinal : Z)
| VStatus (e : MovieStatusEnum)
| VList (l : list string).

#[global] Instance MovieStatusEnum_eq_dec : EqDecision MovieStatusEnum.
Proof. solve_decision. Defined.
#[global] Instance spec_float_eq_dec : EqDecision spec_float.
Proof. solve_decision. Defined.
#[global] Instance Decimal_eq_dec : EqDecision Py.Decimal.
Proof. solve_decision. Defined.
#[global] Instance value_eq_dec : EqDecision value.
Proof. solve_decision. Defined.

(** What can go wrong with one field of a request body. *)
Inductive field_error :=
| Missing
| WrongType
| ConstraintViolated
| ValueError (msg : string).

#[global] Instance field_error_eq_dec : EqDecision field_error.
Proof. solve_decision. Defined.

(** A pydantic ValidationError: the failing fields, each with its error. *)
Definition errors := list (string * field_error).

(** Validation collects the errors of all fields. *)
Definition vap {A B} (f : errors + (A → B)) (x : errors + A) : errors + B :=
  match f, x with
  | inr g, inr a => inr (g a)
  | inl e1, inl e2 => inl (e1 ++ e2)
  | inl e, inr _ => inl e
  | inr _, inl e => inl e
  end.

Notation "f <*> x" := (vap f x) (at level 61, left associativity).

(** *** Parsing a raw value at the annotated type

    A raw value is given at the Python type its JSON text coerces to (a
    date for an ISO date string, a Decimal for a decimal literal); a value of
    another type is one the field cannot coerce. *)

Definition parse_str (v : value) : field_error + string :=
  match v with VStr s => inr s | _ => inl WrongType end.

Definition parse_date (v : value) : field_error + Z :=
  match v with VDate d => inr d | _ => inl WrongType end.

Definition parse_float (v : value) : field_error + spec_float :=
  match v with
  | VFloat x => inr x
  | VInt n => inr (Py.float_of_int n)
  | _ => inl WrongType
  end.

Definition parse_status (v : value) : field_error + MovieStatusEnum :=
  match v with
  | VStatus e => inr e
  | VStr s => match MovieStatusEnum_of_value s with
              | Some e => inr e
              | None => inl WrongType
              end
  | _ => inl WrongType
  end.

(** [condecimal(max_digits, decimal_places)]: bounds on the total number of
    digits of the normalized value, on its digits after the point and on its
    digits before it. *)
Definition condecimal (max_digits decimal_places : Z) (d : Py.Decimal)
  : field_error + Py.Decimal :=
  let n := Py.coefficient_digits (Py.normalize d) in
  let e := Py.exponent (Py.normalize d) in
  let '(digits, decimals) :=
    if 0 <=? e then (n + e, 0)
    else if n <? - e then (- e, - e)
    else (n, - e) in
  if (max_digits <? digits) || (decimal_places <? decimals)
     || (max_digits - decimal_places <? digits - decimals)
  then inl ConstraintViolated else inr d.

Definition parse_decimal (max_digits decimal_places : Z) (v : value)
  : field_error + Py.Decimal :=
  match v with
  | VDecimal d => condecimal max_digits decimal_places d
  | VInt n => condecimal max_digits decimal_places (Py.mkDecimal n 0)
  | _ => inl WrongType
  end.

Definition parse_optional {A} (parse : value → field_error + A) (v : value)
  : field_error + option A :=
  match v with
  | VNone => inr None
  | _ => match parse v with inr a => inr (Some a) | inl e => inl e end
  end.

Definition parse_int (v : value) : field_error + Z :=
  match v with VInt n => inr n | _ => inl WrongType end.

Definition parse_list (v : value) : field_error + list string :=
  match v with VList l => inr l | _ => inl WrongType end.

(** A field validator runs after its field parsed. *)
Definition after {A} (r : field_error + A) (validator : A → field_error + A)
  : field_error + A :=
  match r with inr a => validator a | inl e => inl e end.

(** A field without a default must be present in the body. *)
Definition required {A} (body : gmap string value) (key : string)
    (parse : value → field_error + A) : errors + A :=
  match body !! key with
  | None => inl [(key, Missing)]
  | Some v => match parse v with
              | inr a => inr a
              | inl e => inl [(key, e)]
              end
  end.

(** A field with a default takes it when the body has no such key. *)
Definition with_default {A} (body : gmap string value) (key : string)
    (parse : value → field_error + A) (default : A) : errors + A :=
  match body !! key with
  | None => inr default
  | Some v => match parse v with
              | inr a => inr a
              | inl e => inl [(key, e)]
              end
  end.

Module MovieCreateUpdateSchema.

Record t := mk {
  name : string;
  date : Z;
  score : spec_float;
  overview : string;
  status : MovieStatusEnum;
  budget : Py.Decimal;
  revenue : spec_float;
  country_id : option Z;
  country : option string;
  genre_ids : option (list string);
  actor_ids : option (list string);
  languages : option (list string);
  (** the fields the caller supplied (pydantic's [model_fields_set]) *)
  fields_set : gset string
}.

Definition model_fields : list string :=
  ["name"; "date"; "score"; "overview"; "status"; "budget"; "revenue";
   "country_id"; "country"; "genre_ids"; "actor_ids"; "languages"].

Definition name_max_length (v : string) : field_error + string :=
  if 255 <? Z.of_nat (String.length v)
  then inl (ValueError "Name must not exceed 255 characters.")
  else inr v.

Definition date_within_one_year (today : Z) (v : Z) : field_error + Z :=
  if today + 365 <? v
  then inl (ValueError "Date must not be more than one year in the future.")
  else inr v.

Definition score_between_0_and_100 (v : spec_float) : field_error + spec_float :=
  if negb (Py.float_le (Py.float_of_int 0) v && Py.float_le v (Py.float_of_int 100))
  then inl (ValueError "Score must be between 0 and 100.")
  else inr v.

Definition non_negative_budget (v : Py.Decimal) : field_error + Py.Decimal :=
  if Py.decimal_lt_zero v
  then inl (ValueError "Budget must be non-negative.")
  else inr v.

Definition non_negative_revenue (v : spec_float) : field_error + spec_float :=
  if Py.float_lt v (Py.float_of_int 0)
  then inl (ValueError "Revenue must be non-negative.")
  else inr v.

(** Construction of an instance from a request body on day [today]. Keys of
    the body that are not fields of the schema are dropped. *)
Definition model_validate (today : Z) (body : gmap string value) : errors + t :=
  inr mk
  <*> required body "name" (λ v, after (parse_str v) name_max_length)
  <*> required body "date" (λ v, after (parse_date v) (date_within_one_year today))
  <*> required body "score" (λ v, after (parse_float v) score_between_0_and_100)
  <*> required body "overview" parse_str
  <*> required body "status" parse_status
  <*> required body "budget" (λ v, after (parse_decimal 15 2 v) non_negative_budget)
  <*> required body "revenue" (λ v, after (parse_float v) non_negative_revenue)
  <*> required body "country_id" (parse_optional parse_int)
  <*> with_default body "country" (parse_optional parse_str) None
  <*> with_default body "genre_ids" (parse_optional parse_list) (Some [])
  <*> with_default body "actor_ids" (parse_optional parse_list) (Some [])
  <*> with_default body "languages" (parse_optional parse_list) (Some [])
  <*> inr (dom body ∩ list_to_set model_fields).

Definition of_option {A} (inj : A → value) (o : option A) : value :=
  match o with Some a => inj a | None => VNone end.

(** [film.dict()]: every field, in declaration order. *)
Definition dict (film : t) : list (string * value) :=
  [("name", VStr (name film));
   ("date", VDate (date film));
   ("score", VFloat (score film));
   ("overview", VStr (overview film));
   ("status", VStatus (status film));
   ("budget", VDecimal (budget film));
   ("revenue", VFloat (revenue film));
   ("country_id", of_option VInt (country_id film));
   ("country", of_option VStr (country film));
   ("genre_ids", of_option VList (genre_ids film));
   ("actor_ids", of_option VList (actor_ids film));
   ("languages", of_option VList (languages film))].

(** [film.dict(exclude_unset=True)]: only the fields the caller supplied. *)
Definition dict_exclude_unset (film : t) : list (string * value) :=
  filter (λ kv, kv.1 ∈ fields_set film) (dict film).

End MovieCreateUpdateSchema.

(** *** Output schemas *)

Module MovieListItemSchema.
Record t := mk {
  id : Z;
  name : string;
  date : Z;
  score : spec_float;
  overview : string
}.
End MovieListItemSchema.

Module MovieListResponseSchema.
Record t := mk {
  movies : list MovieListItemSchema.t;
  total_pages : Z;
  total_items : Z;
  next_page : option Z;
  prev_page : option Z
}.
End MovieListResponseSchema.

Module CountrySchema.
Record t := mk { id : Z; name : option string }.
End CountrySchema.

Module GenreSchema.
Record t := mk { id : Z; name : string }.
End GenreSchema.

Module ActorSchema.
Record t := mk { id : Z; name : string }.
End ActorSchema.

Module LanguageSchema.
Record t := mk { id : Z; name : string }.
End LanguageSchema.

Module MovieDetailSchema.
Record t := mk {
  id : Z;
  name : string;
  date : Z;
  score : spec_float;
  overview : string;
  status : MovieStatusEnum;
  budget : Py.Decimal;
  revenue : spec_float;
  country : CountrySchema.t;
  genres : list GenreSchema.t;
  actors : list ActorSchema.t;
  languages : list LanguageSchema.t
}.
End MovieDetailSchema.

(** ** The database module *)

Module Database.

(** Modelled from the spec: the reference entities of the database module
    (Country, Genre, Actor, Language), an identifier with a name. The name of
    a country may be null, as [CountrySchema] admits. *)
Record CountryModel := mkCountry { country_pk : Z; country_name : option string }.
Record RefModel := mkRef { ref_pk : Z; ref_name : string }.

(** Modelled from the spec: a row of the movies table, the values of its
    columns other than the identifier, with the genres, actors and languages
    linked to it. *)
Record MovieRow := mkRow {
  columns : gmap string value;
  row_genres : list RefModel;
  row_actors : list RefModel;
  row_languages : list RefModel
}.

(** Modelled from the spec: the persisted state, movies by identifier and
    country names by identifier. *)
Record db := mkDb {
  movies : gmap Z MovieRow;
  countries : gmap Z (option string)
}.

(** Modelled from the spec: an instance of the [MovieModel] class of the
    database module, loaded with its relations. Its column attributes are
    kept by name, as [setattr] and [from_attributes] address them. *)
Record MovieModel := mkMovie {
  id : Z;
  attrs : gmap string value;
  country : option CountryModel;
  genres : list RefModel;
  actors : list RefModel;
  languages : list RefModel
}.

Definition setattr (film : MovieModel) (key : string) (v : value) : MovieModel :=
  mkMovie (id film) (<[key := v]> (attrs film)) (country film)
          (genres film) (actors film) (languages film).

(** The country a row refers to through its country_id column. *)
Definition country_of (s : db) (row : MovieRow) : option CountryModel :=
  match columns row !! "country_id" with
  | Some (VInt c) => mkCountry c <$> countries s !! c
  | _ => None
  end.

(** The movie with identifier [film_id], with country, genres, actors and
    languages loaded. *)
Definition load (s : db) (film_id : Z) : option MovieModel :=
  row ← movies s !! film_id;
  Some (mkMovie film_id (columns row) (country_of s row)
                (row_genres row) (row_actors row) (row_languages row)).

(** [select(MovieModel).where(MovieModel.id == film_id)] *)
Definition select_by_id (film_id : Z) (s : db) : list MovieModel :=
  option_list (load s film_id).

(** [MovieModel.id.desc()] *)
Definition id_desc (i j : Z) : Prop := j ≤ i.

#[global] Instance id_desc_dec : RelDecision id_desc.
Proof. intros i j. unfold id_desc. apply _. Defined.

(** All movies, by identifier descending. *)
Definition select_ordered (s : db) : list MovieModel :=
  omap (load s) (merge_sort id_desc (map_to_list (movies s)).*1).

(** [select(MovieModel).order_by(MovieModel.id.desc()).offset(o).limit(n)] *)
Definition select_page (offset limit : Z) (s : db) : list MovieModel :=
  take (Z.to_nat limit) (drop (Z.to_nat offset) (select_ordered s)).

(** [select(func.count(MovieModel.id))] *)
Definition select_count (s : db) : Z := Z.of_nat (size (movies s)).

(** [select(MovieModel).where(MovieModel.name == name, MovieModel.date == date)] *)
Definition select_by_name_date (name : string) (date : Z) (s : db) : list MovieModel :=
  filter (λ film, attrs film !! "name" = Some (VStr name)
                  ∧ attrs film !! "date" = Some (VDate date))
         (select_ordered s).

(** Modelled from the spec: the pair a row contributes to the uniqueness
    constraint on (name, date); a null takes no part in it. *)
Definition name_date (cols : gmap string value) : option (value * value) :=
  n ← cols !! "name";
  d ← cols !! "date";
  if decide (n = VNone ∨ d = VNone) then None else Some (n, d).

(** Modelled from the spec: would a row with these columns, stored under
    identifier [self], share its (name, date) with another stored movie? *)
Definition violates_unique (self : Z) (cols : gmap string value) (s : db) : bool :=
  bool_decide (map_Exists (λ i row, i ≠ self ∧ is_Some (name_date cols)
                                    ∧ name_date (columns row) = name_date cols)
                          (movies s)).

(** Modelled from the spec: a movie has at most one country, the
    many-to-one relationship [country] over the country_id column. When an
    instance is flushed, a relationship that was assigned decides the foreign
    key: an instance whose country was set to None is written with a null
    country_id, whatever was assigned to country_id itself. *)
Definition sync_country (instance : gmap string value) : gmap string value :=
  match instance !! "country" with
  | Some VNone => <["country_id" := VNone]> instance
  | _ => instance
  end.

(** Modelled from the spec: identifiers are generated, one above the largest
    in use. *)
Definition next_id (s : db) : Z :=
  1 + map_fold (λ i _ acc, Z.max i acc) 0 (movies s).

(** Calls on the session. *)
Inductive db_op := Execute | Add | Delete | Commit | Refresh.

Inductive exn :=
| HTTPException (status_code : Z) (detail : string)
| IntegrityError
| TypeError (msg : string)
| AttributeError
| MultipleResultsFound
| OverflowError
| InvalidRequestError
| StaleDataError
| ValidationError.

(** Changes a session holds until it commits them. *)
Inductive change :=
| Insert (instance : gmap string value)
| Update (film_id : Z) (cols : gmap string value)
| Remove (film_id : Z).

Section Session.

(** The keys of the columns of the movies table (the database module
    declares them; the handlers read them from [MovieModel.__table__]). *)
Variable model_columns : gset string.

(** One change written to the store; the identifier given to an inserted
    row is returned with it. *)
Definition apply_change (c : change) (s : db) : exn + (db * list Z) :=
  match c with
  | Insert instance =>
      let cols := filter (λ kv, kv.1 ∈ model_columns) (sync_country instance) in
      let new := next_id s in
      if violates_unique new cols s then inl IntegrityError
      else inr (mkDb (<[new := mkRow cols [] [] []]> (movies s)) (countries s), [new])
  | Update film_id cols =>
      match movies s !! film_id with
      | None => inl StaleDataError
      | Some row =>
          if violates_unique film_id cols s then inl IntegrityError
          else inr (mkDb (<[film_id := mkRow cols (row_genres row) (row_actors row)
                                             (row_languages row)]> (movies s))
                         (countries s), [])
      end
  | Remove film_id => inr (mkDb (delete film_id (movies s)) (countries s), [])
  end.

(** The changes of a session, written in order; the first rejected change
    fails the whole flush. *)
Fixpoint flush (cs : list change) (s : db) : exn + (db * list Z) :=
  match cs with
  | [] => inr (s, [])
  | c :: cs =>
      match apply_change c s with
      | inl e => inl e
      | inr (s1, ids1) =>
          match flush cs s1 with
          | inl e => inl e
          | inr (s2, ids2) => inr (s2, ids1 ++ ids2)
          end
      end
  end.

(** Changes other requests committed in the meantime; one the store rejects
    is theirs to handle and leaves the store as it was. *)
Definition apply_concurrent (cs : list change) (s : db) : db :=
  foldl (λ s c, match apply_change c s with inr (s', _) => s' | inl _ => s end) s cs.

(** A request's view of the database: the committed store, what other
    requests will have committed by the time this one commits, the changes
    this session holds, and the session calls made so far. *)
Record session := mkSession {
  committed : db;
  concurrent : list change;
  staged : list change;
  calls : list db_op
}.

Definition M (A : Type) : Type := session → (exn + A) * session.

Definition ret {A} (a : A) : M A := λ σ, (inr a, σ).

Definition bind {A B} (m : M A) (k : A → M B) : M B :=
  λ σ, match m σ with
       | (inr a, σ') => k a σ'
       | (inl e, σ') => (inl e, σ')
       end.

Definition raise {A} (e : exn) : M A := λ σ, (inl e, σ).

Definition called (op : db_op) (σ : session) : session :=
  mkSession (committed σ) (concurrent σ) (staged σ) (calls σ ++ [op]).

Definition stage (c : change) (σ : session) : session :=
  mkSession (committed σ) (concurrent σ) (staged σ ++ [c]) (calls σ).

(** [await db.execute(query)] *)
Definition execute {A} (query : db → A) : M A :=
  λ σ, (inr (query (committed σ)), called Execute σ).

(** [db.add(instance)] *)
Definition add (instance : gmap string value) : M unit :=
  λ σ, (inr (), called Add (stage (Insert instance) σ)).

(** [await db.delete(film)] *)
Definition delete_ (film : MovieModel) : M unit :=
  λ σ, (inr (), called Delete (stage (Remove (id film)) σ)).

(** An attribute assignment on a loaded instance is tracked by the session. *)
Definition track (film : MovieModel) : M unit :=
  λ σ, (inr (), stage (Update (id film) (attrs film)) σ).

(** [await db.commit()]: the staged changes reach the store together or not
    at all; the identifiers given to inserted rows are returned. *)
Definition commit : M (list Z) :=
  λ σ, let base := apply_concurrent (concurrent σ) (committed σ) in
       match flush (staged σ) base with
       | inr (s, ids) => (inr ids, called Commit (mkSession s [] [] (calls σ)))
       | inl e => (inl e, called Commit (mkSession base [] [] (calls σ)))
       end.

(** [await db.refresh(film)] *)
Definition refresh (film_id : Z) : M MovieModel :=
  λ σ, match load (committed σ) film_id with
       | Some film => (inr film, called Refresh σ)
       | None => (inl InvalidRequestError, called Refresh σ)
       end.

End Session.

End Database.

(** *** Output schemas read from ORM instances ([from_attributes]) *)

Import Database.

Definition getattr {A} (film : MovieModel) (key : string)
    (parse : value → field_error + A) : option A :=
  v ← attrs film !! key;
  match parse v with inr a => Some a | inl _ => None end.

Definition MovieListItemSchema_from_orm (film : MovieModel)
  : option MovieListItemSchema.t :=
  name ← getattr film "name" parse_str;
  date ← getattr film "date" parse_date;
  score ← getattr film "score" parse_float;
  overview ← getattr film "overview" parse_str;
  Some (MovieListItemSchema.mk (id film) name date score overview).

Definition CountrySchema_from_orm (c : CountryModel) : CountrySchema.t :=
  CountrySchema.mk (country_pk c) (country_name c).

(** The country of the detail view is not optional: an instance without one
    does not validate. *)
Definition MovieDetailSchema_from_orm (film : MovieModel)
  : option MovieDetailSchema.t :=
  name ← getattr film "name" parse_str;
  date ← getattr film "date" parse_date;
  score ← getattr film "score" parse_float;
  overview ← getattr film "overview" parse_str;
  status ← getattr film "status" parse_status;
  budget ← getattr film "budget" (parse_decimal 15 2);
  revenue ← getattr film "revenue" parse_float;
  country ← country film;
  Some (MovieDetailSchema.mk (id film) name date score overview status budget
          revenue (CountrySchema_from_orm country)
          ((λ r, GenreSchema.mk (ref_pk r) (ref_name r)) <$> genres film)
          ((λ r, ActorSchema.mk (ref_pk r) (ref_name r)) <$> actors film)
          ((λ r, LanguageSchema.mk (ref_pk r) (ref_name r)) <$> languages film)).

(** ** routes/movies.py *)

Module PaginationParams.

Record t := mk { page : Z; per_page : Z }.

(** [conint(ge=..., le=...)] with a default for an absent query parameter *)
Definition conint (key : string) (ge : Z) (le : option Z) (default : Z)
    (given : option Z) : errors + Z :=
  match given with
  | None => inr default
  | Some n =>
      if (n <? ge) || from_option (λ hi, hi <? n) false le
      then inl [(key, ConstraintViolated)] else inr n
  end.

Definition model_validate (page per_page : option Z) : errors + t :=
  inr mk <*> conint "page" 1 None 1 page
         <*> conint "per_page" 1 (Some 20) 10 per_page.

End PaginationParams.

(** What a handler hands back to the framework. *)
Inductive content :=
| NoBody
| Detail (film : MovieDetailSchema.t)
| Listing (page : MovieListResponseSchema.t)
| ErrorDetail (detail : string)
| RequestValidationError (errs : errors)
| InternalServerError (e : option exn).

Record response := mkResponse { status_code : Z; body : content }.

Section Routes.

Variable model_columns : gset string.

(** The attributes of the [MovieModel] class (columns and relationships), as
    the database module declares them. *)
Variable model_attrs : gset string.

Notation "'let*' x ':=' m 'in' k" := (bind m (λ x, k))
  (at level 10, x name, m at level 100, k at level 200, only parsing).
Notation "'let*' '_' ':=' m 'in' k" := (bind m (λ _, k))
  (at level 10, m at level 100, k at level 200, only parsing).

(** [result.scalar_one_or_none()] *)
Definition scalar_one_or_none {A} (rows : list A) : M (option A) :=
  match rows with
  | [] => ret None
  | [row] => ret (Some row)
  | _ => raise MultipleResultsFound
  end.

Definition get_film_or_404 (film_id : Z) : M MovieModel :=
  let* result := execute (select_by_id film_id) in
  let* film := scalar_one_or_none result in
  match film with
  | None => raise (HTTPException 404 "Movie with the given ID was not found.")
  | Some film => ret film
  end.

(** [MovieListResponseSchema(movies=films, ...)]: every film has to validate
    as a list item. *)
Definition MovieListResponseSchema_init (films : list MovieModel)
    (total_pages total_items : Z) (next_page prev_page : option Z)
  : M MovieListResponseSchema.t :=
  match mapM MovieListItemSchema_from_orm films with
  | Some items =>
      ret (MovieListResponseSchema.mk items total_pages total_items
             next_page prev_page)
  | None => raise ValidationError
  end.

Definition get_movies (params : PaginationParams.t) : M MovieListResponseSchema.t :=
  let page := PaginationParams.page params in
  let per_page := PaginationParams.per_page params in
  let offset := (page - 1) * per_page in
  let* films := execute (select_page offset per_page) in
  match films with
  | [] => raise (HTTPException 404 "No movies found.")
  | _ =>
      let* total := execute select_count in
      match Py.int_truediv total per_page ≫= Py.math_ceil with
      | None => raise OverflowError
      | Some total_pages =>
          let next_page := if total_pages <=? page then None else Some (page + 1) in
          let prev_page := if 1 <? page then Some (page - 1) else None in
          MovieListResponseSchema_init films total_pages total next_page prev_page
      end
  end.

Definition get_movie (movie_id : Z) : M MovieModel :=
  get_film_or_404 movie_id.

(** Assigning to a relationship of the model ([get_film_or_404] loads
    country, genres, actors and languages): model instances only. The
    country takes None; a string is no instance and raises AttributeError.
    A collection takes the empty list; a list of strings raises
    AttributeError at its first element, anything else is no list and raises
    TypeError. Any other attribute takes any value. *)
Definition relationship_refuses (key : string) (v : value) : option exn :=
  if decide (key = "country") then
    match v with
    | VNone => None
    | _ => Some AttributeError
    end
  else if decide (key ∈ ["genres"; "actors"; "languages"]) then
    match v with
    | VList [] => None
    | VList (_ :: _) => Some AttributeError
    | _ => Some (TypeError key)
    end
  else None.

(** The declarative constructor of [MovieModel], on the keyword arguments in
    the order they are given: a keyword that is not an attribute of the class
    raises TypeError, any other is assigned to the new instance [self]; the
    first keyword that fails ends the construction. *)
Fixpoint MovieModel_new (kwargs : list (string * value)) (self : gmap string value)
  : exn + gmap string value :=
  match kwargs with
  | [] => inr self
  | (key, v) :: kwargs =>
      if decide (key ∈ model_attrs) then
        match relationship_refuses key v with
        | Some e => inl e
        | None => MovieModel_new kwargs (<[key := v]> self)
        end
      else inl (TypeError key)
  end.

Definition MovieModel_init (kwargs : list (string * value)) : M (gmap string value) :=
  match MovieModel_new kwargs ∅ with
  | inl e => raise e
  | inr self => ret self
  end.

Definition add_film (film : MovieCreateUpdateSchema.t) : M MovieModel :=
  let* existing_movie :=
    execute (select_by_name_date (MovieCreateUpdateSchema.name film)
                                 (MovieCreateUpdateSchema.date film)) in
  let* existing := scalar_one_or_none existing_movie in
  match existing with
  | Some _ =>
      raise (HTTPException 409 "Movie with the same name and date already exists.")
  | None =>
      let* new_film := MovieModel_init (MovieCreateUpdateSchema.dict film) in
      let* _ := add new_film in
      let* ids := commit model_columns in
      match ids with
      | [new_id] => refresh new_id
      | _ => raise InvalidRequestError
      end
  end.

(** The body of the loop of [edit_film]: a key that is a column is assigned,
    any other key is skipped. *)
Definition assign (db_film : MovieModel) (kv : string * value) : MovieModel :=
  if decide (kv.1 ∈ model_columns) then setattr db_film kv.1 kv.2 else db_film.

Definition edit_film (film_id : Z) (film : MovieCreateUpdateSchema.t) : M MovieModel :=
  let* db_film := get_film_or_404 film_id in
  let film_data := MovieCreateUpdateSchema.dict_exclude_unset film in
  let db_film := foldl assign db_film film_data in
  let* _ := track db_film in
  let* _ := commit model_columns in
  refresh film_id.

Definition remove_film (film_id : Z) : M unit :=
  let* db_film := get_film_or_404 film_id in
  let* _ := delete_ db_film in
  let* _ := commit model_columns in
  ret ().

(** *** The framework around a handler *)

(** An HTTPException becomes its status and detail; a value is rendered
    through the response model; anything else is a bare server error. *)
Definition respond {A} (success : Z) (render : A → option content)
    (r : exn + A) : response :=
  match r with
  | inr a =>
      match render a with
      | Some c => mkResponse success c
      | None => mkResponse 500 (InternalServerError None)
      end
  | inl (HTTPException code detail) => mkResponse code (ErrorDetail detail)
  | inl e => mkResponse 500 (InternalServerError (Some e))
  end.

(** A request runs its handler in a session of its own and yields the
    response, the store it leaves and the session calls it made. *)
Definition serve {A} (handler : M A) (success : Z) (render : A → option content)
    (others : list change) (s : db) : response * db * list db_op :=
  let '(r, σ) := handler (mkSession s others [] []) in
  (respond success render r, committed σ, calls σ).

(** A request whose input does not validate never reaches its handler. *)
Definition unprocessable (errs : errors) (s : db) : response * db * list db_op :=
  (mkResponse 422 (RequestValidationError errs), s, []).

(** GET /movies/ *)
Definition GET_movies (page per_page : option Z) (others : list change) (s : db)
  : response * db * list db_op :=
  match PaginationParams.model_validate page per_page with
  | inl errs => unprocessable errs s
  | inr params => serve (get_movies params) 200 (λ r, Some (Listing r)) others s
  end.

(** GET /movies/{movie_id}/ *)
Definition GET_movie (movie_id : Z) (others : list change) (s : db)
  : response * db * list db_op :=
  serve (get_movie movie_id) 200
        (λ film, Detail <$> MovieDetailSchema_from_orm film) others s.

(** POST /movies/ *)
Definition POST_movies (today : Z) (payload : gmap string value)
    (others : list change) (s : db) : response * db * list db_op :=
  match MovieCreateUpdateSchema.model_validate today payload with
  | inl errs => unprocessable errs s
  | inr film =>
      serve (add_film film) 201
            (λ film, Detail <$> MovieDetailSchema_from_orm film) others s
  end.

(** PATCH /movies/{film_id} *)
Definition PATCH_movie (today : Z) (film_id : Z) (payload : gmap string value)
    (others : list change) (s : db) : response * db * list db_op :=
  match MovieCreateUpdateSchema.model_validate today payload with
  | inl errs => unprocessable errs s
  | inr film =>
      serve (edit_film film_id film) 200
            (λ film, Detail <$> MovieDetailSchema_from_orm film) others s
  end.

(** DELETE /movies/{film_id} *)
Definition DELETE_movie (film_id : Z) (others : list change) (s : db)
  : response * db * list db_op :=
  serve (remove_film film_id) 204 (λ _, Some NoBody) others s.

End Routes.

(** ** Vocabulary of the properties *)

(** The validation fails and reports [err] at [key]. *)
Definition reports {A} (r : errors + A) (key : string) (err : field_error) : Prop :=
  ∃ errs, r = inl errs ∧ (key, err) ∈ errs.

(** The validation fails with some error at [key]. *)
Definition refuses {A} (r : errors + A) (key : string) : Prop :=
  ∃ err, reports r key err.

(** Request bodies with a field outside the range the schema allows; the
    index is the offending key. *)
Inductive out_of_range (today : Z) (body : gmap string value) : string → Prop :=
| score_out_of_range v x :
    body !! "score" = Some v → parse_float v = inr x →
    Py.float_le (Py.float_of_int 0) x && Py.float_le x (Py.float_of_int 100) = false →
    out_of_range today body "score"
| budget_negative d :
    body !! "budget" = Some (VDecimal d) → Py.coefficient d < 0 →
    out_of_range today body "budget"
| budget_negative_int n :
    body !! "budget" = Some (VInt n) → n < 0 →
    out_of_range today body "budget"
| revenue_negative v x :
    body !! "revenue" = Some v → parse_float v = inr x →
    Py.float_lt x (Py.float_of_int 0) = true →
    out_of_range today body "revenue"
| date_too_late d :
    body !! "date" = Some (VDate d) → today + 365 < d →
    out_of_range today body "date"
| name_too_long s :
    body !! "name" = Some (VStr s) → 255 < Z.of_nat (String.length s) →
    out_of_range today body "name"
| status_unknown s :
    body !! "status" = Some (VStr s) →
    s ∉ MovieStatusEnum_value <$> [RELEASED; POST_PRODUCTION; IN_PRODUCTION] →
    out_of_range today body "status".

(** The storage invariant on (name, date): no two stored movies carry the
    same pair. *)
Definition unique_name_date (s : db) : Prop :=
  ∀ i j ri rj name date,
    movies s !! i = Some ri → movies s !! j = Some rj →
    columns ri !! "name" = Some (VStr name) →
    columns ri !! "date" = Some (VDate date) →
    columns rj !! "name" = Some (VStr name) →
    columns rj !! "date" = Some (VDate date) →
    i = j.

(** ** Sample data *)

Module Sample.

(** Modelled from the spec: the columns of the movies table, the identifier,
    the seven attributes of a movie and the reference to its country. *)
Definition model_columns : gset string :=
  list_to_set ["id"; "name"; "date"; "score"; "overview"; "status"; "budget";
               "revenue"; "country_id"].

(** Modelled from the spec: the attributes of the model class, its columns
    and its four relationships. *)
Definition model_attrs : gset string :=
  model_columns ∪ list_to_set ["country"; "genres"; "actors"; "languages"].

(** A model class that has an attribute for every field of the input
    schema as well. *)
Definition accepting_attrs : gset string :=
  model_attrs ∪ list_to_set MovieCreateUpdateSchema.model_fields.

(** 2025-01-01 *)
Definition today : Z := 739252.

(** The create payload of the example scenario (date 2010-07-16), with a
    country reference. *)
Definition inception : gmap string value :=
  list_to_map
    [("name", VStr "Inception"); ("date", VDate 733969); ("score", VInt 87);
     ("overview", VStr "..."); ("status", VStr "Released");
     ("budget", VDecimal (Py.mkDecimal 16000000000 (-2)));
     ("revenue", VInt 836800000); ("country_id", VInt 1)].

(** The same movie with another score and overview. *)
Definition inception_rescored : gmap string value :=
  <["score" := VInt 90]> (<["overview" := VStr "A thief who steals secrets."]> inception).

Definition score_only : gmap string value := {["score" := VInt 90]}.

Definition score_too_high : gmap string value := <["score" := VInt 101]> inception.

Definition no_country : gmap string value := <["country_id" := VNone]> inception.

(** The instances the two payloads validate to. *)
Definition inception_film : MovieCreateUpdateSchema.t :=
  MovieCreateUpdateSchema.mk
    "Inception" 733969 (Py.float_of_int 87) "..." RELEASED
    (Py.mkDecimal 16000000000 (-2)) (Py.float_of_int 836800000)
    (Some 1) None (Some []) (Some []) (Some [])
    (dom inception ∩ list_to_set MovieCreateUpdateSchema.model_fields).

Definition no_country_film : MovieCreateUpdateSchema.t :=
  MovieCreateUpdateSchema.mk
    "Inception" 733969 (Py.float_of_int 87) "..." RELEASED
    (Py.mkDecimal 16000000000 (-2)) (Py.float_of_int 836800000)
    None None (Some []) (Some []) (Some [])
    (dom no_country ∩ list_to_set MovieCreateUpdateSchema.model_fields).

Definition inception_columns : gmap string value :=
  list_to_map
    [("name", VStr "Inception"); ("date", VDate 733969);
     ("score", VFloat (Py.float_of_int 87));
     ("overview", VStr "..."); ("status", VStatus RELEASED);
     ("budget", VDecimal (Py.mkDecimal 16000000000 (-2)));
     ("revenue", VFloat (Py.float_of_int 836800000)); ("country_id", VInt 1)].

Definition inception_row : MovieRow :=
  mkRow inception_columns [mkRef 1 "Action"] [mkRef 1 "Leonardo DiCaprio"]
        [mkRef 1 "English"].

Definition orphan_row : MovieRow :=
  mkRow (<["country_id" := VNone]> inception_columns) [] [] [].

Definition country_table : gmap Z (option string) := {[1 := Some "United States"]}.

Definition empty_catalog : db := mkDb ∅ country_table.
Definition catalog : db := mkDb {[1 := inception_row]} country_table.
Definition orphan_catalog : db := mkDb {[1 := orphan_row]} country_table.

(** The only page of [catalog]. *)
Definition catalog_page : MovieListResponseSchema.t :=
  MovieListResponseSchema.mk
    [MovieListItemSchema.mk 1 "Inception" 733969 (Py.float_of_int 87) "..."]
    1 1 None None.

End Sample.
(** ** Vocabulary of the further properties *)

(** The columns of a record after the fields a caller supplied were assigned
    to it: the loop of [edit_film] on the attribute map alone. *)
Definition patched (model_columns : gset string) (film : MovieCreateUpdateSchema.t)
    (cols : gmap string value) : gmap string value :=
  foldl (λ cols kv, if decide (kv.1 ∈ model_columns) then <[kv.1 := kv.2]> cols else cols)
        cols (MovieCreateUpdateSchema.dict_exclude_unset film).

(** The columns of the row a create request inserts, once the constructor
    took the fields of [film]. *)
Definition inserted (model_columns : gset string) (film : MovieCreateUpdateSchema.t)
  : gmap string value :=
  filter (λ kv, kv.1 ∈ model_columns)
         (sync_country (list_to_map (MovieCreateUpdateSchema.dict film))).

(** The ranges the validators set, on the columns of a stored record. *)
Definition columns_in_range (cols : gmap string value) : Prop :=
  (∀ name, cols !! "name" = Some (VStr name) → Z.of_nat (String.length name) ≤ 255)
  ∧ (∀ x, cols !! "score" = Some (VFloat x) →
          Py.float_le (Py.float_of_int 0) x = true
          ∧ Py.float_le x (Py.float_of_int 100) = true)
  ∧ (∀ d, cols !! "budget" = Some (VDecimal d) → 0 ≤ Py.coefficient d)
  ∧ (∀ x, cols !! "revenue" = Some (VFloat x) →
          Py.float_lt x (Py.float_of_int 0) = false).

Definition store_in_range (s : db) : Prop :=
  ∀ i row, movies s !! i = Some row → columns_in_range (columns row).


(** ** Further sample data *)

Module Shelf.

Definition row (name : string) (date : Z) : MovieRow :=
  mkRow (list_to_map
           [("name", VStr name); ("date", VDate date);
            ("score", VFloat (Py.float_of_int 80)); ("overview", VStr "...");
            ("status", VStatus RELEASED);
            ("budget", VDecimal (Py.mkDecimal 1100000000 (-2)));
            ("revenue", VFloat (Py.float_of_int 100000000));
            ("country_id", VInt 1)])
        [] [] [].

(** Three movies, stored under 1, 2 and 3. *)
Definition shelf : db :=
  mkDb (list_to_map [(1, row "Alien" 722595); (2, row "Brazil" 724691);
                     (3, row "Casablanca" 709355)])
       Sample.country_table.

Definition item (id : Z) (name : string) (date : Z) : MovieListItemSchema.t :=
  MovieListItemSchema.mk id name date (Py.float_of_int 80) "...".

(** The two pages of [shelf] at two movies a page. *)
Definition first_page : MovieListResponseSchema.t :=
  MovieListResponseSchema.mk
    [item 3 "Casablanca" 709355; item 2 "Brazil" 724691] 2 3 (Some 2) None.

Definition second_page : MovieListResponseSchema.t :=
  MovieListResponseSchema.mk [item 1 "Alien" 722595] 2 3 None (Some 1).

(** The sample payload with its country given by name as well. *)
Definition inception_named : gmap string value :=
  <["country" := VStr "United States"]> Sample.inception.

End Shelf.

(** * Properties *)

(** ** Arithmetic of the page count *)

Section PageCount.
Import Py.

(** [ceil_div a b] is the least [c] with [a <= c * b]. *)
Lemma ceil_div_bounds a b : 0 < b → (ceil_div a b - 1) * b < a ∧ a ≤ ceil_div a b * b.
Proof.
  intros Hb. unfold ceil_div.
  pose proof (Z.div_mod (a + b - 1) b ltac:(lia)) as Hdm.
  pose proof (Z.mod_pos_bound (a + b - 1) b Hb) as Hr.
  nia.
Qed.

(** Rounding goes to the quotient or to its successor, by the remainder. *)
Lemma round_half_even_cases num den :
  0 < den →
  let q := num / den in
  let r := num mod den in
  num = den * q + r ∧ 0 ≤ r < den ∧
  ((round_half_even num den = q ∧ 2 * r ≤ den) ∨
   (round_half_even num den = q + 1 ∧ den ≤ 2 * r)).
Proof.
  intros Hd q r. subst q r.
  split; [apply Z.div_mod; lia|].
  split; [apply Z.mod_pos_bound; lia|].
  unfold round_half_even.
  destruct (Z.ltb_spec (2 * (num mod den)) den); [left; lia|].
  destruct (Z.ltb_spec den (2 * (num mod den))); [right; lia|].
  destruct (Z.even (num / den)); [left|right]; lia.
Qed.

Lemma floor_log2_quot_le a b : 0 < a → 0 < b → floor_log2_quot a b ≤ Z.log2 a.
Proof.
  intros Ha Hb. unfold floor_log2_quot.
  pose proof (Z.log2_nonneg b).
  destruct (scaled_le _ _ _); lia.
Qed.

Lemma floor_log2_quot_ge a b : 0 < a → 0 < b → - Z.log2 b - 1 ≤ floor_log2_quot a b.
Proof.
  intros Ha Hb. unfold floor_log2_quot.
  pose proof (Z.log2_nonneg a).
  destruct (scaled_le _ _ _); lia.
Qed.


Lemma log2_gap a b k :
  0 < a → 0 < b → 0 ≤ k → 0 ≤ k + (Z.log2 b + 1) - Z.log2 a →
  b * 2 ^ k ≤ a * 2 ^ (k + (Z.log2 b + 1) - Z.log2 a).
Proof.
  intros Ha Hb Hk Hs.
  destruct (Z.log2_spec a Ha) as [Hla _].
  destruct (Z.log2_spec b Hb) as [_ Hlb].
  pose proof (Z.log2_nonneg a) as Hna. pose proof (Z.log2_nonneg b) as Hnb.
  apply Z.le_trans with (2 ^ Z.log2 a * 2 ^ (k + (Z.log2 b + 1) - Z.log2 a)).
  - rewrite <- Z.pow_add_r by lia.
    replace (Z.log2 a + (k + (Z.log2 b + 1) - Z.log2 a))
      with (Z.succ (Z.log2 b) + k) by lia.
    rewrite Z.pow_add_r by lia.
    apply Z.mul_le_mono_nonneg_r; [apply Z.pow_nonneg|]; lia.
  - apply Z.mul_le_mono_nonneg_r; [apply Z.pow_nonneg|]; lia.
Qed.

(** [floor_log2_quot a b] does not exceed log2 (a / b). *)
Lemma floor_log2_quot_lower a b k :
  0 < a → 0 < b → 0 ≤ k → 0 ≤ k - floor_log2_quot a b →
  b * 2 ^ k ≤ a * 2 ^ (k - floor_log2_quot a b).
Proof.
  intros Ha Hb Hk. unfold floor_log2_quot, scaled_le.
  set (d := Z.log2 a - Z.log2 b).
  assert (Hfalse : 0 ≤ k - (d - 1) → b * 2 ^ k ≤ a * 2 ^ (k - (d - 1))).
  { intros Hs. replace (k - (d - 1)) with (k + (Z.log2 b + 1) - Z.log2 a)
      by (unfold d; lia).
    apply log2_gap; unfold d in Hs; lia. }
  destruct (Z.leb_spec 0 d) as [Hd|Hd].
  - destruct (Z.leb_spec (b * 2 ^ d) a) as [Hle|Hgt]; intros Hs; [|auto].
    replace k with (d + (k - d)) at 1 by lia.
    rewrite Z.pow_add_r by lia.
    pose proof (Z.pow_pos_nonneg 2 (k - d) ltac:(lia) ltac:(lia)). nia.
  - destruct (Z.leb_spec b (a * 2 ^ (- d))) as [Hle|Hgt]; intros Hs; [|auto].
    replace (k - d) with (- d + k) by lia.
    rewrite Z.pow_add_r by lia.
    pose proof (Z.pow_pos_nonneg 2 k ltac:(lia) ltac:(lia)). nia.
Qed.


(** [ceil_scaled m (-s)] is the [c] whose window holds [m]. *)
Lemma ceil_scaled_intro m s c :
  0 ≤ s → (c - 1) * 2 ^ s < m ≤ c * 2 ^ s → ceil_scaled m (- s) = c.
Proof.
  intros Hs Hm. unfold ceil_scaled.
  pose proof (Z.pow_pos_nonneg 2 s ltac:(lia) Hs) as Hp.
  destruct (Z.leb_spec 0 (- s)).
  - assert (s = 0) as -> by lia. simpl in *. lia.
  - rewrite Z.opp_involutive.
    pose proof (Z.div_mod (- m) (2 ^ s) ltac:(lia)) as Hdm.
    pose proof (Z.mod_pos_bound (- m) (2 ^ s) Hp) as Hr.
    nia.
Qed.

(** When [b] is below [2^(s+1)], rounding [a * 2^s / b] to the nearest
    integer stays in the window [((c-1) * 2^s, c * 2^s]] of the ceiling [c]
    of [a / b]: the scaled quotient is at least half a unit above the lower
    end unless it is an integer. *)
Lemma round_in_ceil_window a b s :
  0 < a → 0 < b → 0 ≤ s → b < 2 ^ (s + 1) →
  let c := ceil_div a b in
  (c - 1) * 2 ^ s < round_half_even (a * 2 ^ s) b ≤ c * 2 ^ s.
Proof.
  intros Ha Hb Hs Hsmall c.
  destruct (ceil_div_bounds a b Hb) as [Hlo Hhi]. fold c in Hlo, Hhi.
  pose proof (Z.pow_pos_nonneg 2 s ltac:(lia) Hs) as Hp.
  rewrite Z.pow_add_r, Z.pow_1_r in Hsmall by lia.
  destruct (round_half_even_cases (a * 2 ^ s) b Hb) as (Hdm & Hr & Hcase).
  set (q := a * 2 ^ s / b) in *. set (r := (a * 2 ^ s) mod b) in *.
  assert (Hq1 : (c - 1) * 2 ^ s ≤ q) by nia.
  assert (Hq2 : q ≤ c * 2 ^ s) by nia.
  destruct Hcase as [[-> Hrr]|[-> Hrr]].
  - split; [|lia].
    destruct (Z.eq_dec q ((c - 1) * 2 ^ s)) as [Heq|]; [|lia].
    exfalso. nia.
  - split; [lia|].
    destruct (Z.eq_dec q (c * 2 ^ s)) as [Heq|]; [|lia].
    exfalso. nia.
Qed.

Lemma ceil_scaled_double m e : ceil_scaled (2 * m) e = ceil_scaled m (e + 1).
Proof.
  unfold ceil_scaled.
  destruct (Z.leb_spec 0 e) as [He|He].
  - destruct (Z.leb_spec 0 (e + 1)); [|lia].
    rewrite Z.pow_add_r, Z.pow_1_r by lia. lia.
  - destruct (Z.leb_spec 0 (e + 1)) as [He1|He1].
    + assert (e = -1) as -> by lia. simpl.
      replace (- (2 * m)) with ((- m) * 2) by lia.
      rewrite Z.div_mul by lia. lia.
    + replace (- e) with (1 + - (e + 1)) by lia.
      rewrite Z.pow_add_r, Z.pow_1_r by lia.
      replace (- (2 * m)) with (2 * (- m)) by lia.
      rewrite Z.div_mul_cancel_l; [reflexivity| |lia].
      apply Z.pow_nonzero; lia.
Qed.

(** For operands a double holds exactly, the ceiling of the float quotient
    is the exact ceiling of the quotient. *)
Lemma ceil_truediv_exact a b :
  0 ≤ a < 2 ^ 53 → 0 < b < 2 ^ 53 →
  int_truediv a b ≫= math_ceil = Some (ceil_div a b).
Proof.
  intros [Ha0 Ha] [Hb0 Hb]. unfold int_truediv.
  destruct (Z.eqb_spec b 0) as [|_]; [lia|].
  destruct (Z.eqb_spec a 0) as [->|Hne].
  { simpl. unfold ceil_div. rewrite Z.div_small by lia. reflexivity. }
  assert (Hapos : 0 < a) by lia.
  rewrite (Z.abs_eq a), (Z.abs_eq b) by lia.
  destruct (Z.ltb_spec a 0); [lia|]. destruct (Z.ltb_spec b 0); [lia|]. simpl xorb.
  pose proof (floor_log2_quot_le a b Hapos Hb0) as Hfl1.
  pose proof (floor_log2_quot_ge a b Hapos Hb0) as Hfl2.
  assert (Hla : Z.log2 a < 53) by (apply Z.log2_lt_pow2; lia).
  assert (Hlb : Z.log2 b < 53) by (apply Z.log2_lt_pow2; lia).
  pose proof (floor_log2_quot_lower a b 52 Hapos Hb0 ltac:(lia) ltac:(lia)) as Hlow.
  unfold round_quot.
  set (fl := floor_log2_quot a b) in *.
  rewrite Z.max_l by lia.
  set (s := 52 - fl) in *.
  assert (Hs : 0 ≤ s) by (unfold s; lia).
  pose proof (Z.pow_pos_nonneg 2 s ltac:(lia) Hs) as Hp.
  assert (Hsmall : b < 2 ^ (s + 1)).
  { rewrite Z.pow_add_r, Z.pow_1_r by lia.
    change (2 ^ 53) with (2 * 2 ^ 52) in Ha. nia. }
  pose proof (round_in_ceil_window a b s Hapos Hb0 Hs Hsmall) as Hwin.
  cbv zeta in Hwin.
  assert (Hm : (if 0 <=? fl - 52 then round_half_even a (b * 2 ^ (fl - 52))
                else round_half_even (a * 2 ^ (- (fl - 52))) b)
               = round_half_even (a * 2 ^ s) b).
  { destruct (Z.leb_spec 0 (fl - 52)).
    - assert (fl - 52 = 0) as -> by lia. assert (s = 0) as -> by (unfold s; lia).
      simpl. rewrite !Z.mul_1_r. reflexivity.
    - replace (- (fl - 52)) with s by (unfold s; lia). reflexivity. }
  rewrite Hm. clear Hm.
  set (m := round_half_even (a * 2 ^ s) b) in *.
  pose proof (ceil_div_bounds a b Hb0) as [Hc1 Hc2].
  assert (Hc : 1 ≤ ceil_div a b) by nia.
  assert (Hmpos : 0 < m).
  { pose proof (Z.mul_nonneg_nonneg (ceil_div a b - 1) (2 ^ s)). lia. }
  assert (Hceil : ceil_scaled m (fl - 52) = ceil_div a b).
  { replace (fl - 52) with (- s) by (unfold s; lia).
    apply ceil_scaled_intro; assumption. }
  destruct (Z.eqb_spec m (2 ^ 53)) as [Hm53|Hm53].
  - destruct (Z.ltb_spec 1024 (fl - 52 + 1 + 53)); [lia|].
    simpl. rewrite <- Hceil, Hm53.
    change (2 ^ 53) with (2 * 4503599627370496).
    rewrite ceil_scaled_double. reflexivity.
  - destruct (Z.ltb_spec 1024 (fl - 52 + 53)); [lia|].
    destruct m as [|p|p]; try lia.
    simpl. rewrite Hceil. reflexivity.
Qed.

End PageCount.

(** ** Validation *)

Lemma vap_reports_r {A B} (f : errors + (A → B)) (x : errors + A) key err :
  reports x key err → reports (f <*> x) key err.
Proof.
  intros (errs & -> & Hin).
  destruct f as [e|g]; simpl; eexists; (split; [reflexivity|]);
    [apply elem_of_app; by right|done].
Qed.

Lemma vap_reports_l {A B} (f : errors + (A → B)) (x : errors + A) key err :
  reports f key err → reports (f <*> x) key err.
Proof.
  intros (errs & -> & Hin).
  destruct x as [e|a]; simpl; eexists; (split; [reflexivity|]);
    [apply elem_of_app; by left|done].
Qed.

Lemma vap_inr_inv {A B} (f : errors + (A → B)) (x : errors + A) b :
  f <*> x = inr b → ∃ g a, f = inr g ∧ x = inr a ∧ b = g a.
Proof. destruct f, x; simpl; intros; simplify_eq; eauto. Qed.

Lemma required_missing {A} body key (parse : value → field_error + A) :
  body !! key = None → reports (required body key parse) key Missing.
Proof.
  intros H. unfold required. rewrite H.
  exists [(key, Missing)]. split; [done|]. apply list_elem_of_here.
Qed.

Lemma required_rejected {A} body key (parse : value → field_error + A) v err :
  body !! key = Some v → parse v = inl err →
  reports (required body key parse) key err.
Proof.
  intros H Hp. unfold required. rewrite H, Hp.
  exists [(key, err)]. split; [done|]. apply list_elem_of_here.
Qed.

Lemma required_inr {A} body key (parse : value → field_error + A) a :
  required body key parse = inr a → ∃ v, body !! key = Some v ∧ parse v = inr a.
Proof.
  unfold required. destruct (body !! key) as [v|]; [|done].
  destruct (parse v) eqn:Hp; [done|]. intros [= ->]. eauto.
Qed.

(** A required field that reports an error fails the whole body with it:
    the errors of the other fields are added, none is dropped. *)
Ltac report_required lemma :=
  unfold MovieCreateUpdateSchema.model_validate;
  repeat first [ apply vap_reports_r; lemma | apply vap_reports_l ].

Lemma model_validate_required_missing today body key :
  key ∈ ["name"; "date"; "score"; "overview"; "status"; "budget"; "revenue";
         "country_id"] →
  body !! key = None →
  reports (MovieCreateUpdateSchema.model_validate today body) key Missing.
Proof.
  intros Hkey Hnone.
  repeat (apply elem_of_cons in Hkey as [->|Hkey];
          [report_required ltac:(apply required_missing; exact Hnone)|]).
  by apply elem_of_nil in Hkey.
Qed.

Lemma MovieStatusEnum_of_value_None s :
  s ∉ MovieStatusEnum_value <$> [RELEASED; POST_PRODUCTION; IN_PRODUCTION] →
  MovieStatusEnum_of_value s = None.
Proof.
  intros Hs. unfold MovieStatusEnum_of_value.
  repeat case_decide; subst; try done; exfalso; apply Hs; simpl.
  - apply list_elem_of_here.
  - apply list_elem_of_further, list_elem_of_here.
  - do 2 apply list_elem_of_further. apply list_elem_of_here.
Qed.

Lemma condecimal_inr max_digits decimal_places d d' :
  condecimal max_digits decimal_places d = inr d' → d' = d.
Proof. unfold condecimal. repeat case_match; intros; simplify_eq; done. Qed.

Lemma negative_budget_refused d :
  Py.coefficient d < 0 →
  ∃ err, after (condecimal 15 2 d) MovieCreateUpdateSchema.non_negative_budget
         = inl err.
Proof.
  intros Hneg. destruct (condecimal 15 2 d) as [e|d'] eqn:Hc; simpl; [eauto|].
  apply condecimal_inr in Hc as ->.
  unfold MovieCreateUpdateSchema.non_negative_budget, Py.decimal_lt_zero.
  destruct (Z.ltb_spec (Py.coefficient d) 0); [eauto|lia].
Qed.

Lemma model_validate_out_of_range today body key :
  out_of_range today body key →
  refuses (MovieCreateUpdateSchema.model_validate today body) key.
Proof.
  destruct 1 as [v x Hv Hp Hr|d Hv Hneg|n Hv Hneg|v x Hv Hp Hr|d Hv Hlate
                |s Hv Hlong|s Hv Hs].
  - exists (ValueError "Score must be between 0 and 100.").
    report_required ltac:(eapply required_rejected; [exact Hv|]).
    rewrite Hp. simpl. unfold MovieCreateUpdateSchema.score_between_0_and_100.
    by rewrite Hr.
  - destruct (negative_budget_refused d Hneg) as [err Herr]. exists err.
    report_required ltac:(eapply required_rejected; [exact Hv|]). exact Herr.
  - destruct (negative_budget_refused (Py.mkDecimal n 0) Hneg) as [err Herr].
    exists err.
    report_required ltac:(eapply required_rejected; [exact Hv|]). exact Herr.
  - exists (ValueError "Revenue must be non-negative.").
    report_required ltac:(eapply required_rejected; [exact Hv|]).
    rewrite Hp. simpl. unfold MovieCreateUpdateSchema.non_negative_revenue.
    by rewrite Hr.
  - exists (ValueError "Date must not be more than one year in the future.").
    report_required ltac:(eapply required_rejected; [exact Hv|]).
    simpl. unfold MovieCreateUpdateSchema.date_within_one_year.
    destruct (Z.ltb_spec (today + 365) d); [done|lia].
  - exists (ValueError "Name must not exceed 255 characters.").
    report_required ltac:(eapply required_rejected; [exact Hv|]).
    simpl. unfold MovieCreateUpdateSchema.name_max_length.
    destruct (Z.ltb_spec 255 (Z.of_nat (String.length s))); [done|lia].
  - exists WrongType.
    report_required ltac:(eapply required_rejected; [exact Hv|]).
    simpl. by rewrite MovieStatusEnum_of_value_None.
Qed.

(** ** Queries *)

Lemma load_id s i film : load s i = Some film → id film = i.
Proof.
  unfold load. destruct (movies s !! i); simpl; [|done]. by intros [= <-].
Qed.

Lemma load_Some s i row :
  movies s !! i = Some row →
  load s i = Some (mkMovie i (columns row) (country_of s row)
                           (row_genres row) (row_actors row) (row_languages row)).
Proof. intros H. unfold load. by rewrite H. Qed.

Lemma load_None s i : movies s !! i = None → load s i = None.
Proof. intros H. unfold load. by rewrite H. Qed.

Lemma elem_of_select_ordered s film :
  film ∈ select_ordered s ↔
  ∃ row, movies s !! id film = Some row ∧ load s (id film) = Some film.
Proof.
  unfold select_ordered. rewrite list_elem_of_omap. split.
  - intros (i & Hi & Hload). pose proof (load_id _ _ _ Hload) as <-.
    destruct (movies s !! id film) as [row|] eqn:Hrow.
    + exists row. split; [done|]. exact Hload.
    + by rewrite load_None in Hload.
  - intros (row & Hrow & Hload). exists (id film). split; [|done].
    rewrite merge_sort_Permutation. apply list_elem_of_fmap.
    exists (id film, row). split; [done|]. by apply elem_of_map_to_list.
Qed.

Lemma omap_load_ids s (l : list Z) : id <$> omap (load s) l `sublist_of` l.
Proof.
  induction l as [|i l IH]; simpl; [done|].
  destruct (load s i) as [film|] eqn:Hload; simpl.
  - rewrite (load_id _ _ _ Hload). by apply sublist_skip.
  - by apply sublist_cons.
Qed.

Lemma select_ordered_NoDup s : NoDup (id <$> select_ordered s).
Proof.
  eapply sublist_NoDup; [|apply omap_load_ids].
  rewrite merge_sort_Permutation. apply NoDup_fst_map_to_list.
Qed.

Lemma select_ordered_length s :
  (length (select_ordered s) ≤ size (movies s))%nat.
Proof.
  rewrite <- length_map_to_list, <- (length_fmap fst (map_to_list (movies s))).
  rewrite <- (merge_sort_Permutation id_desc (map_to_list (movies s)).*1).
  rewrite <- (length_fmap id (select_ordered s)).
  apply sublist_length, omap_load_ids.
Qed.

Lemma select_page_beyond s offset limit :
  select_count s ≤ offset → select_page offset limit s = [].
Proof.
  unfold select_count, select_page. intros H.
  pose proof (select_ordered_length s).
  rewrite drop_ge by lia. by rewrite take_nil.
Qed.

(** ** The list operation *)

Lemma PaginationParams_valid page per_page :
  1 ≤ page → 1 ≤ per_page ≤ 20 →
  PaginationParams.model_validate (Some page) (Some per_page)
  = inr (PaginationParams.mk page per_page).
Proof.
  intros Hp [Hl Hu]. unfold PaginationParams.model_validate, PaginationParams.conint.
  simpl.
  destruct (Z.ltb_spec page 1); [lia|].
  destruct (Z.ltb_spec per_page 1); [lia|].
  destruct (Z.ltb_spec 20 per_page); [lia|]. reflexivity.
Qed.

Lemma GET_movies_empty_page s page per_page others :
  1 ≤ page → 1 ≤ per_page ≤ 20 →
  select_page ((page - 1) * per_page) per_page s = [] →
  GET_movies (Some page) (Some per_page) others s
  = (mkResponse 404 (ErrorDetail "No movies found."), s, [Execute]).
Proof.
  intros Hp Hpp Hrows. unfold GET_movies.
  rewrite PaginationParams_valid by done.
  unfold serve, get_movies, bind, execute. simpl. rewrite Hrows. reflexivity.
Qed.

(** C3. For valid page and per_page, a request for a page that yields no
    rows (in particular a page beyond the last one) is answered 404
    "No movies found.", exactly as the same request on an empty catalog,
    whether or not other pages hold movies. *)
Theorem empty_page_is_not_found (s : db) (page per_page : Z) (others : list change) :
  1 ≤ page → 1 ≤ per_page ≤ 20 →
  select_page ((page - 1) * per_page) per_page s = []
  ∨ select_count s ≤ (page - 1) * per_page →
  GET_movies (Some page) (Some per_page) others s
  = (mkResponse 404 (ErrorDetail "No movies found."), s, [Execute])
  ∧ (GET_movies (Some page) (Some per_page) others s).1.1
    = (GET_movies (Some page) (Some per_page) others (mkDb ∅ (countries s))).1.1.
Proof.
  intros Hp Hpp Hrows.
  assert (Hnil : select_page ((page - 1) * per_page) per_page s = []).
  { destruct Hrows as [H|H]; [done|]. by apply select_page_beyond. }
  rewrite !GET_movies_empty_page; try done.
  apply select_page_beyond. unfold select_count. simpl.
  rewrite map_size_empty. nia.
Qed.

(** C4. For valid page and per_page and a table of fewer than 2^53 movies,
    every successful list response carries total_items = the number of
    movies in the table, total_pages = the least integer t with
    total_items <= t * per_page, next_page = page + 1 exactly when
    page < total_pages and prev_page = page - 1 exactly when page > 1. *)
Theorem pagination_metadata (s : db) (page per_page : Z) (others : list change)
    (r : MovieListResponseSchema.t) :
  1 ≤ page → 1 ≤ per_page ≤ 20 →
  Z.of_nat (size (movies s)) < 2 ^ 53 →
  (GET_movies (Some page) (Some per_page) others s).1.1
  = mkResponse 200 (Listing r) →
  let total_items := MovieListResponseSchema.total_items r in
  let total_pages := MovieListResponseSchema.total_pages r in
  total_items = Z.of_nat (size (movies s))
  ∧ (total_pages - 1) * per_page < total_items ≤ total_pages * per_page
  ∧ MovieListResponseSchema.next_page r
    = (if decide (page < total_pages) then Some (page + 1) else None)
  ∧ MovieListResponseSchema.prev_page r
    = (if decide (1 < page) then Some (page - 1) else None).
Proof.
  intros Hp Hpp Hsize. unfold GET_movies.
  rewrite PaginationParams_valid by done.
  unfold serve, get_movies, bind, execute. simpl.
  destruct (select_page _ _ s) as [|film films]; [done|].
  simpl. unfold select_count.
  rewrite ceil_truediv_exact by lia.
  unfold MovieListResponseSchema_init.
  destruct (mapM _ _) as [items|]; simpl; [|done].
  intros [= <-]. simpl.
  destruct (ceil_div_bounds (Z.of_nat (size (movies s))) per_page ltac:(lia)).
  split; [done|]. split; [lia|]. split.
  - destruct (Z.leb_spec (Py.ceil_div (Z.of_nat (size (movies s))) per_page) page);
      case_decide; done || lia.
  - destruct (Z.ltb_spec 1 page); case_decide; done || lia.
Qed.

(** ** The create operation *)

Lemma select_ordered_attrs s film :
  film ∈ select_ordered s →
  ∃ row, movies s !! id film = Some row ∧ attrs film = columns row.
Proof.
  intros (row & Hrow & Hload)%elem_of_select_ordered.
  exists row. split; [done|]. rewrite (load_Some _ _ _ Hrow) in Hload.
  by injection Hload as <-.
Qed.

Lemma select_by_name_date_one s name date i row :
  unique_name_date s →
  movies s !! i = Some row →
  columns row !! "name" = Some (VStr name) →
  columns row !! "date" = Some (VDate date) →
  ∃ film, select_by_name_date name date s = [film].
Proof.
  intros Huniq Hrow Hname Hdate. unfold select_by_name_date.
  set (P := λ film : MovieModel,
              attrs film !! "name" = Some (VStr name)
              ∧ attrs film !! "date" = Some (VDate date)).
  assert (Hids : ∀ film, film ∈ filter P (select_ordered s) → id film = i).
  { intros film [[Hn Hd] Hin]%list_elem_of_filter.
    destruct (select_ordered_attrs _ _ Hin) as (row' & Hrow' & Hattrs).
    rewrite Hattrs in Hn, Hd. by eapply Huniq. }
  assert (Hdup : NoDup (id <$> filter P (select_ordered s))).
  { eapply sublist_NoDup; [apply select_ordered_NoDup|].
    apply fmap_sublist, sublist_filter. }
  assert (Hin : mkMovie i (columns row) (country_of s row) (row_genres row)
                        (row_actors row) (row_languages row)
                ∈ filter P (select_ordered s)).
  { apply list_elem_of_filter. split; [done|].
    apply elem_of_select_ordered. exists row. split; [done|]. by apply load_Some. }
  destruct (filter P (select_ordered s)) as [|x [|y l]].
  - by apply elem_of_nil in Hin.
  - eauto.
  - exfalso. simpl in Hdup. apply NoDup_cons in Hdup as [Hx _]. apply Hx.
    rewrite (Hids x) by apply list_elem_of_here.
    rewrite <- (Hids y) by apply list_elem_of_further, list_elem_of_here.
    apply list_elem_of_here.
Qed.

(** C5. On a store that keeps (name, date) unique, a create request whose
    name and date are those of a stored movie is answered 409 "Movie with
    the same name and date already exists.", whatever the other fields of
    the payload are; nothing is written. *)
Theorem duplicate_name_date_conflicts (model_columns model_attrs : gset string)
    (today : Z) (payload : gmap string value) (film : MovieCreateUpdateSchema.t)
    (others : list change) (s : db) (i : Z) (row : MovieRow) :
  unique_name_date s →
  MovieCreateUpdateSchema.model_validate today payload = inr film →
  movies s !! i = Some row →
  columns row !! "name" = Some (VStr (MovieCreateUpdateSchema.name film)) →
  columns row !! "date" = Some (VDate (MovieCreateUpdateSchema.date film)) →
  POST_movies model_columns model_attrs today payload others s
  = (mkResponse 409 (ErrorDetail "Movie with the same name and date already exists."),
     s, [Execute]).
Proof.
  intros Huniq Hvalid Hrow Hname Hdate. unfold POST_movies. rewrite Hvalid.
  destruct (select_by_name_date_one _ _ _ _ _ Huniq Hrow Hname Hdate) as [x Hx].
  unfold serve, add_film, bind, execute. simpl. rewrite Hx. reflexivity.
Qed.

(** ** The detail and delete operations *)

Lemma GET_movie_missing s film_id others :
  movies s !! film_id = None →
  GET_movie film_id others s
  = (mkResponse 404 (ErrorDetail "Movie with the given ID was not found."),
     s, [Execute]).
Proof.
  intros H. unfold GET_movie, serve, get_movie, get_film_or_404, bind, execute.
  simpl. unfold select_by_id. rewrite (load_None _ _ H). reflexivity.
Qed.

(** C9. Deleting a stored movie is answered 204 with no body and removes
    the movie; every get-by-id for that identifier on the resulting store
    is answered 404 "Movie with the given ID was not found.". *)
Theorem delete_then_get_not_found (model_columns : gset string) (s : db)
    (film_id : Z) (row : MovieRow) :
  movies s !! film_id = Some row →
  ∃ s', DELETE_movie model_columns film_id [] s
        = (mkResponse 204 NoBody, s', [Execute; Delete; Commit])
      ∧ movies s' = delete film_id (movies s)
      ∧ ∀ others, GET_movie film_id others s'
                  = (mkResponse 404 (ErrorDetail "Movie with the given ID was not found."),
                     s', [Execute]).
Proof.
  intros Hrow. eexists. split; [|split].
  - unfold DELETE_movie, serve, remove_film, get_film_or_404, bind, execute.
    simpl. unfold select_by_id. rewrite (load_Some _ _ _ Hrow). reflexivity.
  - reflexivity.
  - intros others. apply GET_movie_missing. simpl. apply lookup_delete_eq.
Qed.

(** ** The update operation *)

Section Update.
Variable model_columns : gset string.

Lemma foldl_assign_relations data db_film :
  let film := foldl (assign model_columns) db_film data in
  id film = id db_film ∧ country film = country db_film
  ∧ genres film = genres db_film ∧ actors film = actors db_film
  ∧ languages film = languages db_film.
Proof.
  revert db_film. induction data as [|kv data IH]; intros db_film; simpl; [done|].
  destruct (IH (assign model_columns db_film kv)) as (-> & -> & -> & -> & ->).
  unfold assign. by case_decide.
Qed.

Lemma foldl_assign_untouched data db_film key :
  key ∉ data.*1 ∨ key ∉ model_columns →
  attrs (foldl (assign model_columns) db_film data) !! key = attrs db_film !! key.
Proof.
  revert db_film. induction data as [|[k v] data IH]; intros db_film Hkey; simpl; [done|].
  rewrite IH.
  - unfold assign. simpl. case_decide; [|done]. simpl.
    apply lookup_insert_ne. intros ->. destruct Hkey as [Hkey|Hkey]; [|done].
    apply Hkey. simpl. apply list_elem_of_here.
  - destruct Hkey as [Hkey|Hkey]; [left|by right].
    intros Hin. apply Hkey. simpl. by apply list_elem_of_further.
Qed.

Lemma foldl_assign_supplied data db_film key v :
  NoDup data.*1 → (key, v) ∈ data → key ∈ model_columns →
  attrs (foldl (assign model_columns) db_film data) !! key = Some v.
Proof.
  revert db_film. induction data as [|[k w] data IH]; intros db_film Hdup Hin Hcol.
  { by apply elem_of_nil in Hin. }
  simpl in *. apply NoDup_cons in Hdup as [Hk Hdup].
  apply elem_of_cons in Hin as [[= <- <-]|Hin].
  - rewrite foldl_assign_untouched by (by left).
    unfold assign. simpl. rewrite decide_True by done. simpl.
    apply lookup_insert_eq.
  - by apply IH.
Qed.

End Update.

Lemma model_validate_inr today body film :
  MovieCreateUpdateSchema.model_validate today body = inr film →
  MovieCreateUpdateSchema.fields_set film
  = dom body ∩ list_to_set MovieCreateUpdateSchema.model_fields
  ∧ Forall (λ key, is_Some (body !! key))
      ["name"; "date"; "score"; "overview"; "status"; "budget"; "revenue";
       "country_id"].
Proof.
  unfold MovieCreateUpdateSchema.model_validate. intros H.
  repeat match goal with
         | H : _ <*> _ = inr _ |- _ =>
             apply vap_inr_inv in H as (? & ? & H & ? & ->)
         end.
  injection H as <-. simpl.
  repeat match goal with
         | H : required _ _ _ = inr _ |- _ =>
             apply required_inr in H as (? & H & _)
         end.
  split; [by simplify_eq|].
  repeat (apply Forall_cons; split; [by eexists|]). apply Forall_nil_2.
Qed.

Lemma dict_keys film :
  (MovieCreateUpdateSchema.dict film).*1 = MovieCreateUpdateSchema.model_fields.
Proof. reflexivity. Qed.

Lemma model_fields_NoDup : NoDup MovieCreateUpdateSchema.model_fields.
Proof. apply (bool_decide_unpack _). vm_compute. exact I. Qed.

Lemma dict_exclude_unset_NoDup film :
  NoDup (MovieCreateUpdateSchema.dict_exclude_unset film).*1.
Proof.
  eapply sublist_NoDup; [|apply fmap_sublist, sublist_filter].
  rewrite dict_keys. apply model_fields_NoDup.
Qed.

Lemma dict_exclude_unset_keys film key :
  key ∈ (MovieCreateUpdateSchema.dict_exclude_unset film).*1 →
  key ∈ MovieCreateUpdateSchema.model_fields.
Proof.
  intros ([k v] & -> & [_ Hin]%list_elem_of_filter)%list_elem_of_fmap.
  rewrite <- (dict_keys film). apply list_elem_of_fmap. by exists (k, v).
Qed.

Lemma dict_exclude_unset_absent today body film key :
  MovieCreateUpdateSchema.model_validate today body = inr film →
  body !! key = None →
  key ∉ (MovieCreateUpdateSchema.dict_exclude_unset film).*1.
Proof.
  intros [Hset _]%model_validate_inr Hnone.
  intros ([k v] & -> & [Hin _]%list_elem_of_filter)%list_elem_of_fmap.
  simpl in *. rewrite Hset in Hin.
  apply elem_of_intersection in Hin as [Hin%elem_of_dom _].
  rewrite Hnone in Hin. by destruct Hin.
Qed.

Lemma dict_exclude_unset_supplied today body film key v :
  MovieCreateUpdateSchema.model_validate today body = inr film →
  is_Some (body !! key) →
  (key, v) ∈ MovieCreateUpdateSchema.dict film →
  (key, v) ∈ MovieCreateUpdateSchema.dict_exclude_unset film.
Proof.
  intros [Hset _]%model_validate_inr Hsome Hin.
  apply list_elem_of_filter. split; [|done]. simpl. rewrite Hset.
  apply elem_of_intersection. split; [by apply elem_of_dom|].
  apply elem_of_list_to_set. rewrite <- (dict_keys film).
  apply list_elem_of_fmap. by exists (key, v).
Qed.

(** C1 (the code at the failing input, in general). An update that supplies
    a single field, such as a score alone, does not succeed: whatever the
    field, its value, the identifier and the store, the request is answered
    422 with "field required" for every other field among name, date, score,
    overview, status, budget, revenue and country_id; the handler is not
    reached and the store is left as it was. *)
Theorem single_field_update_is_refused (model_columns : gset string)
    (today film_id : Z) (key : string) (v : value) (others : list change) (s : db) :
  ∃ errs,
    (∀ k, k ∈ ["name"; "date"; "score"; "overview"; "status"; "budget"; "revenue";
               "country_id"] →
          k ≠ key → (k, Missing) ∈ errs)
    ∧ PATCH_movie model_columns today film_id {[key := v]} others s
      = (mkResponse 422 (RequestValidationError errs), s, []).
Proof.
  assert (Hmissing : ∀ k,
            k ∈ ["name"; "date"; "score"; "overview"; "status"; "budget"; "revenue";
                 "country_id"] →
            k ≠ key →
            reports (MovieCreateUpdateSchema.model_validate today {[key := v]})
                    k Missing).
  { intros k Hk Hne. apply model_validate_required_missing; [exact Hk|].
    by apply lookup_singleton_ne. }
  assert (∃ k, k ∈ ["name"; "date"; "score"; "overview"; "status"; "budget";
                    "revenue"; "country_id"] ∧ k ≠ key) as (k0 & Hk0 & Hne0).
  { destruct (decide (key = "name")) as [->|Hname].
    - exists "date". split; [apply list_elem_of_further, list_elem_of_here|done].
    - exists "name". split; [apply list_elem_of_here|done]. }
  destruct (Hmissing k0 Hk0 Hne0) as (errs & Hv & _).
  exists errs. split.
  - intros k Hk Hne. destruct (Hmissing k Hk Hne) as (errs' & Hv' & Hin).
    rewrite Hv in Hv'. by injection Hv' as <-.
  - unfold PATCH_movie. by rewrite Hv.
Qed.

Lemma from_orm_no_country film :
  country film = None → MovieDetailSchema_from_orm film = None.
Proof.
  intros H. unfold MovieDetailSchema_from_orm. rewrite H.
  repeat (destruct (getattr _ _ _); simpl; try done).
Qed.

Lemma country_of_null s row :
  columns row !! "country_id" = None ∨ columns row !! "country_id" = Some VNone →
  country_of s row = None.
Proof. unfold country_of. by intros [->| ->]. Qed.

(** C7 (the code at the failing input, in general). The detail response of
    a stored movie that has no country is a bare server error: the detail
    schema does not accept an instance without a country. *)
Theorem detail_without_country_fails (s : db) (film_id : Z) (row : MovieRow)
    (others : list change) :
  movies s !! film_id = Some row →
  columns row !! "country_id" = Some VNone →
  GET_movie film_id others s
  = (mkResponse 500 (InternalServerError None), s, [Execute]).
Proof.
  intros Hrow Hnull.
  unfold GET_movie, serve, get_movie, get_film_or_404, bind, execute. simpl.
  unfold select_by_id. rewrite (load_Some _ _ _ Hrow). simpl.
  rewrite from_orm_no_country; [done|]. simpl. apply country_of_null. by right.
Qed.


(** One keyword of the constructor whose value is known. *)
Ltac relationship_step :=
  match goal with
  | |- context [relationship_refuses ?k ?v] =>
      let r := eval vm_compute in (relationship_refuses k v) in
      change (relationship_refuses k v) with r; cbv beta iota
  end.

(** What the constructor made of the fields of a validated instance when it
    took them: every field is an attribute of the class, the instance named
    no country and an empty list of languages, and the new instance holds
    every field. *)
Lemma MovieModel_new_dict model_attrs film instance :
  MovieModel_new model_attrs (MovieCreateUpdateSchema.dict film) ∅ = inr instance →
  instance = list_to_map (MovieCreateUpdateSchema.dict film)
  ∧ MovieCreateUpdateSchema.country film = None
  ∧ MovieCreateUpdateSchema.languages film = Some []
  ∧ Forall (λ key, key ∈ model_attrs) MovieCreateUpdateSchema.model_fields.
Proof.
  unfold MovieCreateUpdateSchema.dict, MovieCreateUpdateSchema.model_fields.
  destruct (MovieCreateUpdateSchema.country film) as [c|],
           (MovieCreateUpdateSchema.languages film) as [[|l ls]|];
    cbn [MovieModel_new MovieCreateUpdateSchema.of_option];
    repeat (case_decide; [|done]; relationship_step); try done.
  intros [= <-]. split; [reflexivity|]. split; [done|]. split; [done|].
  repeat (apply Forall_cons; split; [assumption|]). apply Forall_nil_2.
Qed.

Lemma MovieModel_new_accepts model_attrs film :
  Forall (λ key, key ∈ model_attrs) MovieCreateUpdateSchema.model_fields →
  MovieCreateUpdateSchema.country film = None →
  MovieCreateUpdateSchema.languages film = Some [] →
  MovieModel_new model_attrs (MovieCreateUpdateSchema.dict film) ∅
  = inr (list_to_map (MovieCreateUpdateSchema.dict film)).
Proof.
  intros Hattrs Hcountry Hlanguages.
  unfold MovieCreateUpdateSchema.dict, MovieCreateUpdateSchema.model_fields in *.
  rewrite Hcountry, Hlanguages.
  repeat (apply Forall_cons in Hattrs as [? Hattrs]).
  cbn [MovieModel_new MovieCreateUpdateSchema.of_option].
  repeat (rewrite decide_True by assumption; relationship_step).
  reflexivity.
Qed.

(** The constructor fails with a TypeError or an AttributeError only. *)
Lemma MovieModel_new_inl model_attrs kwargs self e :
  MovieModel_new model_attrs kwargs self = inl e →
  e = AttributeError ∨ ∃ key, e = TypeError key.
Proof.
  revert self. induction kwargs as [|[key v] kwargs IH]; intros self; [done|].
  cbn [MovieModel_new]. case_decide; [|intros [= <-]; right; by eexists].
  unfold relationship_refuses.
  repeat case_decide; destruct v as [| | | | | | |[|]]; try apply IH;
    intros [= <-]; (by left) || (right; by eexists).
Qed.

(** The row of an instance the constructor took has a null country_id. *)
Lemma sync_country_dict film :
  MovieCreateUpdateSchema.country film = None →
  sync_country (list_to_map (MovieCreateUpdateSchema.dict film)) !! "country_id"
  = Some VNone.
Proof.
  intros Hcountry. unfold sync_country.
  change ((list_to_map (MovieCreateUpdateSchema.dict film) : gmap string value)
            !! "country")
    with (Some (MovieCreateUpdateSchema.of_option VStr
                  (MovieCreateUpdateSchema.country film))).
  rewrite Hcountry. cbn [MovieCreateUpdateSchema.of_option].
  apply lookup_insert_eq.
Qed.

(** No create request is answered 201: the row the constructor and the
    store accept has no country, and the detail schema needs one. *)
Lemma POST_movies_not_201 model_columns model_attrs today payload others s :
  status_code (POST_movies model_columns model_attrs today payload others s).1.1 ≠ 201.
Proof.
  unfold POST_movies.
  destruct (MovieCreateUpdateSchema.model_validate today payload) as [errs|film];
    [done|].
  unfold serve, add_film, bind, execute.
  cbn -[MovieModel_init MovieCreateUpdateSchema.dict apply_concurrent].
  destruct (select_by_name_date _ _ s) as [|x [|y l]];
    cbn -[MovieModel_init MovieCreateUpdateSchema.dict apply_concurrent]; [|done..].
  unfold MovieModel_init.
  destruct (MovieModel_new _ _ ∅) as [e|instance] eqn:Hnew.
  { by destruct (MovieModel_new_inl _ _ _ _ Hnew) as [->|[key ->]]. }
  apply MovieModel_new_dict in Hnew as (-> & Hcountry & _).
  unfold ret, add, commit.
  cbn -[MovieCreateUpdateSchema.dict apply_concurrent list_to_map sync_country].
  set (base := apply_concurrent model_columns others s).
  destruct (violates_unique _ _ base);
    cbn -[MovieCreateUpdateSchema.dict list_to_map sync_country]; [done|].
  unfold refresh, load.
  cbn -[MovieCreateUpdateSchema.dict list_to_map sync_country].
  rewrite lookup_insert_eq.
  cbn -[MovieCreateUpdateSchema.dict list_to_map sync_country].
  rewrite from_orm_no_country; [done|].
  cbn -[MovieCreateUpdateSchema.dict list_to_map sync_country].
  apply country_of_null. cbn [columns].
  destruct (filter _ _ !! "country_id") as [v|] eqn:Hv; [right|by left].
  apply map_lookup_filter_Some in Hv as [Hv _].
  rewrite sync_country_dict in Hv by done. by injection Hv as <-.
Qed.

(** C8 (the code at the failing input, in general). A create request whose
    payload validates and names no country (country_id null) is never
    answered 201 with a detail view, whatever the columns and attributes of
    the model and whatever the store holds. *)
Theorem create_without_country_not_created (model_columns model_attrs : gset string)
    (today : Z) (payload : gmap string value) (film : MovieCreateUpdateSchema.t)
    (others : list change) (s : db) :
  MovieCreateUpdateSchema.model_validate today payload = inr film →
  MovieCreateUpdateSchema.country_id film = None →
  status_code (POST_movies model_columns model_attrs today payload others s).1.1 ≠ 201.
Proof. intros _ _. apply POST_movies_not_201. Qed.


(** C2 (the code at the failing input, in general). When the duplicate
    check of a create request passes, the constructor takes the payload and
    the store then rejects the insert at commit, the request is answered
    with the bare IntegrityError under status 500, not with a 409. *)
Theorem rejected_insert_surfaces_raw (model_columns model_attrs : gset string)
    (today : Z) (payload : gmap string value) (film : MovieCreateUpdateSchema.t)
    (instance : gmap string value) (others : list change) (s : db) :
  MovieCreateUpdateSchema.model_validate today payload = inr film →
  select_by_name_date (MovieCreateUpdateSchema.name film)
                      (MovieCreateUpdateSchema.date film) s = [] →
  MovieModel_new model_attrs (MovieCreateUpdateSchema.dict film) ∅ = inr instance →
  apply_change model_columns (Insert instance)
    (apply_concurrent model_columns others s) = inl IntegrityError →
  POST_movies model_columns model_attrs today payload others s
  = (mkResponse 500 (InternalServerError (Some IntegrityError)),
     apply_concurrent model_columns others s, [Execute; Add; Commit]).
Proof.
  intros Hvalid Hcheck Hnew Hreject. unfold POST_movies. rewrite Hvalid.
  unfold serve, add_film, bind, execute.
  cbn -[MovieModel_init MovieCreateUpdateSchema.dict apply_concurrent
        apply_change list_to_map].
  rewrite Hcheck.
  cbn -[MovieModel_init MovieCreateUpdateSchema.dict apply_concurrent
        apply_change list_to_map].
  unfold MovieModel_init. rewrite Hnew.
  unfold ret, add, commit.
  cbn -[MovieCreateUpdateSchema.dict apply_concurrent apply_change list_to_map].
  rewrite Hreject. reflexivity.
Qed.

(** ** Validation before the handler *)

(** C6. A create or update payload whose score is outside [0, 100], whose
    budget or revenue is negative, whose date lies more than 365 days after
    today, whose name is longer than 255 characters or whose status is none
    of the three enumerated values is answered 422 with an error on that
    field; no session call is made and the store is unchanged. *)
Theorem out_of_range_rejected (model_columns model_attrs : gset string)
    (today film_id : Z) (payload : gmap string value) (key : string)
    (others : list change) (s : db) :
  out_of_range today payload key →
  ∃ errs,
    key ∈ errs.*1
    ∧ POST_movies model_columns model_attrs today payload others s
      = (mkResponse 422 (RequestValidationError errs), s, [])
    ∧ PATCH_movie model_columns today film_id payload others s
      = (mkResponse 422 (RequestValidationError errs), s, []).
Proof.
  intros (err & errs & Hv & Hin)%model_validate_out_of_range.
  exists errs. unfold POST_movies, PATCH_movie. rewrite Hv.
  split; [|done]. apply list_elem_of_fmap. by exists (key, err).
Qed.

(** C10. An update payload that omits any of name, date, score, overview,
    status, budget and revenue is answered 422 with "field required" for
    that key; no session call is made, so the stored record is neither read
    nor modified. *)
Theorem update_requires_all_fields (model_columns : gset string)
    (today film_id : Z) (payload : gmap string value) (key : string)
    (others : list change) (s : db) :
  key ∈ ["name"; "date"; "score"; "overview"; "status"; "budget"; "revenue"] →
  payload !! key = None →
  ∃ errs,
    (key, Missing) ∈ errs
    ∧ PATCH_movie model_columns today film_id payload others s
      = (mkResponse 422 (RequestValidationError errs), s, []).
Proof.
  intros Hkey Hnone.
  destruct (model_validate_required_missing today payload key) as (errs & Hv & Hin);
    [|done|].
  { apply (elem_of_app ["name"; "date"; "score"; "overview"; "status"; "budget";
                        "revenue"] ["country_id"]). by left. }
  exists errs. unfold PATCH_movie. by rewrite Hv.
Qed.

(** ** The properties on the sample data *)

(** The rounded quotient is the one IEEE 754 division gives on the converted
    operands. *)
Example int_truediv_is_SFdiv :
  Forall (λ ab : Z * Z,
            Py.int_truediv ab.1 ab.2
            = Some (SFdiv Py.prec Py.emax (Py.float_of_int ab.1) (Py.float_of_int ab.2)))
         [(1, 3); (7, 3); (21, 10); (2, 3); (9007199254740991, 20);
          (9007199254740991, 7); (4503599627370497, 2); (-7, 2); (123456789, 19)].
Proof. repeat constructor. Qed.

(** Above 2^53 the quotient is rounded before the ceiling is taken, which
    is why the page count is stated for tables of fewer than 2^53 movies. *)
Example int_truediv_rounds_above_2_53 :
  Py.int_truediv (2 ^ 53 + 1) 1 ≫= Py.math_ceil = Some (2 ^ 53).
Proof. reflexivity. Qed.

(** The example scenario, on a model class that accepts every field of the
    input schema: create, create again, read, update, delete, read. The
    create stores the movie without its country and is answered 500, and so
    is the read; the update assigns country_id again. *)
Example scenario :
  let '(r1, s1, _) := POST_movies Sample.model_columns Sample.accepting_attrs
                        Sample.today Sample.inception [] Sample.empty_catalog in
  let '(r2, s2, _) := POST_movies Sample.model_columns Sample.accepting_attrs
                        Sample.today Sample.inception [] s1 in
  let '(r3, s3, _) := GET_movie 1 [] s2 in
  let '(r4, s4, _) := PATCH_movie Sample.model_columns Sample.today 1
                        Sample.inception_rescored [] s3 in
  let '(r5, s5, _) := DELETE_movie Sample.model_columns 1 [] s4 in
  let '(r6, s6, _) := GET_movie 1 [] s5 in
  status_code <$> [r1; r2; r3; r4; r5; r6] = [500; 409; 500; 200; 204; 404]
  ∧ (columns <$> movies s1 !! 1) ≫= (.!! "country_id") = Some VNone
  ∧ (columns <$> movies s4 !! 1) ≫= (.!! "country_id") = Some (VInt 1)
  ∧ (columns <$> movies s4 !! 1) ≫= (.!! "score") = Some (VFloat (Py.float_of_int 90))
  ∧ movies s6 = ∅.
Proof. vm_compute. repeat split; reflexivity. Qed.

(** With the attributes the data model gives the model class, the
    constructor refuses the genre_ids key of the payload. *)
Example create_with_declared_attrs :
  POST_movies Sample.model_columns Sample.model_attrs Sample.today Sample.inception
              [] Sample.empty_catalog
  = (mkResponse 500 (InternalServerError (Some (TypeError "genre_ids"))),
     Sample.empty_catalog, [Execute]).
Proof. vm_compute. reflexivity. Qed.

(** A country given by name reaches the relationship before genre_ids is
    looked at. *)
Example create_with_country_name :
  POST_movies Sample.model_columns Sample.model_attrs Sample.today
              (<["country" := VStr "US"]> Sample.inception) [] Sample.empty_catalog
  = (mkResponse 500 (InternalServerError (Some AttributeError)),
     Sample.empty_catalog, [Execute]).
Proof. vm_compute. reflexivity. Qed.

(** C1, at the failing input: an update whose payload holds only a score
    is refused with 422 (seven required fields are missing) and does not
    succeed. *)
Example score_only_update_is_refused :
  PATCH_movie Sample.model_columns Sample.today 1 Sample.score_only [] Sample.catalog
  = (mkResponse 422
       (RequestValidationError
          [("name", Missing); ("date", Missing); ("overview", Missing);
           ("status", Missing); ("budget", Missing); ("revenue", Missing);
           ("country_id", Missing)]),
     Sample.catalog, [])
  ∧ status_code (PATCH_movie Sample.model_columns Sample.today 1 Sample.score_only
                             [] Sample.catalog).1.1 ≠ 200.
Proof. split; [vm_compute; reflexivity|vm_compute; discriminate]. Qed.


(** C2, at the failing input: another request inserts the same movie between
    the duplicate check and the commit. *)
Lemma rejected_insert_surfaces_raw_witness :
  POST_movies Sample.model_columns Sample.accepting_attrs Sample.today
              Sample.inception [Insert Sample.inception_columns] Sample.empty_catalog
  = (mkResponse 500 (InternalServerError (Some IntegrityError)),
     apply_concurrent Sample.model_columns [Insert Sample.inception_columns]
                      Sample.empty_catalog,
     [Execute; Add; Commit]).
Proof.
  apply (rejected_insert_surfaces_raw Sample.model_columns Sample.accepting_attrs
           Sample.today Sample.inception Sample.inception_film
           (list_to_map (MovieCreateUpdateSchema.dict Sample.inception_film))
           [Insert Sample.inception_columns] Sample.empty_catalog).
  - vm_compute. reflexivity.
  - vm_compute. reflexivity.
  - vm_compute. reflexivity.
  - vm_compute. reflexivity.
Defined.

(** C3, on the second page of a catalog of one movie. *)
Lemma empty_page_is_not_found_witness :
  GET_movies (Some 2) (Some 10) [] Sample.catalog
  = (mkResponse 404 (ErrorDetail "No movies found."), Sample.catalog, [Execute])
  ∧ (GET_movies (Some 2) (Some 10) [] Sample.catalog).1.1
    = (GET_movies (Some 2) (Some 10) []
                  (mkDb ∅ (countries Sample.catalog))).1.1.
Proof.
  apply (empty_page_is_not_found Sample.catalog 2 10 []); [lia|lia|].
  right. vm_compute. discriminate.
Defined.

(** C4, on the first page of a catalog of one movie. *)
Lemma pagination_metadata_witness :
  MovieListResponseSchema.total_items Sample.catalog_page
  = Z.of_nat (size (movies Sample.catalog))
  ∧ (MovieListResponseSchema.total_pages Sample.catalog_page - 1) * 10
    < MovieListResponseSchema.total_items Sample.catalog_page
    ≤ MovieListResponseSchema.total_pages Sample.catalog_page * 10
  ∧ MovieListResponseSchema.next_page Sample.catalog_page
    = (if decide (1 < MovieListResponseSchema.total_pages Sample.catalog_page)
       then Some (1 + 1) else None)
  ∧ MovieListResponseSchema.prev_page Sample.catalog_page
    = (if decide (1 < 1) then Some (1 - 1) else None).
Proof.
  apply (pagination_metadata Sample.catalog 1 10 [] Sample.catalog_page);
    [lia|lia| |].
  - vm_compute. reflexivity.
  - vm_compute. reflexivity.
Defined.

(** C5, on a second create of the stored movie. *)
Lemma duplicate_name_date_conflicts_witness :
  POST_movies Sample.model_columns Sample.model_attrs Sample.today Sample.inception
              [] Sample.catalog
  = (mkResponse 409 (ErrorDetail "Movie with the same name and date already exists."),
     Sample.catalog, [Execute]).
Proof.
  apply (duplicate_name_date_conflicts Sample.model_columns Sample.model_attrs
           Sample.today Sample.inception Sample.inception_film [] Sample.catalog
           1 Sample.inception_row).
  - intros i j ri rj name date Hi Hj _ _ _ _. simpl in Hi, Hj.
    apply lookup_singleton_Some in Hi as [<- _].
    by apply lookup_singleton_Some in Hj as [<- _].
  - vm_compute. reflexivity.
  - vm_compute. reflexivity.
  - vm_compute. reflexivity.
  - vm_compute. reflexivity.
Defined.

(** C6, on a payload whose score is 101. *)
Lemma out_of_range_rejected_witness :
  ∃ errs,
    "score" ∈ errs.*1
    ∧ POST_movies Sample.model_columns Sample.model_attrs Sample.today
                  Sample.score_too_high [] Sample.catalog
      = (mkResponse 422 (RequestValidationError errs), Sample.catalog, [])
    ∧ PATCH_movie Sample.model_columns Sample.today 1 Sample.score_too_high []
                  Sample.catalog
      = (mkResponse 422 (RequestValidationError errs), Sample.catalog, []).
Proof.
  apply (out_of_range_rejected Sample.model_columns Sample.model_attrs Sample.today 1
           Sample.score_too_high "score" [] Sample.catalog).
  apply (score_out_of_range _ _ (VInt 101) (Py.float_of_int 101)).
  - vm_compute. reflexivity.
  - reflexivity.
  - vm_compute. reflexivity.
Defined.

(** C7, at the failing input: a stored movie whose country_id is null. *)
Lemma detail_without_country_fails_witness :
  GET_movie 1 [] Sample.orphan_catalog
  = (mkResponse 500 (InternalServerError None), Sample.orphan_catalog, [Execute]).
Proof.
  apply (detail_without_country_fails Sample.orphan_catalog 1 Sample.orphan_row []).
  - vm_compute. reflexivity.
  - vm_compute. reflexivity.
Defined.

(** C8, at the failing input: a valid payload whose country_id is null, on
    an empty catalog. *)
Lemma create_without_country_not_created_witness :
  status_code (POST_movies Sample.model_columns Sample.accepting_attrs Sample.today
                           Sample.no_country [] Sample.empty_catalog).1.1 ≠ 201.
Proof.
  apply (create_without_country_not_created Sample.model_columns
           Sample.accepting_attrs Sample.today Sample.no_country
           Sample.no_country_film [] Sample.empty_catalog).
  - vm_compute. reflexivity.
  - reflexivity.
Defined.

(** C9, on the catalog of one movie. *)
Lemma delete_then_get_not_found_witness :
  ∃ s', DELETE_movie Sample.model_columns 1 [] Sample.catalog
        = (mkResponse 204 NoBody, s', [Execute; Delete; Commit])
      ∧ movies s' = delete 1 (movies Sample.catalog)
      ∧ ∀ others, GET_movie 1 others s'
                  = (mkResponse 404 (ErrorDetail "Movie with the given ID was not found."),
                     s', [Execute]).
Proof.
  apply (delete_then_get_not_found Sample.model_columns Sample.catalog 1
           Sample.inception_row).
  vm_compute. reflexivity.
Defined.

(** C10, on a payload that holds only a score. *)
Lemma update_requires_all_fields_witness :
  ∃ errs,
    ("name", Missing) ∈ errs
    ∧ PATCH_movie Sample.model_columns Sample.today 1 Sample.score_only []
                  Sample.catalog
      = (mkResponse 422 (RequestValidationError errs), Sample.catalog, []).
Proof.
  apply (update_requires_all_fields Sample.model_columns Sample.today 1
           Sample.score_only "name" [] Sample.catalog).
  - apply list_elem_of_here.
  - vm_compute. reflexivity.
Defined.

(** * Further properties *)

(** ** The input schema *)

(** What each field of a validated instance comes from. *)
Lemma model_validate_fields today body film :
  MovieCreateUpdateSchema.model_validate today body = inr film →
  required body "name" (λ v, after (parse_str v) MovieCreateUpdateSchema.name_max_length)
  = inr (MovieCreateUpdateSchema.name film)
  ∧ required body "date"
      (λ v, after (parse_date v) (MovieCreateUpdateSchema.date_within_one_year today))
    = inr (MovieCreateUpdateSchema.date film)
  ∧ required body "score"
      (λ v, after (parse_float v) MovieCreateUpdateSchema.score_between_0_and_100)
    = inr (MovieCreateUpdateSchema.score film)
  ∧ required body "overview" parse_str = inr (MovieCreateUpdateSchema.overview film)
  ∧ required body "status" parse_status = inr (MovieCreateUpdateSchema.status film)
  ∧ required body "budget"
      (λ v, after (parse_decimal 15 2 v) MovieCreateUpdateSchema.non_negative_budget)
    = inr (MovieCreateUpdateSchema.budget film)
  ∧ required body "revenue"
      (λ v, after (parse_float v) MovieCreateUpdateSchema.non_negative_revenue)
    = inr (MovieCreateUpdateSchema.revenue film)
  ∧ required body "country_id" (parse_optional parse_int)
    = inr (MovieCreateUpdateSchema.country_id film)
  ∧ with_default body "country" (parse_optional parse_str) None
    = inr (MovieCreateUpdateSchema.country film)
  ∧ with_default body "genre_ids" (parse_optional parse_list) (Some [])
    = inr (MovieCreateUpdateSchema.genre_ids film)
  ∧ with_default body "actor_ids" (parse_optional parse_list) (Some [])
    = inr (MovieCreateUpdateSchema.actor_ids film)
  ∧ with_default body "languages" (parse_optional parse_list) (Some [])
    = inr (MovieCreateUpdateSchema.languages film).
Proof.
  unfold MovieCreateUpdateSchema.model_validate. intros H.
  repeat match goal with
         | H : _ <*> _ = inr _ |- _ =>
             apply vap_inr_inv in H as (? & ? & H & ? & ->)
         end.
  injection H as <-. simpl. by repeat split.
Qed.

Lemma after_inr {A} (r : field_error + A) validator a :
  after r validator = inr a → ∃ a0, r = inr a0 ∧ validator a0 = inr a.
Proof. destruct r as [e|a0]; simpl; [done|]. eauto. Qed.

Lemma name_max_length_inr v a :
  MovieCreateUpdateSchema.name_max_length v = inr a →
  a = v ∧ Z.of_nat (String.length v) ≤ 255.
Proof.
  unfold MovieCreateUpdateSchema.name_max_length.
  destruct (Z.ltb_spec 255 (Z.of_nat (String.length v))); [done|].
  by intros [= <-].
Qed.

Lemma date_within_one_year_inr today v a :
  MovieCreateUpdateSchema.date_within_one_year today v = inr a →
  a = v ∧ v ≤ today + 365.
Proof.
  unfold MovieCreateUpdateSchema.date_within_one_year.
  destruct (Z.ltb_spec (today + 365) v); [done|]. by intros [= <-].
Qed.

Lemma score_between_0_and_100_inr v a :
  MovieCreateUpdateSchema.score_between_0_and_100 v = inr a →
  a = v ∧ Py.float_le (Py.float_of_int 0) v = true
  ∧ Py.float_le v (Py.float_of_int 100) = true.
Proof.
  unfold MovieCreateUpdateSchema.score_between_0_and_100.
  destruct (Py.float_le (Py.float_of_int 0) v), (Py.float_le v (Py.float_of_int 100));
    simpl; try done. by intros [= <-].
Qed.

Lemma non_negative_budget_inr v a :
  MovieCreateUpdateSchema.non_negative_budget v = inr a →
  a = v ∧ 0 ≤ Py.coefficient v.
Proof.
  unfold MovieCreateUpdateSchema.non_negative_budget, Py.decimal_lt_zero.
  destruct (Z.ltb_spec (Py.coefficient v) 0); [done|]. by intros [= <-].
Qed.

Lemma non_negative_revenue_inr v a :
  MovieCreateUpdateSchema.non_negative_revenue v = inr a →
  a = v ∧ Py.float_lt v (Py.float_of_int 0) = false.
Proof.
  unfold MovieCreateUpdateSchema.non_negative_revenue.
  destruct (Py.float_lt v (Py.float_of_int 0)); [done|]. by intros [= <-].
Qed.

Lemma parse_decimal_inr v d :
  parse_decimal 15 2 v = inr d → condecimal 15 2 d = inr d.
Proof.
  destruct v; simpl; try done; intros H;
    pose proof (condecimal_inr _ _ _ _ H) as ->; exact H.
Qed.

(** The ranges of a validated instance, field by field. *)
Lemma model_validate_ranges today body film :
  MovieCreateUpdateSchema.model_validate today body = inr film →
  Z.of_nat (String.length (MovieCreateUpdateSchema.name film)) ≤ 255
  ∧ MovieCreateUpdateSchema.date film ≤ today + 365
  ∧ Py.float_le (Py.float_of_int 0) (MovieCreateUpdateSchema.score film) = true
  ∧ Py.float_le (MovieCreateUpdateSchema.score film) (Py.float_of_int 100) = true
  ∧ 0 ≤ Py.coefficient (MovieCreateUpdateSchema.budget film)
  ∧ condecimal 15 2 (MovieCreateUpdateSchema.budget film)
    = inr (MovieCreateUpdateSchema.budget film)
  ∧ Py.float_lt (MovieCreateUpdateSchema.revenue film) (Py.float_of_int 0) = false.
Proof.
  intros (Hn & Hd & Hs & _ & _ & Hb & Hr & _)%model_validate_fields.
  apply required_inr in Hn as (? & _ & (? & _ & [-> ?]%name_max_length_inr)%after_inr).
  apply required_inr in Hd as (? & _ & (? & _ & [-> ?]%date_within_one_year_inr)%after_inr).
  apply required_inr in Hs
      as (? & _ & (? & _ & (-> & ? & ?)%score_between_0_and_100_inr)%after_inr).
  apply required_inr in Hb
      as (? & _ & (? & Hc%parse_decimal_inr & [-> ?]%non_negative_budget_inr)%after_inr).
  apply required_inr in Hr
      as (? & _ & (? & _ & [-> ?]%non_negative_revenue_inr)%after_inr).
  done.
Qed.

(** X1. A validated instance is within every range the schema sets. *)
Theorem validated_instance_in_range (today : Z) (body : gmap string value)
    (film : MovieCreateUpdateSchema.t) :
  MovieCreateUpdateSchema.model_validate today body = inr film →
  Z.of_nat (String.length (MovieCreateUpdateSchema.name film)) ≤ 255
  ∧ MovieCreateUpdateSchema.date film ≤ today + 365
  ∧ Py.float_le (Py.float_of_int 0) (MovieCreateUpdateSchema.score film) = true
  ∧ Py.float_le (MovieCreateUpdateSchema.score film) (Py.float_of_int 100) = true
  ∧ 0 ≤ Py.coefficient (MovieCreateUpdateSchema.budget film)
  ∧ condecimal 15 2 (MovieCreateUpdateSchema.budget film)
    = inr (MovieCreateUpdateSchema.budget film)
  ∧ Py.float_lt (MovieCreateUpdateSchema.revenue film) (Py.float_of_int 0) = false.
Proof. apply model_validate_ranges. Qed.

Lemma required_Some {A} body key (parse : value → field_error + A) v a :
  body !! key = Some v → parse v = inr a → required body key parse = inr a.
Proof. intros H Hp. unfold required. by rewrite H, Hp. Qed.

Lemma with_default_None {A} body key (parse : value → field_error + A) default :
  body !! key = None → with_default body key parse default = inr default.
Proof. intros H. unfold with_default. by rewrite H. Qed.

Lemma MovieStatusEnum_of_value_value e :
  MovieStatusEnum_of_value (MovieStatusEnum_value e) = Some e.
Proof. by destruct e. Qed.

(** X2. A body that gives the eight required fields within their ranges and
    none of the optional ones validates to the instance of those values,
    with the optional fields at their defaults; the bounds themselves (a
    name of 255 characters, a date 365 days ahead, a score of 0 or 100, a
    zero budget or revenue) are accepted. *)
Theorem in_range_body_accepted (today : Z) (body : gmap string value)
    (name : string) (date : Z) (raw_score raw_revenue raw_country : value)
    (score revenue : spec_float) (overview : string) (status : MovieStatusEnum)
    (budget : Py.Decimal) (country_id : option Z) :
  body !! "name" = Some (VStr name) → Z.of_nat (String.length name) ≤ 255 →
  body !! "date" = Some (VDate date) → date ≤ today + 365 →
  body !! "score" = Some raw_score → parse_float raw_score = inr score →
  Py.float_le (Py.float_of_int 0) score = true →
  Py.float_le score (Py.float_of_int 100) = true →
  body !! "overview" = Some (VStr overview) →
  body !! "status" = Some (VStr (MovieStatusEnum_value status)) →
  body !! "budget" = Some (VDecimal budget) →
  condecimal 15 2 budget = inr budget → 0 ≤ Py.coefficient budget →
  body !! "revenue" = Some raw_revenue → parse_float raw_revenue = inr revenue →
  Py.float_lt revenue (Py.float_of_int 0) = false →
  body !! "country_id" = Some raw_country →
  parse_optional parse_int raw_country = inr country_id →
  body !! "country" = None → body !! "genre_ids" = None →
  body !! "actor_ids" = None → body !! "languages" = None →
  MovieCreateUpdateSchema.model_validate today body
  = inr (MovieCreateUpdateSchema.mk name date score overview status budget revenue
           country_id None (Some []) (Some []) (Some [])
           (dom body ∩ list_to_set MovieCreateUpdateSchema.model_fields)).
Proof.
  intros Hn Hlen Hd Hdate Hs Hps Hs0 Hs100 Ho Hst Hb Hdigits Hb0 Hr Hpr Hr0 Hc Hpc
         Hco Hg Ha Hl.
  unfold MovieCreateUpdateSchema.model_validate.
  rewrite (required_Some _ "name" _ _ name Hn).
  2:{ simpl. unfold MovieCreateUpdateSchema.name_max_length.
      destruct (Z.ltb_spec 255 (Z.of_nat (String.length name))); [lia|done]. }
  rewrite (required_Some _ "date" _ _ date Hd).
  2:{ simpl. unfold MovieCreateUpdateSchema.date_within_one_year.
      destruct (Z.ltb_spec (today + 365) date); [lia|done]. }
  rewrite (required_Some _ "score" _ _ score Hs).
  2:{ rewrite Hps. simpl. unfold MovieCreateUpdateSchema.score_between_0_and_100.
      by rewrite Hs0, Hs100. }
  rewrite (required_Some _ "overview" _ _ overview Ho) by done.
  rewrite (required_Some _ "status" _ _ status Hst).
  2:{ simpl. by rewrite MovieStatusEnum_of_value_value. }
  rewrite (required_Some _ "budget" _ _ budget Hb).
  2:{ simpl. rewrite Hdigits. simpl.
      unfold MovieCreateUpdateSchema.non_negative_budget, Py.decimal_lt_zero.
      destruct (Z.ltb_spec (Py.coefficient budget) 0); [lia|done]. }
  rewrite (required_Some _ "revenue" _ _ revenue Hr).
  2:{ rewrite Hpr. simpl. unfold MovieCreateUpdateSchema.non_negative_revenue.
      by rewrite Hr0. }
  rewrite (required_Some _ "country_id" _ _ country_id Hc) by done.
  rewrite !with_default_None by done. reflexivity.
Qed.

(** ** Keys outside the schema *)

Lemma required_insert_ne {A} body key key' v (parse : value → field_error + A) :
  key' ≠ key → required (<[key' := v]> body) key parse = required body key parse.
Proof. intros H. unfold required. by rewrite lookup_insert_ne. Qed.

Lemma with_default_insert_ne {A} body key key' v (parse : value → field_error + A) d :
  key' ≠ key →
  with_default (<[key' := v]> body) key parse d = with_default body key parse d.
Proof. intros H. unfold with_default. by rewrite lookup_insert_ne. Qed.

(** X3. A key of the body that is no field of the schema has no effect on
    validation: the errors or the instance, with its set of supplied fields,
    are those of the body without it. *)
Theorem unknown_key_ignored (today : Z) (body : gmap string value) (key : string)
    (v : value) :
  key ∉ MovieCreateUpdateSchema.model_fields →
  MovieCreateUpdateSchema.model_validate today (<[key := v]> body)
  = MovieCreateUpdateSchema.model_validate today body.
Proof.
  intros Hkey. unfold MovieCreateUpdateSchema.model_validate.
  assert (Hne : ∀ k, k ∈ MovieCreateUpdateSchema.model_fields → key ≠ k)
    by (intros k Hk ->; done).
  rewrite !required_insert_ne, !with_default_insert_ne
    by (apply Hne; unfold MovieCreateUpdateSchema.model_fields;
        repeat first [apply list_elem_of_here | apply list_elem_of_further]).
  replace (dom (<[key := v]> body) ∩ list_to_set MovieCreateUpdateSchema.model_fields)
    with (dom body ∩ list_to_set MovieCreateUpdateSchema.model_fields
          : gset string); [done|].
  rewrite dom_insert_L.
  apply set_eq. intros k. rewrite !elem_of_intersection, elem_of_union,
    elem_of_singleton, elem_of_list_to_set.
  split; [intros [? ?]; auto|].
  intros [[->|?] ?]; [done|auto].
Qed.

(** X4. The status strings: a string is read as a member of the enumeration
    exactly when it is the value of that member. *)
Theorem status_value_round_trip (e : MovieStatusEnum) (s : string) :
  parse_status (VStr s) = inr e ↔ s = MovieStatusEnum_value e.
Proof.
  split; [|by intros ->; destruct e].
  simpl. unfold MovieStatusEnum_of_value.
  repeat case_decide; subst; by intros [= <-].
Qed.

(** ** The list operation: which movies a page holds *)

#[local] Instance id_desc_transitive : Transitive id_desc.
Proof. intros i j k. unfold id_desc. lia. Qed.

#[local] Instance id_desc_total : Total id_desc.
Proof. intros i j. unfold id_desc. lia. Qed.

Lemma omap_load_total s (l : list Z) :
  Forall (λ i, is_Some (movies s !! i)) l → id <$> omap (load s) l = l.
Proof.
  induction 1 as [|i l [row Hrow] _ IH]; simpl; [done|].
  rewrite (load_Some _ _ _ Hrow). simpl. f_equal. exact IH.
Qed.

(** The identifiers of the ordered selection are the keys of the table,
    sorted. *)
Lemma select_ordered_ids s :
  id <$> select_ordered s = merge_sort id_desc (map_to_list (movies s)).*1.
Proof.
  apply omap_load_total. apply Forall_forall. intros i Hi.
  rewrite merge_sort_Permutation in Hi.
  apply list_elem_of_fmap in Hi as ([k row] & -> & Hin).
  apply elem_of_map_to_list in Hin. by exists row.
Qed.

Lemma select_ordered_size s : length (select_ordered s) = size (movies s).
Proof.
  rewrite <- (length_fmap id), select_ordered_ids.
  rewrite merge_sort_Permutation, length_fmap. apply length_map_to_list.
Qed.

Lemma NoDup_StronglySorted_lt (l : list Z) :
  NoDup l → StronglySorted id_desc l → StronglySorted (λ i j, j < i) l.
Proof.
  induction 2 as [|i l Hl IH Hall]; [constructor|].
  apply NoDup_cons in H as [Hi Hdup]. constructor; [by apply IH|].
  apply Forall_forall. intros j Hj.
  pose proof (proj1 (Forall_forall _ _) Hall j Hj) as Hle. unfold id_desc in Hle.
  assert (j ≠ i) by (intros ->; done). lia.
Qed.

(** The ordered selection is strictly decreasing in the identifier. *)
Lemma select_ordered_decreasing s :
  StronglySorted (λ i j, j < i) (id <$> select_ordered s).
Proof.
  apply NoDup_StronglySorted_lt; [apply select_ordered_NoDup|].
  rewrite select_ordered_ids. apply StronglySorted_merge_sort; apply _.
Qed.

Lemma StronglySorted_take_drop {A} (R : relation A) (l : list A) n m :
  StronglySorted R l → StronglySorted R (take n (drop m l)).
Proof.
  intros H.
  rewrite <- (take_drop m l) in H. apply StronglySorted_app_1_r in H.
  rewrite <- (take_drop n (drop m l)) in H. by apply StronglySorted_app_1_l in H.
Qed.

Lemma select_page_ids s offset limit :
  id <$> select_page offset limit s
  = take (Z.to_nat limit) (drop (Z.to_nat offset) (id <$> select_ordered s)).
Proof. unfold select_page. by rewrite fmap_take, fmap_drop. Qed.

Lemma select_page_length s offset limit :
  0 ≤ offset → 0 ≤ limit →
  Z.of_nat (length (select_page offset limit s))
  = Z.max 0 (Z.min limit (select_count s - offset)).
Proof.
  intros Ho Hl. unfold select_page, select_count.
  rewrite length_take, length_drop, select_ordered_size. lia.
Qed.

Lemma from_orm_item film item :
  MovieListItemSchema_from_orm film = Some item →
  MovieListItemSchema.id item = id film
  ∧ attrs film !! "name" = Some (VStr (MovieListItemSchema.name item))
  ∧ attrs film !! "date" = Some (VDate (MovieListItemSchema.date item))
  ∧ attrs film !! "overview" = Some (VStr (MovieListItemSchema.overview item))
  ∧ (∃ v, attrs film !! "score" = Some v
          ∧ parse_float v = inr (MovieListItemSchema.score item)).
Proof.
  unfold MovieListItemSchema_from_orm, getattr. intros H.
  destruct (attrs film !! "name") as [[]|]; simplify_eq/=.
  destruct (attrs film !! "date") as [[]|]; simplify_eq/=.
  destruct (attrs film !! "score") as [v|] eqn:Hv; simplify_eq/=.
  destruct (parse_float v) eqn:Hp; simplify_eq/=.
  destruct (attrs film !! "overview") as [[]|]; simplify_eq/=.
  repeat split; eauto.
Qed.

(** What a successful list request went through. *)
Lemma GET_movies_200 s page per_page others r :
  1 ≤ page → 1 ≤ per_page ≤ 20 →
  (GET_movies (Some page) (Some per_page) others s).1.1
  = mkResponse 200 (Listing r) →
  select_page ((page - 1) * per_page) per_page s ≠ []
  ∧ mapM MovieListItemSchema_from_orm
         (select_page ((page - 1) * per_page) per_page s)
    = Some (MovieListResponseSchema.movies r).
Proof.
  intros Hp Hpp. unfold GET_movies. rewrite PaginationParams_valid by done.
  unfold serve, get_movies, bind, execute. simpl.
  destruct (select_page _ _ s) as [|film films] eqn:Hpage; [done|].
  cbn -[mapM]. destruct (_ ≫= Py.math_ceil); cbn -[mapM]; [|done].
  unfold MovieListResponseSchema_init.
  destruct (mapM _ _) as [items|]; cbn -[mapM]; [|done].
  intros [= <-]. by split.
Qed.

Lemma select_page_in_range s page per_page :
  1 ≤ page → 1 ≤ per_page →
  (page - 1) * per_page < select_count s →
  select_page ((page - 1) * per_page) per_page s ≠ [].
Proof.
  intros Hp Hpp Hlt Hnil.
  pose proof (select_page_length s ((page - 1) * per_page) per_page
                ltac:(nia) ltac:(lia)) as Hlen.
  rewrite Hnil in Hlen. simpl in Hlen. lia.
Qed.

(** A page within the table is answered 200, or 500 when a row does not
    fit the list item; never 404. *)
Lemma GET_movies_in_range s page per_page others :
  1 ≤ page → 1 ≤ per_page ≤ 20 →
  (page - 1) * per_page < select_count s →
  status_code (GET_movies (Some page) (Some per_page) others s).1.1 ≠ 404.
Proof.
  intros Hp Hpp Hlt. pose proof (select_page_in_range s page per_page Hp
                                   ltac:(lia) Hlt) as Hne.
  unfold GET_movies. rewrite PaginationParams_valid by done.
  unfold serve, get_movies, bind, execute. simpl.
  destruct (select_page _ _ s) as [|film films]; [done|].
  cbn -[mapM]. destruct (_ ≫= Py.math_ceil); cbn -[mapM]; [|done].
  unfold MovieListResponseSchema_init.
  destruct (mapM _ _) as [items|]; cbn -[mapM]; done.
Qed.

(** X5. For valid page and per_page, the list request is answered 404
    exactly when the page starts at or beyond the end of the table. *)
Theorem not_found_only_beyond_the_table (s : db) (page per_page : Z)
    (others : list change) :
  1 ≤ page → 1 ≤ per_page ≤ 20 →
  status_code (GET_movies (Some page) (Some per_page) others s).1.1 = 404
  ↔ Z.of_nat (size (movies s)) ≤ (page - 1) * per_page.
Proof.
  intros Hp Hpp. split.
  - intros H404. destruct (Z.le_gt_cases (Z.of_nat (size (movies s)))
                             ((page - 1) * per_page)) as [|Hlt]; [done|].
    by destruct (GET_movies_in_range s page per_page others Hp Hpp).
  - intros Hle. rewrite GET_movies_empty_page; [done..|].
    by apply select_page_beyond.
Qed.

Lemma page_films_stored s offset limit film :
  film ∈ select_page offset limit s →
  ∃ row, movies s !! id film = Some row ∧ attrs film = columns row.
Proof.
  unfold select_page. intros Hin.
  apply select_ordered_attrs.
  by apply subseteq_take, subseteq_drop in Hin.
Qed.

Lemma items_ids films items :
  Forall2 (λ film item, MovieListItemSchema_from_orm film = Some item) films items →
  MovieListItemSchema.id <$> items = id <$> films.
Proof.
  induction 1 as [|film item films items Hitem _ IH]; [done|].
  rewrite !fmap_cons. apply from_orm_item in Hitem as [-> _]. by rewrite IH.
Qed.

Lemma items_films films items item :
  Forall2 (λ film item, MovieListItemSchema_from_orm film = Some item) films items →
  item ∈ items →
  ∃ film, film ∈ films ∧ MovieListItemSchema_from_orm film = Some item.
Proof.
  intros H [k Hk]%list_elem_of_lookup.
  destruct (Forall2_lookup_r _ _ _ _ _ H Hk) as (film & Hfilm & Hfrom).
  exists film. split; [|done]. by eapply list_elem_of_lookup_2.
Qed.

(** X6. A successful list response holds the movies of the requested slice:
    as many items as the table has left from the page's offset, at most
    per_page; strictly decreasing identifiers; each item the identifier,
    name, date and overview of a stored movie. *)
Theorem page_holds_the_slice (s : db) (page per_page : Z) (others : list change)
    (r : MovieListResponseSchema.t) :
  1 ≤ page → 1 ≤ per_page ≤ 20 →
  (GET_movies (Some page) (Some per_page) others s).1.1
  = mkResponse 200 (Listing r) →
  Z.of_nat (length (MovieListResponseSchema.movies r))
  = Z.min per_page (Z.of_nat (size (movies s)) - (page - 1) * per_page)
  ∧ StronglySorted (λ i j, j < i)
      (MovieListItemSchema.id <$> MovieListResponseSchema.movies r)
  ∧ Forall (λ item, ∃ row,
              movies s !! MovieListItemSchema.id item = Some row
              ∧ columns row !! "name" = Some (VStr (MovieListItemSchema.name item))
              ∧ columns row !! "date" = Some (VDate (MovieListItemSchema.date item))
              ∧ columns row !! "overview"
                = Some (VStr (MovieListItemSchema.overview item)))
      (MovieListResponseSchema.movies r).
Proof.
  intros Hp Hpp [Hne Hitems%mapM_Some_1]%GET_movies_200; [|done..].
  set (films := select_page ((page - 1) * per_page) per_page s) in *.
  split; [|split].
  - rewrite <- (Forall2_length _ _ _ Hitems).
    pose proof (select_page_length s ((page - 1) * per_page) per_page
                  ltac:(nia) ltac:(lia)) as Hlen. fold films in Hlen.
    unfold select_count in Hlen.
    destruct films; [done|]. simpl in *. lia.
  - rewrite (items_ids _ _ Hitems). unfold films. rewrite select_page_ids.
    apply StronglySorted_take_drop, select_ordered_decreasing.
  - apply Forall_forall. intros item Hitem.
    destruct (items_films _ _ _ Hitems Hitem) as (film & Hfilm & Hfrom).
    apply from_orm_item in Hfrom as (-> & Hn & Hd & Ho & _).
    destruct (page_films_stored _ _ _ _ Hfilm) as (row & Hrow & Hattrs).
    rewrite Hattrs in Hn, Hd, Ho. by exists row.
Qed.

Lemma take_drop_split_elem {A} (R : relation A) (l : list A) n m k x y :
  StronglySorted R l → (m + n ≤ k)%nat →
  x ∈ take n (drop m l) → y ∈ take n (drop k l) → R x y.
Proof.
  intros Hsorted Hle Hx Hy.
  rewrite <- (take_drop (m + n) l) in Hsorted.
  eapply StronglySorted_app_1_elem_of; [exact Hsorted| |].
  - rewrite take_drop_commute in Hx. by apply subseteq_drop in Hx.
  - apply subseteq_take in Hy.
    replace k with ((m + n) + (k - (m + n)))%nat in Hy by lia.
    rewrite <- drop_drop in Hy. by apply subseteq_drop in Hy.
Qed.

(** X7. Pages do not overlap and follow the order: on one store and with
    one per_page, every movie of a later page has a smaller identifier than
    every movie of an earlier page. *)
Theorem later_pages_hold_smaller_ids (s : db) (p q per_page : Z)
    (others others' : list change) (rp rq : MovieListResponseSchema.t) (i j : Z) :
  1 ≤ p → p < q → 1 ≤ per_page ≤ 20 →
  (GET_movies (Some p) (Some per_page) others s).1.1 = mkResponse 200 (Listing rp) →
  (GET_movies (Some q) (Some per_page) others' s).1.1 = mkResponse 200 (Listing rq) →
  i ∈ MovieListItemSchema.id <$> MovieListResponseSchema.movies rp →
  j ∈ MovieListItemSchema.id <$> MovieListResponseSchema.movies rq →
  j < i.
Proof.
  intros Hp Hpq Hpp [_ Hrp%mapM_Some_1]%GET_movies_200
         [_ Hrq%mapM_Some_1]%GET_movies_200; [|done || lia ..].
  rewrite (items_ids _ _ Hrp), (items_ids _ _ Hrq), !select_page_ids.
  intros Hi Hj.
  eapply (take_drop_split_elem (λ i j, j < i)); [apply select_ordered_decreasing| |done..].
  nia.
Qed.

Lemma GET_movies_200_links s page per_page others r :
  1 ≤ page → 1 ≤ per_page ≤ 20 →
  Z.of_nat (size (movies s)) < 2 ^ 53 →
  (GET_movies (Some page) (Some per_page) others s).1.1
  = mkResponse 200 (Listing r) →
  MovieListResponseSchema.next_page r
  = (if Py.ceil_div (select_count s) per_page <=? page then None else Some (page + 1))
  ∧ MovieListResponseSchema.prev_page r
    = (if 1 <? page then Some (page - 1) else None).
Proof.
  intros Hp Hpp Hsize. unfold GET_movies. rewrite PaginationParams_valid by done.
  unfold serve, get_movies, bind, execute. simpl.
  destruct (select_page _ _ s) as [|film films]; [done|].
  cbn -[mapM]. unfold select_count. rewrite ceil_truediv_exact by lia.
  unfold MovieListResponseSchema_init.
  destruct (mapM _ _) as [items|]; cbn -[mapM]; [|done].
  by intros [= <-].
Qed.

(** X8. The links of a successful list response never dangle (table of fewer
    than 2^53 movies): a request for its next_page or for its prev_page,
    with the same per_page on the same store, is not answered 404. *)
Theorem page_links_lead_to_pages (s : db) (page per_page : Z)
    (others others' : list change) (r : MovieListResponseSchema.t) (q : Z) :
  1 ≤ page → 1 ≤ per_page ≤ 20 →
  Z.of_nat (size (movies s)) < 2 ^ 53 →
  (GET_movies (Some page) (Some per_page) others s).1.1
  = mkResponse 200 (Listing r) →
  MovieListResponseSchema.next_page r = Some q
  ∨ MovieListResponseSchema.prev_page r = Some q →
  status_code (GET_movies (Some q) (Some per_page) others' s).1.1 ≠ 404.
Proof.
  intros Hp Hpp Hsize Hok Hlink.
  destruct (GET_movies_200_links _ _ _ _ _ Hp Hpp Hsize Hok) as [Hnext Hprev].
  apply GET_movies_200 in Hok as [Hne _]; [|done..].
  assert (Hin : (page - 1) * per_page < select_count s).
  { destruct (Z.lt_ge_cases ((page - 1) * per_page) (select_count s)); [done|].
    destruct Hne. apply select_page_beyond. lia. }
  destruct Hlink as [Hq|Hq].
  - rewrite Hnext in Hq.
    destruct (Z.leb_spec (Py.ceil_div (select_count s) per_page) page); [done|].
    injection Hq as <-.
    apply GET_movies_in_range; [lia|done|].
    destruct (ceil_div_bounds (select_count s) per_page ltac:(lia)). nia.
  - rewrite Hprev in Hq. destruct (Z.ltb_spec 1 page); [|done].
    injection Hq as <-. apply GET_movies_in_range; [lia|done|nia].
Qed.

(** ** Reading leaves the store alone *)

(** X9. The list and detail requests never write: whatever their input and
    their answer, the store is left as it was and the only session calls
    made are [execute]. *)
Theorem reads_do_not_write (s : db) (page per_page : option Z) (movie_id : Z)
    (others : list change) :
  (GET_movies page per_page others s).1.2 = s
  ∧ Forall (λ op, op = Execute) (GET_movies page per_page others s).2
  ∧ (GET_movie movie_id others s).1.2 = s
  ∧ (GET_movie movie_id others s).2 = [Execute].
Proof.
  split; [|split; [|split]].
  - unfold GET_movies. destruct (PaginationParams.model_validate _ _); [done|].
    unfold serve, get_movies, bind, execute. simpl.
    destruct (select_page _ _ s); [done|].
    cbn -[mapM]. destruct (_ ≫= Py.math_ceil); cbn -[mapM]; [|done].
    unfold MovieListResponseSchema_init. by destruct (mapM _ _).
  - unfold GET_movies. destruct (PaginationParams.model_validate _ _); [constructor|].
    unfold serve, get_movies, bind, execute. simpl.
    destruct (select_page _ _ s); [by repeat constructor|].
    cbn -[mapM]. destruct (_ ≫= Py.math_ceil); cbn -[mapM]; [|by repeat constructor].
    unfold MovieListResponseSchema_init.
    destruct (mapM _ _); by repeat constructor.
  - unfold GET_movie, serve, get_movie, get_film_or_404, bind, execute. simpl.
    unfold select_by_id. by destruct (load s movie_id).
  - unfold GET_movie, serve, get_movie, get_film_or_404, bind, execute. simpl.
    unfold select_by_id. by destruct (load s movie_id).
Qed.

(** ** Query parameters *)

(** X10. A page below 1 or a per_page outside 1..20 is answered 422 with an
    error on that parameter; no session call is made and the store is
    unchanged. *)
Theorem invalid_pagination_rejected (s : db) (page per_page : option Z)
    (others : list change) (key : string) :
  (key = "page" ∧ ∃ p, page = Some p ∧ p < 1)
  ∨ (key = "per_page" ∧ ∃ n, per_page = Some n ∧ (n < 1 ∨ 20 < n)) →
  ∃ errs, (key, ConstraintViolated) ∈ errs
          ∧ GET_movies page per_page others s
            = (mkResponse 422 (RequestValidationError errs), s, []).
Proof.
  intros Hbad.
  assert (Hrep : reports (PaginationParams.model_validate page per_page) key
                   ConstraintViolated).
  { unfold PaginationParams.model_validate.
    destruct Hbad as [[-> (p & -> & Hp)]|[-> (n & -> & Hn)]].
    - apply vap_reports_l, vap_reports_r. unfold PaginationParams.conint. simpl.
      destruct (Z.ltb_spec p 1); [|lia]. simpl.
      eexists. split; [done|]. apply list_elem_of_here.
    - apply vap_reports_r. unfold PaginationParams.conint. simpl.
      destruct (Z.ltb_spec n 1), (Z.ltb_spec 20 n); try lia; simpl;
        (eexists; split; [done|]; apply list_elem_of_here). }
  destruct Hrep as (errs & Hv & Hin). exists errs. split; [done|].
  unfold GET_movies. by rewrite Hv.
Qed.

(** ** Runs of the writing handlers *)

Lemma next_id_above s i : is_Some (movies s !! i) → i < next_id s.
Proof.
  unfold next_id. revert i.
  apply (map_fold_weak_ind
           (λ r (m : gmap Z MovieRow), ∀ i, is_Some (m !! i) → i < 1 + r)).
  - intros i [? H]. by rewrite lookup_empty in H.
  - intros j x m r Hj IH i Hi. destruct (decide (i = j)) as [->|Hne]; [lia|].
    rewrite lookup_insert_ne in Hi by done. specialize (IH i Hi). lia.
Qed.

(** The generated identifier is not in use. *)
Lemma next_id_fresh s : movies s !! next_id s = None.
Proof.
  destruct (movies s !! next_id s) as [row|] eqn:H; [|done].
  pose proof (next_id_above s (next_id s) ltac:(by exists row)). lia.
Qed.

Lemma foldl_assign_attrs model_columns data db_film :
  attrs (foldl (assign model_columns) db_film data)
  = foldl (λ cols kv, if decide (kv.1 ∈ model_columns)
                      then <[kv.1 := kv.2]> cols else cols)
          (attrs db_film) data.
Proof.
  revert db_film. induction data as [|kv data IH]; intros db_film; simpl; [done|].
  rewrite IH. unfold assign. by case_decide.
Qed.

(** The update request, run to its end: validation passed, the movie is
    stored, no other request interferes. *)
Lemma PATCH_movie_run model_columns today film_id payload film s row :
  MovieCreateUpdateSchema.model_validate today payload = inr film →
  movies s !! film_id = Some row →
  let cols := patched model_columns film (columns row) in
  let row' := mkRow cols (row_genres row) (row_actors row) (row_languages row) in
  let s' := mkDb (<[film_id := row']> (movies s)) (countries s) in
  PATCH_movie model_columns today film_id payload [] s
  = if violates_unique film_id cols s
    then (mkResponse 500 (InternalServerError (Some IntegrityError)), s,
          [Execute; Commit])
    else (respond 200 (λ film, Detail <$> MovieDetailSchema_from_orm film)
            (inr (mkMovie film_id cols (country_of s' row') (row_genres row)
                          (row_actors row) (row_languages row))),
          s', [Execute; Commit; Refresh]).
Proof.
  intros Hvalid Hrow cols row' s'. unfold PATCH_movie. rewrite Hvalid.
  unfold serve, edit_film, get_film_or_404, bind, execute. simpl.
  unfold select_by_id. rewrite (load_Some _ _ _ Hrow). simpl.
  unfold commit. simpl.
  set (db_film := mkMovie film_id (columns row) (country_of s row) (row_genres row)
                          (row_actors row) (row_languages row)).
  destruct (foldl_assign_relations model_columns
              (MovieCreateUpdateSchema.dict_exclude_unset film) db_film) as (Hid & _).
  rewrite Hid, foldl_assign_attrs. simpl. rewrite Hrow.
  fold (patched model_columns film (columns row)). fold cols.
  destruct (violates_unique film_id cols s); [done|]. simpl.
  unfold refresh, load. simpl. rewrite lookup_insert_eq. reflexivity.
Qed.

(** *** The row a create request inserts *)

Lemma sync_country_lookup (instance : gmap string value) key :
  key ≠ "country_id" → sync_country instance !! key = instance !! key.
Proof.
  intros Hkey. unfold sync_country.
  destruct (instance !! "country") as [[]|]; try done.
  by apply lookup_insert_ne.
Qed.

Lemma inserted_lookup model_columns film key :
  key ≠ "country_id" →
  inserted model_columns film !! key
  = if decide (key ∈ model_columns)
    then (list_to_map (MovieCreateUpdateSchema.dict film) : gmap string value) !! key
    else None.
Proof.
  intros Hkey. unfold inserted. rewrite map_lookup_filter, sync_country_lookup by done.
  destruct (list_to_map (MovieCreateUpdateSchema.dict film) !! key) as [v|];
    simpl; [|by case_decide].
  case_decide; [by rewrite option_guard_True|by rewrite option_guard_False].
Qed.

(** The row of an instance that named no country has a null country_id,
    whatever country_id the instance held. *)
Lemma inserted_country_id model_columns film :
  MovieCreateUpdateSchema.country film = None →
  inserted model_columns film !! "country_id"
  = if decide ("country_id" ∈ model_columns) then Some VNone else None.
Proof.
  intros Hcountry. unfold inserted.
  rewrite map_lookup_filter, sync_country_dict by done. simpl.
  case_decide; [by rewrite option_guard_True|by rewrite option_guard_False].
Qed.

Lemma dict_lookup film key v :
  (key, v) ∈ MovieCreateUpdateSchema.dict film →
  (list_to_map (MovieCreateUpdateSchema.dict film) : gmap string value) !! key = Some v.
Proof.
  intros Hin. apply elem_of_list_to_map_1; [|done].
  rewrite dict_keys. apply model_fields_NoDup.
Qed.

Lemma name_date_Some cols n d :
  name_date cols = Some (n, d) ↔
  cols !! "name" = Some n ∧ cols !! "date" = Some d ∧ n ≠ VNone ∧ d ≠ VNone.
Proof.
  unfold name_date.
  destruct (cols !! "name") as [n'|]; simpl; [|split; [done|by intros [? _]]].
  destruct (cols !! "date") as [d'|]; simpl; [|split; [done|by intros (_ & ? & _)]].
  case_decide as Hnone.
  - split; [done|]. intros ([= ->] & [= ->] & ? & ?). by destruct Hnone.
  - split.
    + intros [= -> ->]. repeat split; try done; intros ->; apply Hnone; auto.
    + by intros ([= ->] & [= ->] & _).
Qed.

(** A query that found no movie of a name and date means that none is
    stored. *)
Lemma select_by_name_date_nil s name date i row :
  select_by_name_date name date s = [] →
  movies s !! i = Some row →
  columns row !! "name" = Some (VStr name) →
  columns row !! "date" = Some (VDate date) → False.
Proof.
  unfold select_by_name_date. intros Hnil Hrow Hn Hd.
  eapply (filter_nil_not_elem_of _ _ _ Hnil); [|apply elem_of_select_ordered].
  - simpl. instantiate (1 := mkMovie i (columns row) (country_of s row)
                                      (row_genres row) (row_actors row)
                                      (row_languages row)). by split.
  - exists row. simpl. split; [done|]. by apply load_Some.
Qed.

Lemma violates_unique_false self cols s :
  (∀ i row n d, i ≠ self → movies s !! i = Some row →
                name_date cols = Some (n, d) →
                name_date (columns row) = Some (n, d) → False) →
  violates_unique self cols s = false.
Proof.
  intros H. unfold violates_unique. apply bool_decide_eq_false.
  intros (i & row & Hrow & Hne & [[n d] Hnd] & Heq).
  rewrite Hnd in Heq. by eapply H.
Qed.

Lemma violates_unique_true self cols s i row n d :
  i ≠ self → movies s !! i = Some row →
  name_date cols = Some (n, d) → name_date (columns row) = Some (n, d) →
  violates_unique self cols s = true.
Proof.
  intros Hne Hrow Hnd Hrnd. unfold violates_unique. apply bool_decide_eq_true.
  exists i, row. split; [done|]. split; [done|]. split; [by rewrite Hnd|].
  by rewrite Hnd.
Qed.

Lemma violates_unique_inv self cols s :
  violates_unique self cols s = false →
  ∀ i row n d, i ≠ self → movies s !! i = Some row →
               name_date cols = Some (n, d) →
               name_date (columns row) = Some (n, d) → False.
Proof.
  intros Hfalse i row n d Hne Hrow Hnd Hrnd.
  by rewrite (violates_unique_true _ _ _ _ _ _ _ Hne Hrow Hnd Hrnd) in Hfalse.
Qed.

Lemma inserted_name_date model_columns film n d :
  name_date (inserted model_columns film) = Some (n, d) →
  n = VStr (MovieCreateUpdateSchema.name film)
  ∧ d = VDate (MovieCreateUpdateSchema.date film).
Proof.
  intros (Hn & Hd & _)%name_date_Some. rewrite inserted_lookup in Hn, Hd by done.
  case_decide; [|done]. case_decide; [|done].
  change (Some (VStr (MovieCreateUpdateSchema.name film)) = Some n) in Hn.
  change (Some (VDate (MovieCreateUpdateSchema.date film)) = Some d) in Hd.
  by simplify_eq.
Qed.

(** After the duplicate check of [add_film] found nothing, the insert does
    not violate the uniqueness of (name, date). *)
Lemma checked_insert_not_rejected model_columns film s self :
  select_by_name_date (MovieCreateUpdateSchema.name film)
                      (MovieCreateUpdateSchema.date film) s = [] →
  violates_unique self (inserted model_columns film) s = false.
Proof.
  intros Hcheck. apply violates_unique_false.
  intros i row n d _ Hrow [-> ->]%inserted_name_date (Hn & Hd & _)%name_date_Some.
  by eapply select_by_name_date_nil.
Qed.

(** The create request, run to its end: validation passed, no other request
    interferes. The duplicate check of the handler answers for the
    uniqueness of (name, date), so the commit is not refused; the instance
    read back has no country and fails the response model. *)
Lemma POST_movies_run model_columns model_attrs today payload film s :
  MovieCreateUpdateSchema.model_validate today payload = inr film →
  POST_movies model_columns model_attrs today payload [] s
  = match select_by_name_date (MovieCreateUpdateSchema.name film)
                              (MovieCreateUpdateSchema.date film) s with
    | [] =>
        match MovieModel_new model_attrs (MovieCreateUpdateSchema.dict film) ∅ with
        | inl e => (mkResponse 500 (InternalServerError (Some e)), s, [Execute])
        | inr _ =>
            (mkResponse 500 (InternalServerError None),
             mkDb (<[next_id s := mkRow (inserted model_columns film) [] [] []]>
                     (movies s)) (countries s),
             [Execute; Add; Commit; Refresh])
        end
    | [_] =>
        (mkResponse 409
           (ErrorDetail "Movie with the same name and date already exists."),
         s, [Execute])
    | _ => (mkResponse 500 (InternalServerError (Some MultipleResultsFound)), s,
            [Execute])
    end.
Proof.
  intros Hvalid. unfold POST_movies. rewrite Hvalid.
  unfold serve, add_film, bind, execute.
  cbn -[MovieModel_init MovieCreateUpdateSchema.dict].
  destruct (select_by_name_date _ _ s) as [|x [|y l]] eqn:Hcheck;
    cbn -[MovieModel_init MovieCreateUpdateSchema.dict]; [|done..].
  unfold MovieModel_init.
  destruct (MovieModel_new _ _ ∅) as [e|instance] eqn:Hnew.
  { by destruct (MovieModel_new_inl _ _ _ _ Hnew) as [->|[key ->]]. }
  apply MovieModel_new_dict in Hnew as (-> & Hcountry & _).
  unfold ret, add, commit.
  cbn -[MovieCreateUpdateSchema.dict list_to_map sync_country next_id].
  fold (inserted model_columns film).
  rewrite checked_insert_not_rejected by done.
  unfold refresh, load.
  cbn -[MovieCreateUpdateSchema.dict list_to_map sync_country next_id inserted].
  rewrite lookup_insert_eq.
  cbn -[MovieCreateUpdateSchema.dict list_to_map sync_country next_id inserted].
  rewrite from_orm_no_country; [done|].
  cbn [country]. apply country_of_null. cbn [columns].
  rewrite inserted_country_id by done. case_decide; [by right|by left].
Qed.

(** The store a create request leaves: the one it met, or that one with the
    checked row added, of an instance that named no country. *)
Lemma POST_movies_store model_columns model_attrs today payload s :
  (POST_movies model_columns model_attrs today payload [] s).1.2 = s
  ∨ ∃ film,
      MovieCreateUpdateSchema.model_validate today payload = inr film
      ∧ select_by_name_date (MovieCreateUpdateSchema.name film)
                            (MovieCreateUpdateSchema.date film) s = []
      ∧ MovieCreateUpdateSchema.country film = None
      ∧ (POST_movies model_columns model_attrs today payload [] s).1.2
        = mkDb (<[next_id s := mkRow (inserted model_columns film) [] [] []]>
                  (movies s)) (countries s).
Proof.
  destruct (MovieCreateUpdateSchema.model_validate today payload) as [errs|film]
    eqn:Hvalid.
  { left. unfold POST_movies. by rewrite Hvalid. }
  rewrite (POST_movies_run _ _ _ _ film) by done.
  destruct (select_by_name_date _ _ s) as [|x [|y l]] eqn:Hsel;
    [|left; reflexivity..].
  destruct (MovieModel_new _ _ ∅) as [e|instance] eqn:Hnew; [left; reflexivity|].
  apply MovieModel_new_dict in Hnew as (_ & Hcountry & _).
  right. exists film. split; [reflexivity|]. split; [exact Hsel|].
  split; [exact Hcountry|]. reflexivity.
Qed.

(** ** Unknown identifiers *)

(** X11. For an identifier that is not stored, the detail, update (with a
    payload that validates) and delete requests all answer 404 "Movie with
    the given ID was not found." after a single query; the store is
    unchanged. *)
Theorem unknown_identifier_not_found (model_columns : gset string) (today film_id : Z)
    (payload : gmap string value) (film : MovieCreateUpdateSchema.t)
    (others : list change) (s : db) :
  movies s !! film_id = None →
  MovieCreateUpdateSchema.model_validate today payload = inr film →
  let not_found :=
    (mkResponse 404 (ErrorDetail "Movie with the given ID was not found."), s,
     [Execute]) in
  GET_movie film_id others s = not_found
  ∧ PATCH_movie model_columns today film_id payload others s = not_found
  ∧ DELETE_movie model_columns film_id others s = not_found.
Proof.
  intros Hnone Hvalid. repeat split.
  - by apply GET_movie_missing.
  - unfold PATCH_movie. rewrite Hvalid.
    unfold serve, edit_film, get_film_or_404, bind, execute. simpl.
    unfold select_by_id. by rewrite (load_None _ _ Hnone).
  - unfold DELETE_movie, serve, remove_film, get_film_or_404, bind, execute. simpl.
    unfold select_by_id. by rewrite (load_None _ _ Hnone).
Qed.

(** ** The detail view of a stored movie *)

(** X12. A stored movie whose columns hold values of the declared types and
    whose country exists is served with status 200 and the detail view of
    exactly those values, with its country, genres, actors and languages. *)
Theorem stored_movie_is_served (s : db) (film_id : Z) (row : MovieRow)
    (others : list change) (name overview : string) (date : Z)
    (score revenue : spec_float) (status : MovieStatusEnum) (budget : Py.Decimal)
    (country_id : Z) (country_name : option string) :
  movies s !! film_id = Some row →
  columns row !! "name" = Some (VStr name) →
  columns row !! "date" = Some (VDate date) →
  columns row !! "score" = Some (VFloat score) →
  columns row !! "overview" = Some (VStr overview) →
  columns row !! "status" = Some (VStatus status) →
  columns row !! "budget" = Some (VDecimal budget) →
  condecimal 15 2 budget = inr budget →
  columns row !! "revenue" = Some (VFloat revenue) →
  columns row !! "country_id" = Some (VInt country_id) →
  countries s !! country_id = Some country_name →
  GET_movie film_id others s
  = (mkResponse 200
       (Detail (MovieDetailSchema.mk film_id name date score overview status budget
                  revenue (CountrySchema.mk country_id country_name)
                  ((λ r, GenreSchema.mk (ref_pk r) (ref_name r)) <$> row_genres row)
                  ((λ r, ActorSchema.mk (ref_pk r) (ref_name r)) <$> row_actors row)
                  ((λ r, LanguageSchema.mk (ref_pk r) (ref_name r))
                     <$> row_languages row))),
     s, [Execute]).
Proof.
  intros Hrow Hn Hd Hs Ho Hst Hb Hdigits Hr Hc Hcountry.
  unfold GET_movie, serve, get_movie, get_film_or_404, bind, execute. simpl.
  unfold select_by_id. rewrite (load_Some _ _ _ Hrow). simpl.
  unfold MovieDetailSchema_from_orm, getattr, country_of. simpl.
  rewrite Hn, Hd, Hs, Ho, Hst, Hb, Hr, Hc, Hcountry. simpl.
  rewrite Hdigits. reflexivity.
Qed.

(** ** The create operation, further *)

(** X13. A create request that validates and is no duplicate, on a model
    class that has the attributes the handlers address (the seven attributes
    of a movie, country_id and the relationship country) and none called
    genre_ids, is answered 500 and writes nothing, whatever else the payload
    holds: with the AttributeError of the relationship when the payload
    names a country, the string reaching it before genre_ids is looked at,
    and with the TypeError of genre_ids otherwise. The session was only
    queried. *)
Theorem create_refused_by_constructor (model_columns model_attrs : gset string)
    (today : Z) (payload : gmap string value) (film : MovieCreateUpdateSchema.t)
    (s : db) :
  MovieCreateUpdateSchema.model_validate today payload = inr film →
  select_by_name_date (MovieCreateUpdateSchema.name film)
                      (MovieCreateUpdateSchema.date film) s = [] →
  Forall (λ k, k ∈ model_attrs)
    ["name"; "date"; "score"; "overview"; "status"; "budget"; "revenue";
     "country_id"; "country"] →
  "genre_ids" ∉ model_attrs →
  POST_movies model_columns model_attrs today payload [] s
  = (mkResponse 500
       (InternalServerError
          (Some (match MovieCreateUpdateSchema.country film with
                 | Some _ => AttributeError
                 | None => TypeError "genre_ids"
                 end))),
     s, [Execute]).
Proof.
  intros Hvalid Hcheck Hattrs Hkey.
  rewrite (POST_movies_run _ _ _ _ film) by done. rewrite Hcheck.
  repeat (apply Forall_cons in Hattrs as [? Hattrs]).
  unfold MovieCreateUpdateSchema.dict.
  destruct (MovieCreateUpdateSchema.country film) as [c|];
    cbn [MovieModel_new MovieCreateUpdateSchema.of_option];
    repeat (rewrite decide_True by assumption; relationship_step);
    [reflexivity|].
  by rewrite decide_False.
Qed.


(** X14. A create request that validates and is no duplicate, on a model
    class that takes every field of the input schema, with no country name
    and no languages in the payload, stores the movie and yet fails: the
    store gains exactly one row under a new identifier, holding the supplied
    fields that are columns except that its country_id is null whatever
    country_id was supplied (the constructor was handed country=None, and
    the relationship decides the foreign key); the instance read back has no
    country, the response model refuses it and the answer is a bare 500. *)
Theorem create_persists_yet_fails (model_columns model_attrs : gset string)
    (today : Z) (payload : gmap string value) (film : MovieCreateUpdateSchema.t)
    (s : db) :
  MovieCreateUpdateSchema.model_validate today payload = inr film →
  select_by_name_date (MovieCreateUpdateSchema.name film)
                      (MovieCreateUpdateSchema.date film) s = [] →
  Forall (λ key, key ∈ model_attrs) MovieCreateUpdateSchema.model_fields →
  MovieCreateUpdateSchema.country film = None →
  MovieCreateUpdateSchema.languages film = Some [] →
  ∃ new cols,
    movies s !! new = None
    ∧ POST_movies model_columns model_attrs today payload [] s
      = (mkResponse 500 (InternalServerError None),
         mkDb (<[new := mkRow cols [] [] []]> (movies s)) (countries s),
         [Execute; Add; Commit; Refresh])
    ∧ (∀ key v, (key, v) ∈ MovieCreateUpdateSchema.dict film →
                key ≠ "country_id" →
                cols !! key = if decide (key ∈ model_columns) then Some v else None)
    ∧ cols !! "country_id"
      = (if decide ("country_id" ∈ model_columns) then Some VNone else None)
    ∧ (∀ key, key ∉ MovieCreateUpdateSchema.model_fields → cols !! key = None).
Proof.
  intros Hvalid Hcheck Hattrs Hcountry Hlanguages.
  exists (next_id s), (inserted model_columns film).
  split; [apply next_id_fresh|]. split; [|split; [|split]].
  - rewrite (POST_movies_run _ _ _ _ film) by done. rewrite Hcheck.
    by rewrite MovieModel_new_accepts.
  - intros key v Hin Hkey. rewrite inserted_lookup by done. case_decide; [|done].
    by apply dict_lookup.
  - by apply inserted_country_id.
  - intros key Hkey. rewrite inserted_lookup.
    + case_decide; [|done]. apply not_elem_of_list_to_map_1. by rewrite dict_keys.
    + intros ->. apply Hkey. apply (bool_decide_unpack _). vm_compute. exact I.
Qed.

(** X15. A create request never touches what is stored: whatever the payload
    and the answer, every stored movie is still there unchanged and the
    countries are as before. *)
Theorem create_keeps_stored_movies (model_columns model_attrs : gset string)
    (today : Z) (payload : gmap string value) (s : db) :
  movies s ⊆ movies (POST_movies model_columns model_attrs today payload [] s).1.2
  ∧ countries (POST_movies model_columns model_attrs today payload [] s).1.2
    = countries s.
Proof.
  destruct (MovieCreateUpdateSchema.model_validate today payload) as [errs|film]
    eqn:Hvalid.
  { unfold POST_movies. by rewrite Hvalid. }
  rewrite (POST_movies_run _ _ _ _ film) by done.
  destruct (select_by_name_date _ _ s) as [|x [|y l]]; [|done..].
  destruct (MovieModel_new _ _ ∅) as [e|instance]; [done|].
  cbn [fst snd movies countries]. split; [|done].
  apply insert_subseteq, next_id_fresh.
Qed.

(** ** Requests in sequence *)

Lemma GET_movie_stored s film_id row others :
  movies s !! film_id = Some row →
  GET_movie film_id others s
  = (respond 200 (λ film, Detail <$> MovieDetailSchema_from_orm film)
       (inr (mkMovie film_id (columns row) (country_of s row) (row_genres row)
                     (row_actors row) (row_languages row))),
     s, [Execute]).
Proof.
  intros Hrow.
  unfold GET_movie, serve, get_movie, get_film_or_404, bind, execute. simpl.
  unfold select_by_id. by rewrite (load_Some _ _ _ Hrow).
Qed.

(** X16. A movie that a create request stored cannot be read back: whatever
    the payload and the model class, the detail request for an identifier
    the create request added to the store is answered with a bare 500 on the
    store the create left, the row having no country for the detail schema. *)
Theorem created_movie_is_not_served (model_columns model_attrs : gset string)
    (today : Z) (payload : gmap string value) (s : db) (new : Z) (row : MovieRow)
    (others : list change) :
  movies s !! new = None →
  movies (POST_movies model_columns model_attrs today payload [] s).1.2 !! new
  = Some row →
  GET_movie new others (POST_movies model_columns model_attrs today payload [] s).1.2
  = (mkResponse 500 (InternalServerError None),
     (POST_movies model_columns model_attrs today payload [] s).1.2, [Execute]).
Proof.
  intros Hnone.
  destruct (POST_movies_store model_columns model_attrs today payload s)
    as [->|(film & _ & _ & Hcountry & ->)]; [by rewrite Hnone|].
  cbn [movies]. intros Hrow.
  rewrite (GET_movie_stored _ _ row) by exact Hrow.
  destruct (decide (new = next_id s)) as [->|Hnew].
  - rewrite lookup_insert_eq in Hrow. injection Hrow as <-.
    unfold respond. rewrite from_orm_no_country; [done|].
    cbn [country]. apply country_of_null. cbn [columns].
    rewrite inserted_country_id by done. case_decide; [by right|by left].
  - rewrite lookup_insert_ne in Hrow by done. by rewrite Hnone in Hrow.
Qed.

(** ** The further properties on the sample data *)

Lemma validated_instance_in_range_witness :
  Z.of_nat (String.length (MovieCreateUpdateSchema.name Sample.inception_film)) ≤ 255
  ∧ MovieCreateUpdateSchema.date Sample.inception_film ≤ Sample.today + 365
  ∧ Py.float_le (Py.float_of_int 0)
      (MovieCreateUpdateSchema.score Sample.inception_film) = true
  ∧ Py.float_le (MovieCreateUpdateSchema.score Sample.inception_film)
      (Py.float_of_int 100) = true
  ∧ 0 ≤ Py.coefficient (MovieCreateUpdateSchema.budget Sample.inception_film)
  ∧ condecimal 15 2 (MovieCreateUpdateSchema.budget Sample.inception_film)
    = inr (MovieCreateUpdateSchema.budget Sample.inception_film)
  ∧ Py.float_lt (MovieCreateUpdateSchema.revenue Sample.inception_film)
      (Py.float_of_int 0) = false.
Proof.
  apply (validated_instance_in_range Sample.today Sample.inception
           Sample.inception_film).
  vm_compute. reflexivity.
Defined.

Lemma in_range_body_accepted_witness :
  MovieCreateUpdateSchema.model_validate Sample.today Sample.inception
  = inr (MovieCreateUpdateSchema.mk "Inception" 733969 (Py.float_of_int 87) "..."
           RELEASED (Py.mkDecimal 16000000000 (-2)) (Py.float_of_int 836800000)
           (Some 1) None (Some []) (Some []) (Some [])
           (dom Sample.inception ∩ list_to_set MovieCreateUpdateSchema.model_fields)).
Proof.
  apply (in_range_body_accepted Sample.today Sample.inception "Inception" 733969
           (VInt 87) (VInt 836800000) (VInt 1));
    try (vm_compute; reflexivity); try reflexivity.
  - vm_compute. discriminate.
  - vm_compute. discriminate.
  - vm_compute. discriminate.
Defined.

Lemma unknown_key_ignored_witness :
  MovieCreateUpdateSchema.model_validate Sample.today (<["id" := VInt 5]> Sample.inception)
  = MovieCreateUpdateSchema.model_validate Sample.today Sample.inception.
Proof.
  apply (unknown_key_ignored Sample.today Sample.inception "id" (VInt 5)).
  apply (bool_decide_unpack _). vm_compute. exact I.
Defined.

Lemma not_found_only_beyond_the_table_witness :
  status_code (GET_movies (Some 3) (Some 2) [] Shelf.shelf).1.1 = 404
  ↔ Z.of_nat (size (movies Shelf.shelf)) ≤ (3 - 1) * 2.
Proof.
  apply (not_found_only_beyond_the_table Shelf.shelf 3 2 []); lia.
Defined.

Lemma page_holds_the_slice_witness :
  Z.of_nat (length (MovieListResponseSchema.movies Shelf.first_page))
  = Z.min 2 (Z.of_nat (size (movies Shelf.shelf)) - (1 - 1) * 2)
  ∧ StronglySorted (λ i j, j < i)
      (MovieListItemSchema.id <$> MovieListResponseSchema.movies Shelf.first_page)
  ∧ Forall (λ item, ∃ row,
              movies Shelf.shelf !! MovieListItemSchema.id item = Some row
              ∧ columns row !! "name" = Some (VStr (MovieListItemSchema.name item))
              ∧ columns row !! "date" = Some (VDate (MovieListItemSchema.date item))
              ∧ columns row !! "overview"
                = Some (VStr (MovieListItemSchema.overview item)))
      (MovieListResponseSchema.movies Shelf.first_page).
Proof.
  apply (page_holds_the_slice Shelf.shelf 1 2 [] Shelf.first_page); [lia|lia|].
  vm_compute. reflexivity.
Defined.

Lemma later_pages_hold_smaller_ids_witness : 1 < 2.
Proof.
  apply (later_pages_hold_smaller_ids Shelf.shelf 1 2 2 [] [] Shelf.first_page
           Shelf.second_page 2 1); [lia|lia|lia| | | |].
  - vm_compute. reflexivity.
  - vm_compute. reflexivity.
  - simpl. apply list_elem_of_further, list_elem_of_here.
  - simpl. apply list_elem_of_here.
Defined.

Lemma page_links_lead_to_pages_witness :
  status_code (GET_movies (Some 2) (Some 2) [] Shelf.shelf).1.1 ≠ 404.
Proof.
  apply (page_links_lead_to_pages Shelf.shelf 1 2 [] [] Shelf.first_page 2);
    [lia|lia| | |].
  - vm_compute. reflexivity.
  - vm_compute. reflexivity.
  - left. reflexivity.
Defined.

Lemma invalid_pagination_rejected_witness :
  ∃ errs, ("per_page", ConstraintViolated) ∈ errs
          ∧ GET_movies (Some 1) (Some 21) [] Shelf.shelf
            = (mkResponse 422 (RequestValidationError errs), Shelf.shelf, []).
Proof.
  apply (invalid_pagination_rejected Shelf.shelf (Some 1) (Some 21) [] "per_page").
  right. split; [reflexivity|]. exists 21. split; [reflexivity|lia].
Defined.

Lemma unknown_identifier_not_found_witness :
  let not_found :=
    (mkResponse 404 (ErrorDetail "Movie with the given ID was not found."),
     Shelf.shelf, [Execute]) in
  GET_movie 9 [] Shelf.shelf = not_found
  ∧ PATCH_movie Sample.model_columns Sample.today 9 Sample.inception [] Shelf.shelf
    = not_found
  ∧ DELETE_movie Sample.model_columns 9 [] Shelf.shelf = not_found.
Proof.
  apply (unknown_identifier_not_found Sample.model_columns Sample.today 9
           Sample.inception Sample.inception_film [] Shelf.shelf).
  - vm_compute. reflexivity.
  - vm_compute. reflexivity.
Defined.

Lemma stored_movie_is_served_witness :
  GET_movie 1 [] Sample.catalog
  = (mkResponse 200
       (Detail (MovieDetailSchema.mk 1 "Inception" 733969 (Py.float_of_int 87) "..."
                  RELEASED (Py.mkDecimal 16000000000 (-2))
                  (Py.float_of_int 836800000)
                  (CountrySchema.mk 1 (Some "United States"))
                  ((λ r, GenreSchema.mk (ref_pk r) (ref_name r))
                     <$> row_genres Sample.inception_row)
                  ((λ r, ActorSchema.mk (ref_pk r) (ref_name r))
                     <$> row_actors Sample.inception_row)
                  ((λ r, LanguageSchema.mk (ref_pk r) (ref_name r))
                     <$> row_languages Sample.inception_row))),
     Sample.catalog, [Execute]).
Proof.
  apply (stored_movie_is_served Sample.catalog 1 Sample.inception_row []);
    vm_compute; reflexivity.
Defined.

Lemma create_refused_by_constructor_witness :
  POST_movies Sample.model_columns Sample.model_attrs Sample.today
              Shelf.inception_named [] Sample.empty_catalog
  = (mkResponse 500 (InternalServerError (Some AttributeError)),
     Sample.empty_catalog, [Execute]).
Proof.
  apply (create_refused_by_constructor Sample.model_columns Sample.model_attrs
           Sample.today Shelf.inception_named
           (MovieCreateUpdateSchema.mk
              "Inception" 733969 (Py.float_of_int 87) "..." RELEASED
              (Py.mkDecimal 16000000000 (-2)) (Py.float_of_int 836800000)
              (Some 1) (Some "United States") (Some []) (Some []) (Some [])
              (dom Shelf.inception_named
               ∩ list_to_set MovieCreateUpdateSchema.model_fields))
           Sample.empty_catalog).
  - vm_compute. reflexivity.
  - vm_compute. reflexivity.
  - apply (bool_decide_unpack _). vm_compute. exact I.
  - apply (bool_decide_unpack _). vm_compute. exact I.
Defined.

Lemma create_persists_yet_fails_witness :
  ∃ new cols,
    movies Sample.empty_catalog !! new = None
    ∧ POST_movies Sample.model_columns Sample.accepting_attrs Sample.today
                  Sample.inception [] Sample.empty_catalog
      = (mkResponse 500 (InternalServerError None),
         mkDb (<[new := mkRow cols [] [] []]> (movies Sample.empty_catalog))
              (countries Sample.empty_catalog),
         [Execute; Add; Commit; Refresh])
    ∧ (∀ key v, (key, v) ∈ MovieCreateUpdateSchema.dict Sample.inception_film →
                key ≠ "country_id" →
                cols !! key
                = if decide (key ∈ Sample.model_columns) then Some v else None)
    ∧ cols !! "country_id"
      = (if decide ("country_id" ∈ Sample.model_columns) then Some VNone else None)
    ∧ (∀ key, key ∉ MovieCreateUpdateSchema.model_fields → cols !! key = None).
Proof.
  apply (create_persists_yet_fails Sample.model_columns Sample.accepting_attrs
           Sample.today Sample.inception Sample.inception_film Sample.empty_catalog).
  - vm_compute. reflexivity.
  - vm_compute. reflexivity.
  - apply (bool_decide_unpack _). vm_compute. exact I.
  - reflexivity.
  - reflexivity.
Defined.

Lemma created_movie_is_not_served_witness :
  GET_movie 1 []
    (POST_movies Sample.model_columns Sample.accepting_attrs Sample.today
                 Sample.inception [] Sample.empty_catalog).1.2
  = (mkResponse 500 (InternalServerError None),
     (POST_movies Sample.model_columns Sample.accepting_attrs Sample.today
                  Sample.inception [] Sample.empty_catalog).1.2,
     [Execute]).
Proof.
  apply (created_movie_is_not_served Sample.model_columns Sample.accepting_attrs
           Sample.today Sample.inception Sample.empty_catalog 1
           (mkRow (inserted Sample.model_columns Sample.inception_film) [] [] []) []).
  - reflexivity.
  - vm_compute. reflexivity.
Defined.

(** ** Updates in sequence *)

Lemma patched_attrs model_columns film cols :
  patched model_columns film cols
  = attrs (foldl (assign model_columns) (mkMovie 0 cols None [] [] [])
                 (MovieCreateUpdateSchema.dict_exclude_unset film)).
Proof. by rewrite foldl_assign_attrs. Qed.

Lemma patched_untouched model_columns film cols key :
  key ∉ (MovieCreateUpdateSchema.dict_exclude_unset film).*1 ∨ key ∉ model_columns →
  patched model_columns film cols !! key = cols !! key.
Proof. intros H. rewrite patched_attrs. by rewrite foldl_assign_untouched. Qed.

Lemma patched_supplied model_columns film cols key v :
  (key, v) ∈ MovieCreateUpdateSchema.dict_exclude_unset film →
  key ∈ model_columns →
  patched model_columns film cols !! key = Some v.
Proof.
  intros Hin Hcol. rewrite patched_attrs.
  apply foldl_assign_supplied; [apply dict_exclude_unset_NoDup|done..].
Qed.

(** Each key of the patched columns is either assigned from the payload or
    left as it was. *)
Lemma patched_cases model_columns film cols key :
  (∃ v, (key, v) ∈ MovieCreateUpdateSchema.dict film
        ∧ patched model_columns film cols !! key = Some v)
  ∨ patched model_columns film cols !! key = cols !! key.
Proof.
  destruct (decide (key ∈ model_columns)) as [Hcol|Hcol];
    [|right; apply patched_untouched; by right].
  destruct (decide (key ∈ (MovieCreateUpdateSchema.dict_exclude_unset film).*1))
    as [Hin|Hin]; [|right; apply patched_untouched; by left].
  left. apply list_elem_of_fmap in Hin as ([k v] & -> & Hin).
  exists v. split; [|by apply patched_supplied].
  by apply list_elem_of_filter in Hin as [_ Hin].
Qed.

Lemma patched_idempotent model_columns film cols :
  patched model_columns film (patched model_columns film cols)
  = patched model_columns film cols.
Proof.
  apply map_eq. intros key.
  destruct (decide (key ∈ model_columns)) as [Hcol|Hcol];
    [|apply patched_untouched; by right].
  destruct (decide (key ∈ (MovieCreateUpdateSchema.dict_exclude_unset film).*1))
    as [Hin|Hin]; [|apply patched_untouched; by left].
  apply list_elem_of_fmap in Hin as ([k v] & -> & Hin).
  by rewrite !(patched_supplied _ _ _ k v).
Qed.

Lemma violates_unique_frame self cols s s' :
  (∀ i, i ≠ self → movies s' !! i = movies s !! i) →
  violates_unique self cols s = false → violates_unique self cols s' = false.
Proof.
  intros Hsame Hfalse. apply violates_unique_false.
  intros i row n d Hne Hrow. rewrite Hsame in Hrow by done.
  by eapply violates_unique_inv.
Qed.

Lemma PATCH_movie_missing model_columns today film_id payload film s :
  MovieCreateUpdateSchema.model_validate today payload = inr film →
  movies s !! film_id = None →
  PATCH_movie model_columns today film_id payload [] s
  = (mkResponse 404 (ErrorDetail "Movie with the given ID was not found."), s,
     [Execute]).
Proof.
  intros Hvalid Hnone. unfold PATCH_movie. rewrite Hvalid.
  unfold serve, edit_film, get_film_or_404, bind, execute. simpl.
  unfold select_by_id. by rewrite (load_None _ _ Hnone).
Qed.

(** What an update request answered 200 went through. *)
Lemma PATCH_movie_200 model_columns today film_id payload s c s' calls :
  PATCH_movie model_columns today film_id payload [] s
  = (mkResponse 200 c, s', calls) →
  ∃ film row d,
    MovieCreateUpdateSchema.model_validate today payload = inr film
    ∧ movies s !! film_id = Some row
    ∧ violates_unique film_id (patched model_columns film (columns row)) s = false
    ∧ s' = mkDb (<[film_id := mkRow (patched model_columns film (columns row))
                                    (row_genres row) (row_actors row)
                                    (row_languages row)]> (movies s))
                (countries s)
    ∧ MovieDetailSchema_from_orm
        (mkMovie film_id (patched model_columns film (columns row))
           (country_of s' (mkRow (patched model_columns film (columns row))
                                 (row_genres row) (row_actors row)
                                 (row_languages row)))
           (row_genres row) (row_actors row) (row_languages row)) = Some d
    ∧ c = Detail d
    ∧ calls = [Execute; Commit; Refresh].
Proof.
  destruct (MovieCreateUpdateSchema.model_validate today payload) as [errs|film]
    eqn:Hvalid.
  { unfold PATCH_movie. by rewrite Hvalid. }
  destruct (movies s !! film_id) as [row|] eqn:Hrow; cycle 1.
  { by rewrite (PATCH_movie_missing _ _ _ _ film). }
  rewrite (PATCH_movie_run _ _ _ _ film _ row) by done.
  destruct (violates_unique _ _ s) eqn:Hunique; [by intros [= <- <- <-]|].
  unfold respond.
  destruct (MovieDetailSchema_from_orm _) as [d|] eqn:Hd; cbn [fmap option_fmap option_map];
    intros [= <- <- <-].
  exists film, row, d.
  repeat (split; [first [reflexivity | eassumption]|]). reflexivity.
Qed.

(** X17. An updated movie can be read back: after an update request answered
    200, the detail request for that identifier, on the store the update
    left, is answered 200 with the same content. *)
Theorem updated_movie_is_read_back (model_columns : gset string) (today film_id : Z)
    (payload : gmap string value) (s s' : db) (calls : list db_op) (c : content)
    (others : list change) :
  PATCH_movie model_columns today film_id payload [] s
  = (mkResponse 200 c, s', calls) →
  GET_movie film_id others s' = (mkResponse 200 c, s', [Execute]).
Proof.
  intros (film & row & d & _ & _ & _ & Hs' & Hd & -> & _)%PATCH_movie_200.
  set (row' := mkRow (patched model_columns film (columns row)) (row_genres row)
                     (row_actors row) (row_languages row)) in *.
  rewrite (GET_movie_stored _ _ row').
  2:{ rewrite Hs'. cbn [movies]. apply lookup_insert_eq. }
  unfold respond. cbn [columns row_genres row_actors row_languages row'].
  rewrite Hd. reflexivity.
Qed.

(** X18. The update is idempotent: repeating a successful update with the
    same payload gets the same answer and leaves the store as the first
    update left it. *)
Theorem update_is_idempotent (model_columns : gset string) (today film_id : Z)
    (payload : gmap string value) (s s' : db) (calls : list db_op) (c : content) :
  PATCH_movie model_columns today film_id payload [] s
  = (mkResponse 200 c, s', calls) →
  PATCH_movie model_columns today film_id payload [] s'
  = (mkResponse 200 c, s', calls).
Proof.
  intros (film & row & d & Hvalid & Hrow & Hunique & Hs' & Hd & -> & ->)%PATCH_movie_200.
  assert (Hrow' : movies s' !! film_id
                  = Some (mkRow (patched model_columns film (columns row))
                                (row_genres row) (row_actors row) (row_languages row))).
  { rewrite Hs'. apply lookup_insert_eq. }
  rewrite (PATCH_movie_run _ _ _ _ film _ _ Hvalid Hrow'). cbv zeta.
  cbn [columns row_genres row_actors row_languages].
  rewrite patched_idempotent.
  rewrite (violates_unique_frame film_id _ s s' ltac:(intros i Hi; rewrite Hs';
             by apply lookup_insert_ne) Hunique).
  assert (Hsame : mkDb (<[film_id := mkRow (patched model_columns film (columns row))
                                           (row_genres row) (row_actors row)
                                           (row_languages row)]> (movies s'))
                       (countries s') = s').
  { rewrite Hs'. cbn [movies countries]. by rewrite insert_insert_eq. }
  rewrite Hsame. unfold respond. rewrite Hd. reflexivity.
Qed.

Lemma updated_movie_is_read_back_witness :
  GET_movie 1 []
    (PATCH_movie Sample.model_columns Sample.today 1 Sample.inception_rescored []
                 Sample.catalog).1.2
  = (mkResponse 200
       (body (PATCH_movie Sample.model_columns Sample.today 1
                          Sample.inception_rescored [] Sample.catalog).1.1),
     (PATCH_movie Sample.model_columns Sample.today 1 Sample.inception_rescored []
                  Sample.catalog).1.2,
     [Execute]).
Proof.
  apply (updated_movie_is_read_back Sample.model_columns Sample.today 1
           Sample.inception_rescored Sample.catalog _
           [Execute; Commit; Refresh] _ []).
  vm_compute. reflexivity.
Defined.

Lemma update_is_idempotent_witness :
  PATCH_movie Sample.model_columns Sample.today 1 Sample.inception_rescored []
    (PATCH_movie Sample.model_columns Sample.today 1 Sample.inception_rescored []
                 Sample.catalog).1.2
  = (mkResponse 200
       (body (PATCH_movie Sample.model_columns Sample.today 1
                          Sample.inception_rescored [] Sample.catalog).1.1),
     (PATCH_movie Sample.model_columns Sample.today 1 Sample.inception_rescored []
                  Sample.catalog).1.2,
     [Execute; Commit; Refresh]).
Proof.
  apply (update_is_idempotent Sample.model_columns Sample.today 1
           Sample.inception_rescored Sample.catalog).
  vm_compute. reflexivity.
Defined.

(** ** Duplicates *)

(** With a single stored movie of a name and date, the duplicate query
    finds exactly it. *)
Lemma select_by_name_date_single s name date i row :
  (∀ j rj, movies s !! j = Some rj →
           columns rj !! "name" = Some (VStr name) →
           columns rj !! "date" = Some (VDate date) → j = i) →
  movies s !! i = Some row →
  columns row !! "name" = Some (VStr name) →
  columns row !! "date" = Some (VDate date) →
  ∃ film, select_by_name_date name date s = [film].
Proof.
  intros Honly Hrow Hname Hdate. unfold select_by_name_date.
  set (P := λ film : MovieModel,
              attrs film !! "name" = Some (VStr name)
              ∧ attrs film !! "date" = Some (VDate date)).
  assert (Hids : ∀ film, film ∈ filter P (select_ordered s) → id film = i).
  { intros film [[Hn Hd] Hin]%list_elem_of_filter.
    destruct (select_ordered_attrs _ _ Hin) as (row' & Hrow' & Hattrs).
    rewrite Hattrs in Hn, Hd. by eapply Honly. }
  assert (Hdup : NoDup (id <$> filter P (select_ordered s))).
  { eapply sublist_NoDup; [apply select_ordered_NoDup|].
    apply fmap_sublist, sublist_filter. }
  assert (Hin : mkMovie i (columns row) (country_of s row) (row_genres row)
                        (row_actors row) (row_languages row)
                ∈ filter P (select_ordered s)).
  { apply list_elem_of_filter. split; [done|].
    apply elem_of_select_ordered. exists row. split; [done|]. by apply load_Some. }
  destruct (filter P (select_ordered s)) as [|x [|y l]].
  - by apply elem_of_nil in Hin.
  - eauto.
  - exfalso. rewrite !fmap_cons in Hdup. apply NoDup_cons in Hdup as [Hx _].
    apply Hx.
    rewrite (Hids x) by apply list_elem_of_here.
    rewrite <- (Hids y) by apply list_elem_of_further, list_elem_of_here.
    apply list_elem_of_here.
Qed.

Lemma inserted_name_date_columns model_columns film :
  "name" ∈ model_columns → "date" ∈ model_columns →
  inserted model_columns film !! "name"
  = Some (VStr (MovieCreateUpdateSchema.name film))
  ∧ inserted model_columns film !! "date"
    = Some (VDate (MovieCreateUpdateSchema.date film)).
Proof.
  intros Hn Hd. rewrite !inserted_lookup, !decide_True by done. by split.
Qed.

(** X19. The same create twice: after a create request that stored its
    movie (it is answered 500 all the same), on a model that stores name and
    date, the same payload sent again is answered 409 "Movie with the same
    name and date already exists." and changes nothing. *)
Theorem second_create_conflicts (model_columns model_attrs : gset string)
    (today : Z) (payload : gmap string value) (s : db) :
  "name" ∈ model_columns → "date" ∈ model_columns →
  (POST_movies model_columns model_attrs today payload [] s).1.2 ≠ s →
  POST_movies model_columns model_attrs today payload []
              (POST_movies model_columns model_attrs today payload [] s).1.2
  = (mkResponse 409 (ErrorDetail "Movie with the same name and date already exists."),
     (POST_movies model_columns model_attrs today payload [] s).1.2, [Execute]).
Proof.
  intros Hn Hd.
  destruct (POST_movies_store model_columns model_attrs today payload s)
    as [->|(film & Hvalid & Hcheck & _ & ->)]; [done|]. intros _.
  set (s' := mkDb _ _).
  destruct (inserted_name_date_columns model_columns film Hn Hd) as [Hname Hdate].
  destruct (select_by_name_date_single s' (MovieCreateUpdateSchema.name film)
              (MovieCreateUpdateSchema.date film) (next_id s)
              (mkRow (inserted model_columns film) [] [] [])) as [x Hx];
    [|by apply lookup_insert_eq|done|done|].
  { intros j rj Hj Hjn Hjd. destruct (decide (j = next_id s)) as [|Hne]; [done|].
    subst s'. cbn [movies] in Hj. rewrite lookup_insert_ne in Hj by done.
    destruct (select_by_name_date_nil _ _ _ _ _ Hcheck Hj Hjn Hjd). }
  rewrite (POST_movies_run _ _ _ _ film) by done. by rewrite Hx.
Qed.

Lemma validated_required_supplied today payload film key v :
  MovieCreateUpdateSchema.model_validate today payload = inr film →
  key ∈ ["name"; "date"; "score"; "overview"; "status"; "budget"; "revenue";
         "country_id"] →
  (key, v) ∈ MovieCreateUpdateSchema.dict film →
  (key, v) ∈ MovieCreateUpdateSchema.dict_exclude_unset film.
Proof.
  intros Hvalid Hkey Hin. eapply dict_exclude_unset_supplied; [done| |done].
  destruct (model_validate_inr _ _ _ Hvalid) as [_ Hreq].
  by apply (proj1 (Forall_forall _ _) Hreq).
Qed.

(** An update assigns the name and date of its payload when the model
    stores them. *)
Lemma patched_name_date model_columns today payload film cols :
  MovieCreateUpdateSchema.model_validate today payload = inr film →
  "name" ∈ model_columns → "date" ∈ model_columns →
  name_date (patched model_columns film cols)
  = Some (VStr (MovieCreateUpdateSchema.name film),
          VDate (MovieCreateUpdateSchema.date film)).
Proof.
  intros Hvalid Hn Hd. apply name_date_Some.
  split; [|split; [|done]].
  - apply patched_supplied; [|done].
    eapply validated_required_supplied; [done|apply list_elem_of_here|].
    apply list_elem_of_here.
  - apply patched_supplied; [|done].
    eapply validated_required_supplied;
      [done|apply list_elem_of_further, list_elem_of_here|].
    apply list_elem_of_further, list_elem_of_here.
Qed.

(** X20. The update has no duplicate check of its own: on a model that
    stores name and date, an update whose payload carries the name and date
    of another stored movie is refused by the store at commit and answered
    with the bare IntegrityError under status 500; the store is unchanged. *)
Theorem update_to_duplicate_is_server_error (model_columns : gset string)
    (today film_id other : Z) (payload : gmap string value)
    (film : MovieCreateUpdateSchema.t) (s : db) (row other_row : MovieRow) :
  "name" ∈ model_columns → "date" ∈ model_columns →
  MovieCreateUpdateSchema.model_validate today payload = inr film →
  movies s !! film_id = Some row →
  other ≠ film_id →
  movies s !! other = Some other_row →
  columns other_row !! "name" = Some (VStr (MovieCreateUpdateSchema.name film)) →
  columns other_row !! "date" = Some (VDate (MovieCreateUpdateSchema.date film)) →
  PATCH_movie model_columns today film_id payload [] s
  = (mkResponse 500 (InternalServerError (Some IntegrityError)), s,
     [Execute; Commit]).
Proof.
  intros Hn Hd Hvalid Hrow Hne Hother Hon Hod.
  rewrite (PATCH_movie_run _ _ _ _ film _ row) by done. cbv zeta.
  rewrite (violates_unique_true film_id _ s other other_row
             (VStr (MovieCreateUpdateSchema.name film))
             (VDate (MovieCreateUpdateSchema.date film))); [done..| |].
  - by eapply patched_name_date.
  - by apply name_date_Some.
Qed.

Lemma update_to_duplicate_is_server_error_witness :
  PATCH_movie Sample.model_columns Sample.today 2
              (<["name" := VStr "Alien"]> (<["date" := VDate 722595]> Sample.inception))
              [] Shelf.shelf
  = (mkResponse 500 (InternalServerError (Some IntegrityError)), Shelf.shelf,
     [Execute; Commit]).
Proof.
  apply (update_to_duplicate_is_server_error Sample.model_columns Sample.today 2 1
           (<["name" := VStr "Alien"]> (<["date" := VDate 722595]> Sample.inception))
           (MovieCreateUpdateSchema.mk "Alien" 722595 (Py.float_of_int 87) "..."
              RELEASED (Py.mkDecimal 16000000000 (-2)) (Py.float_of_int 836800000)
              (Some 1) None (Some []) (Some []) (Some [])
              (dom Sample.inception ∩ list_to_set MovieCreateUpdateSchema.model_fields))
           Shelf.shelf (Shelf.row "Brazil" 724691) (Shelf.row "Alien" 722595)).
  - apply (bool_decide_unpack _). vm_compute. exact I.
  - apply (bool_decide_unpack _). vm_compute. exact I.
  - vm_compute. reflexivity.
  - vm_compute. reflexivity.
  - lia.
  - vm_compute. reflexivity.
  - vm_compute. reflexivity.
  - vm_compute. reflexivity.
Defined.

Lemma second_create_conflicts_witness :
  POST_movies Sample.model_columns Sample.accepting_attrs Sample.today
    Sample.inception []
    (POST_movies Sample.model_columns Sample.accepting_attrs Sample.today
                 Sample.inception [] Sample.empty_catalog).1.2
  = (mkResponse 409 (ErrorDetail "Movie with the same name and date already exists."),
     (POST_movies Sample.model_columns Sample.accepting_attrs Sample.today
                  Sample.inception [] Sample.empty_catalog).1.2,
     [Execute]).
Proof.
  apply (second_create_conflicts Sample.model_columns Sample.accepting_attrs
           Sample.today Sample.inception Sample.empty_catalog).
  - apply (bool_decide_unpack _). vm_compute. exact I.
  - apply (bool_decide_unpack _). vm_compute. exact I.
  - intros Hsame. apply (f_equal (λ d, movies d !! 1)) in Hsame.
    vm_compute in Hsame. discriminate.
Defined.

(** ** What the writes keep *)

(** The store an update request leaves: the one it met, or that one with
    the supplied fields assigned to the record, which the storage accepted. *)
Lemma PATCH_movie_store model_columns today film_id payload s :
  (PATCH_movie model_columns today film_id payload [] s).1.2 = s
  ∨ ∃ film row,
      MovieCreateUpdateSchema.model_validate today payload = inr film
      ∧ movies s !! film_id = Some row
      ∧ violates_unique film_id (patched model_columns film (columns row)) s = false
      ∧ (PATCH_movie model_columns today film_id payload [] s).1.2
        = mkDb (<[film_id := mkRow (patched model_columns film (columns row))
                                   (row_genres row) (row_actors row)
                                   (row_languages row)]> (movies s))
               (countries s).
Proof.
  destruct (MovieCreateUpdateSchema.model_validate today payload) as [errs|film]
    eqn:Hvalid.
  { left. unfold PATCH_movie. by rewrite Hvalid. }
  destruct (movies s !! film_id) as [row|] eqn:Hrow.
  - rewrite (PATCH_movie_run _ _ _ _ film s row) by done. cbv zeta.
    destruct (violates_unique _ _ s) eqn:Hu; [left; reflexivity|].
    right. exists film, row.
    split; [reflexivity|]. split; [reflexivity|]. split; [exact Hu|]. reflexivity.
  - left. by rewrite (PATCH_movie_missing _ _ _ _ film).
Qed.

(** A delete request on a stored movie. *)
Lemma DELETE_movie_run model_columns film_id s row :
  movies s !! film_id = Some row →
  DELETE_movie model_columns film_id [] s
  = (mkResponse 204 NoBody, mkDb (delete film_id (movies s)) (countries s),
     [Execute; Delete; Commit]).
Proof.
  intros Hrow.
  unfold DELETE_movie, serve, remove_film, get_film_or_404, bind, execute. simpl.
  unfold select_by_id. rewrite (load_Some _ _ _ Hrow). reflexivity.
Qed.

Lemma DELETE_movie_store model_columns film_id s :
  (DELETE_movie model_columns film_id [] s).1.2
  = match movies s !! film_id with
    | Some _ => mkDb (delete film_id (movies s)) (countries s)
    | None => s
    end.
Proof.
  destruct (movies s !! film_id) as [row|] eqn:Hrow.
  - by rewrite (DELETE_movie_run _ _ _ row).
  - unfold DELETE_movie, serve, remove_film, get_film_or_404, bind, execute. simpl.
    unfold select_by_id. by rewrite (load_None _ _ Hrow).
Qed.

(** Columns that come, key by key, from a validated instance or from columns
    within the ranges, are within the ranges. *)
Lemma columns_in_range_from today payload film (old cols : gmap string value) :
  MovieCreateUpdateSchema.model_validate today payload = inr film →
  columns_in_range old →
  (∀ key v, key ≠ "country_id" → cols !! key = Some v →
            (list_to_map (MovieCreateUpdateSchema.dict film) : gmap string value)
              !! key = Some v
            ∨ old !! key = Some v) →
  columns_in_range cols.
Proof.
  intros (Hname & _ & Hlo & Hhi & Hbudget & _ & Hrevenue)%model_validate_ranges
         (Oname & Oscore & Obudget & Orevenue) Hfrom.
  split; [|split; [|split]].
  - intros n Hn. destruct (Hfrom "name" _ ltac:(done) Hn) as [Hn'|Hn'];
      [clear Hn; rename Hn' into Hn|by apply Oname].
    change (Some (VStr (MovieCreateUpdateSchema.name film)) = Some (VStr n)) in Hn.
    by simplify_eq.
  - intros x Hx. destruct (Hfrom "score" _ ltac:(done) Hx) as [Hx'|Hx'];
      [clear Hx; rename Hx' into Hx|by apply Oscore].
    change (Some (VFloat (MovieCreateUpdateSchema.score film)) = Some (VFloat x))
      in Hx.
    by simplify_eq.
  - intros d Hd. destruct (Hfrom "budget" _ ltac:(done) Hd) as [Hd'|Hd'];
      [clear Hd; rename Hd' into Hd|by apply Obudget].
    change (Some (VDecimal (MovieCreateUpdateSchema.budget film))
            = Some (VDecimal d)) in Hd.
    by simplify_eq.
  - intros x Hx. destruct (Hfrom "revenue" _ ltac:(done) Hx) as [Hx'|Hx'];
      [clear Hx; rename Hx' into Hx|by apply Orevenue].
    change (Some (VFloat (MovieCreateUpdateSchema.revenue film)) = Some (VFloat x))
      in Hx.
    by simplify_eq.
Qed.

(** X21. The writes keep every stored record within the ranges of the
    validators.  If the name of every stored movie has at most 255
    characters, its score lies in [0, 100] and its budget and revenue are
    not negative, the same holds of the store a create, an update or a delete
    request leaves, whatever the request body and the identifier. *)
Theorem writes_keep_ranges (model_columns model_attrs : gset string)
    (today film_id : Z) (payload : gmap string value) (s : db) :
  store_in_range s →
  store_in_range (POST_movies model_columns model_attrs today payload [] s).1.2
  ∧ store_in_range (PATCH_movie model_columns today film_id payload [] s).1.2
  ∧ store_in_range (DELETE_movie model_columns film_id [] s).1.2.
Proof.
  intros Hs. split; [|split].
  - destruct (POST_movies_store model_columns model_attrs today payload s)
      as [->|(film & Hvalid & _ & _ & ->)]; [exact Hs|].
    intros i row. cbn [movies].
    destruct (decide (i = next_id s)) as [->|Hi].
    + rewrite lookup_insert_eq. intros [= <-]. cbn [columns].
      apply (columns_in_range_from today payload film ∅); [exact Hvalid|..].
      * split; [|split; [|split]]; intros ?; by rewrite lookup_empty.
      * intros key v Hkey. rewrite inserted_lookup by done.
        case_decide; [by left|done].
    + rewrite lookup_insert_ne by done. apply Hs.
  - destruct (PATCH_movie_store model_columns today film_id payload s)
      as [->|(film & old & Hvalid & Hold & _ & ->)]; [exact Hs|].
    intros i row. cbn [movies].
    destruct (decide (i = film_id)) as [->|Hi].
    + rewrite lookup_insert_eq. intros [= <-]. cbn [columns].
      apply (columns_in_range_from today payload film (columns old));
        [exact Hvalid|exact (Hs _ _ Hold)|].
      intros key v _ Hkey.
      destruct (patched_cases model_columns film (columns old) key)
        as [(w & Hw & Hp)|Hp].
      * left. rewrite Hp in Hkey. injection Hkey as <-. by apply dict_lookup.
      * right. by rewrite <-Hp.
    + rewrite lookup_insert_ne by done. apply Hs.
  - rewrite DELETE_movie_store.
    destruct (movies s !! film_id) as [old|]; [|exact Hs].
    intros i row. cbn [movies]. intros Hrow%lookup_delete_Some. apply (Hs i), Hrow.
Qed.

Lemma writes_keep_ranges_witness :
  store_in_range
    (POST_movies Sample.model_columns Sample.accepting_attrs Sample.today
                 Sample.inception [] Shelf.shelf).1.2
  ∧ store_in_range
      (PATCH_movie Sample.model_columns Sample.today 2 Sample.inception []
                   Shelf.shelf).1.2
  ∧ store_in_range (DELETE_movie Sample.model_columns 2 [] Shelf.shelf).1.2.
Proof.
  apply (writes_keep_ranges Sample.model_columns Sample.accepting_attrs
           Sample.today 2 Sample.inception Shelf.shelf).
  intros i row Hrow. apply elem_of_list_to_map_2 in Hrow.
  repeat (apply elem_of_cons in Hrow as [Hrow|Hrow]);
    [injection Hrow as -> ->..|by apply elem_of_nil in Hrow];
    (split; [|split; [|split]]); intros x Hx; vm_compute in Hx;
    injection Hx as <-; vm_compute; try split; congruence.
Defined.

(** Writing a record whose (name, date) pair no other stored record carries
    keeps the pairs distinct. *)
Lemma unique_name_date_insert s i row :
  unique_name_date s →
  (∀ j rj n d, j ≠ i → movies s !! j = Some rj →
               columns row !! "name" = Some (VStr n) →
               columns row !! "date" = Some (VDate d) →
               columns rj !! "name" = Some (VStr n) →
               columns rj !! "date" = Some (VDate d) → False) →
  unique_name_date (mkDb (<[i := row]> (movies s)) (countries s)).
Proof.
  intros Hs Hnew j k rj rk n d. cbn [movies].
  destruct (decide (j = i)) as [->|Hj], (decide (k = i)) as [->|Hk].
  - done.
  - rewrite lookup_insert_eq, lookup_insert_ne by done.
    intros [= <-] Hrk Hn Hd Hn' Hd'. by destruct (Hnew k rk n d).
  - rewrite lookup_insert_eq, lookup_insert_ne by done.
    intros Hrj [= <-] Hn Hd Hn' Hd'. by destruct (Hnew j rj n d).
  - rewrite !lookup_insert_ne by done. apply Hs.
Qed.

(** X22. The writes keep the (name, date) pairs of the stored movies distinct.
    If no two stored movies carry the same name and date, none do in the
    store a create, an update or a delete request leaves: a create request
    stores only a pair it found unused, an update is stored only when the
    storage accepts its pair, a delete only removes. *)
Theorem writes_keep_name_date_unique (model_columns model_attrs : gset string)
    (today film_id : Z) (payload : gmap string value) (s : db) :
  unique_name_date s →
  unique_name_date (POST_movies model_columns model_attrs today payload [] s).1.2
  ∧ unique_name_date (PATCH_movie model_columns today film_id payload [] s).1.2
  ∧ unique_name_date (DELETE_movie model_columns film_id [] s).1.2.
Proof.
  intros Hs. split; [|split].
  - destruct (POST_movies_store model_columns model_attrs today payload s)
      as [->|(film & _ & Hsel & _ & ->)]; [exact Hs|].
    apply unique_name_date_insert; [exact Hs|].
    cbn [columns]. intros j rj n d _ Hrj Hn Hd Hn' Hd'.
    rewrite inserted_lookup in Hn, Hd by done.
    case_decide; [|done]. case_decide; [|done].
    change (Some (VStr (MovieCreateUpdateSchema.name film)) = Some (VStr n)) in Hn.
    change (Some (VDate (MovieCreateUpdateSchema.date film)) = Some (VDate d)) in Hd.
    simplify_eq. exact (select_by_name_date_nil _ _ _ _ _ Hsel Hrj Hn' Hd').
  - destruct (PATCH_movie_store model_columns today film_id payload s)
      as [->|(film & old & _ & _ & Hu & ->)]; [exact Hs|].
    apply unique_name_date_insert; [exact Hs|].
    cbn [columns]. intros j rj n d Hj Hrj Hn Hd Hn' Hd'.
    apply (violates_unique_inv _ _ _ Hu j rj (VStr n) (VDate d) Hj Hrj);
      by apply name_date_Some.
  - rewrite DELETE_movie_store.
    destruct (movies s !! film_id) as [old|]; [|exact Hs].
    intros j k rj rk n d. cbn [movies].
    intros [_ Hrj]%lookup_delete_Some [_ Hrk]%lookup_delete_Some.
    by apply Hs.
Qed.

Lemma writes_keep_name_date_unique_witness :
  unique_name_date
    (POST_movies Sample.model_columns Sample.accepting_attrs Sample.today
                 Sample.inception [] Shelf.shelf).1.2
  ∧ unique_name_date
      (PATCH_movie Sample.model_columns Sample.today 2 Sample.inception []
                   Shelf.shelf).1.2
  ∧ unique_name_date (DELETE_movie Sample.model_columns 2 [] Shelf.shelf).1.2.
Proof.
  apply (writes_keep_name_date_unique Sample.model_columns Sample.accepting_attrs
           Sample.today 2 Sample.inception Shelf.shelf).
  intros i j ri rj n d Hri Hrj.
  apply elem_of_list_to_map_2 in Hri. apply elem_of_list_to_map_2 in Hrj.
  repeat (apply elem_of_cons in Hri as [Hri|Hri]);
    [injection Hri as -> ->..|by apply elem_of_nil in Hri];
    (repeat (apply elem_of_cons in Hrj as [Hrj|Hrj]);
       [injection Hrj as -> ->..|by apply elem_of_nil in Hrj]);
    intros Hn Hd Hn' Hd'; vm_compute in Hn, Hn'; congruence.
Defined.

(** X23. A delete removes the requested movie and nothing else.  After a
    delete request on a stored movie, a get-by-id of any other identifier is
    answered as before the delete, and the table holds one movie fewer. *)
Theorem deleted_movie_only (model_columns : gset string) (film_id other : Z)
    (s : db) (row : MovieRow) :
  movies s !! film_id = Some row →
  other ≠ film_id →
  let s' := (DELETE_movie model_columns film_id [] s).1.2 in
  (GET_movie other [] s').1.1 = (GET_movie other [] s).1.1
  ∧ select_count s' = select_count s - 1.
Proof.
  intros Hrow Hother s'. subst s'. rewrite (DELETE_movie_run _ _ _ row Hrow).
  cbn [fst snd]. split.
  - destruct (movies s !! other) as [r|] eqn:Hr.
    + rewrite (GET_movie_stored _ _ r), (GET_movie_stored s _ r); [done..|].
      cbn [movies]. by rewrite lookup_delete_ne.
    + rewrite !GET_movie_missing; [done..|].
      cbn [movies]. by rewrite lookup_delete_ne.
  - unfold select_count. cbn [movies].
    rewrite map_size_delete_Some by (by rewrite Hrow).
    pose proof (map_size_non_empty_iff (movies s)) as Hne.
    assert (size (movies s) ≠ 0%nat).
    { apply Hne. intros Hempty. by rewrite Hempty, lookup_empty in Hrow. }
    lia.
Qed.

Lemma deleted_movie_only_witness :
  (GET_movie 3 [] (DELETE_movie Sample.model_columns 2 [] Shelf.shelf).1.2).1.1
  = (GET_movie 3 [] Shelf.shelf).1.1
  ∧ select_count (DELETE_movie Sample.model_columns 2 [] Shelf.shelf).1.2
    = select_count Shelf.shelf - 1.
Proof.
  apply (deleted_movie_only Sample.model_columns 2 3 Shelf.shelf
           (Shelf.row "Brazil" 724691)).
  - vm_compute. reflexivity.
  - lia.
Defined.

(** ** The update, field by field *)

(** X24. An update writes the supplied fields that are columns and nothing
    else. For a payload that validates, a stored movie and new columns the
    storage accepts, the request goes through commit and refresh and is
    answered 200, or with the bare 500 of a record the response model
    refuses; a supplied field that is not a column of the record, such as
    country, genre_ids, actor_ids or languages, is ignored and does not fail
    the request. On the stored record a key absent from the payload, a key
    that is no field of the input schema and a key that is no column keep
    their value, a supplied field that is a column takes the validated
    value; the links of the record, the other records and the countries are
    left as they were. *)
Theorem update_changes_only_supplied_columns (model_columns : gset string)
    (today film_id : Z) (payload : gmap string value)
    (film : MovieCreateUpdateSchema.t) (s : db) (row : MovieRow) :
  MovieCreateUpdateSchema.model_validate today payload = inr film →
  movies s !! film_id = Some row →
  violates_unique film_id (patched model_columns film (columns row)) s = false →
  ∃ r row',
    PATCH_movie model_columns today film_id payload [] s
    = (r, mkDb (<[film_id := row']> (movies s)) (countries s),
       [Execute; Commit; Refresh])
    ∧ (status_code r = 200 ∨ r = mkResponse 500 (InternalServerError None))
    ∧ (∀ key, payload !! key = None ∨ key ∉ MovieCreateUpdateSchema.model_fields →
              columns row' !! key = columns row !! key)
    ∧ (∀ key, key ∉ model_columns → columns row' !! key = columns row !! key)
    ∧ (∀ key v, is_Some (payload !! key) → key ∈ model_columns →
                (key, v) ∈ MovieCreateUpdateSchema.dict film →
                columns row' !! key = Some v)
    ∧ row_genres row' = row_genres row
    ∧ row_actors row' = row_actors row
    ∧ row_languages row' = row_languages row.
Proof.
  intros Hvalid Hrow Hunique.
  exists (PATCH_movie model_columns today film_id payload [] s).1.1,
         (mkRow (patched model_columns film (columns row)) (row_genres row)
                (row_actors row) (row_languages row)).
  rewrite (PATCH_movie_run _ _ _ _ film s row) by done. cbv zeta.
  rewrite Hunique. cbn [fst snd columns row_genres row_actors row_languages].
  split; [reflexivity|]. split.
  { unfold respond. destruct (MovieDetailSchema_from_orm _); [by left|by right]. }
  split.
  { intros key Hkey. apply patched_untouched. left.
    destruct Hkey as [Hkey|Hkey]; [by eapply dict_exclude_unset_absent|].
    intros Hin. by apply Hkey, (dict_exclude_unset_keys film). }
  split.
  { intros key Hkey. apply patched_untouched. by right. }
  split; [|done].
  intros key v Hkey Hcol Hin. apply patched_supplied; [|done].
  by eapply dict_exclude_unset_supplied.
Qed.

(** The sample movie rescored, by a payload that supplies a country name,
    a genre and a language as well. *)
Lemma update_changes_only_supplied_columns_witness :
  let payload := <["country" := VStr "United States"]>
                   (<["genre_ids" := VList ["1"]]>
                      (<["languages" := VList ["English"]]>
                         Sample.inception_rescored)) in
  ∃ r row',
    PATCH_movie Sample.model_columns Sample.today 1 payload [] Sample.catalog
    = (r, mkDb (<[1 := row']> (movies Sample.catalog)) (countries Sample.catalog),
       [Execute; Commit; Refresh])
    ∧ (status_code r = 200 ∨ r = mkResponse 500 (InternalServerError None))
    ∧ (∀ key, payload !! key = None ∨ key ∉ MovieCreateUpdateSchema.model_fields →
              columns row' !! key = columns Sample.inception_row !! key)
    ∧ (∀ key, key ∉ Sample.model_columns →
              columns row' !! key = columns Sample.inception_row !! key)
    ∧ (∀ key v, is_Some (payload !! key) → key ∈ Sample.model_columns →
                (key, v)
                ∈ MovieCreateUpdateSchema.dict
                    (MovieCreateUpdateSchema.mk
                       "Inception" 733969 (Py.float_of_int 90)
                       "A thief who steals secrets." RELEASED
                       (Py.mkDecimal 16000000000 (-2)) (Py.float_of_int 836800000)
                       (Some 1) (Some "United States") (Some ["1"]) (Some [])
                       (Some ["English"])
                       (dom payload
                        ∩ list_to_set MovieCreateUpdateSchema.model_fields)) →
                columns row' !! key = Some v)
    ∧ row_genres row' = row_genres Sample.inception_row
    ∧ row_actors row' = row_actors Sample.inception_row
    ∧ row_languages row' = row_languages Sample.inception_row.
Proof.
  intros payload.
  apply (update_changes_only_supplied_columns Sample.model_columns Sample.today 1
           payload _ Sample.catalog Sample.inception_row).
  - vm_compute. reflexivity.
  - vm_compute. reflexivity.
  - vm_compute. reflexivity.
Defined.

(** The request of that sample is answered 200. *)
Example update_with_extra_fields_succeeds :
  status_code
    (PATCH_movie Sample.model_columns Sample.today 1
       (<["country" := VStr "United States"]>
          (<["genre_ids" := VList ["1"]]>
             (<["languages" := VList ["English"]]> Sample.inception_rescored)))
       [] Sample.catalog).1.1 = 200.
Proof. vm_compute. reflexivity. Qed.

(** ** The answers of the create operation *)

(** X25. No create request is answered 201. Whatever the payload, the model
    class, the store and the requests committing meanwhile, the answer is a
    validation error, a conflict or a server error: the constructor is handed
    country=None or a country name, and so either refuses the payload or
    builds an instance without a country, which the response model refuses
    after the row was written. *)
Theorem create_is_never_answered_201 (model_columns model_attrs : gset string)
    (today : Z) (payload : gmap string value) (others : list change) (s : db) :
  status_code (POST_movies model_columns model_attrs today payload others s).1.1 ≠ 201.
Proof. apply POST_movies_not_201. Qed.
